(** * pi-ext: the interactive selection engine of the leader-key extension

    A shallow embedding of
      - [extensions/leader-key/model-switcher]  (allow-list, searchable
        select list, the provider / model / thinking-level wizard),
      - [extensions/leader-key/index.ts]        (the chorded palette),
      - [extensions/leader-key/favourite-models.ts] (preset loading and the
        quick picker),
    followed by the properties proved about them.

    Conventions.  A JavaScript string is a [string] (a sequence of 8-bit
    code units), [length] is [String.length], relational operators on
    strings are the lexicographic order on code units, and [toLowerCase]
    is the ASCII case mapping.  On ASCII strings ([Js.isAscii]) this is
    the representation of the sources, unit for unit; the properties of
    the allow-list and of the loaded presets that rest on it take their
    strings in ASCII.  Numbers that the code may drive below zero are
    [Z].  Host functions that live in [@mariozechner/pi-tui] and
    [@mariozechner/pi-coding-agent] ([matchesKey], [parseKey],
    [fuzzyFilter], [localeCompare], the model registry, the settings
    manager, the notification sink) are section variables or events: every
    theorem holds for all of them. *)

From Stdlib Require Import String Ascii List ZArith Lia Bool DecimalString
  Permutation.
Import ListNotations.

Set Implicit Arguments.
Set Warnings "-register-all".
Local Open Scope list_scope.
Local Open Scope string_scope.

(* ------------------------------------------------------------------------- *)
(** ** JavaScript string primitives used by the sources *)
(* ------------------------------------------------------------------------- *)

Module Js.

Definition code (c : ascii) : nat := nat_of_ascii c.

(** [String.prototype.toLowerCase], ASCII range. *)
Definition lowerChar (c : ascii) : ascii :=
  if (65 <=? code c)%nat && (code c <=? 90)%nat
  then ascii_of_nat (code c + 32) else c.

Fixpoint toLowerCase (s : string) : string :=
  match s with
  | EmptyString => EmptyString
  | String c r => String (lowerChar c) (toLowerCase r)
  end.

(** [s.includes(c)] for a one-character needle. *)
Fixpoint includes (s : string) (c : ascii) : bool :=
  match s with
  | EmptyString => false
  | String d r => Ascii.eqb d c || includes r c
  end.

(** [s.replace(/<class>/g, r)] where the regular expression matches single
    characters: every character for which [hit] holds is replaced by
    [subst] of it, the others are kept. *)
Fixpoint replaceEach (hit : ascii -> bool) (subst : ascii -> string)
         (s : string) : string :=
  match s with
  | EmptyString => EmptyString
  | String c r =>
      (if hit c then subst c else String c EmptyString)
        ++ replaceEach hit subst r
  end.

(** [s.slice(0, -1)]: all but the last code unit. *)
Fixpoint dropLast (s : string) : string :=
  match s with
  | EmptyString => EmptyString
  | String c EmptyString => EmptyString
  | String c r => String c (dropLast r)
  end.

(** A single code unit between space and tilde:
    [data.length === 1 && data >= SPACE && data <= TILDE]. *)
Definition isPrintable (data : string) : bool :=
  (String.length data =? 1)%nat && (" " <=? data)%string && (data <=? "~")%string.

(** Every code unit is below 128.  On such a string the code units of
    this file are the UTF-16 code units of the sources, one for one, and
    [toLowerCase] above is [String.prototype.toLowerCase]. *)
Fixpoint isAscii (s : string) : bool :=
  match s with
  | EmptyString => true
  | String c r => (code c <? 128)%nat && isAscii r
  end.

(** The double-quote character, as a string. *)
Definition dquote : string := String (ascii_of_nat 34) EmptyString.

(** Decimal rendering of a count inside a template literal. *)
Definition ofNat (n : nat) : string := NilEmpty.string_of_uint (Nat.to_uint n).

(** Truthiness of a [string | null] value: [null] and the empty string
    are falsy. *)
Definition truthy (v : option string) : bool :=
  match v with
  | None => false
  | Some s => negb (String.eqb s EmptyString)
  end.

(** [Array.prototype.sort(cmp)] is stable; [cmp a b > 0] moves [a] after
    [b]. *)
Section Sort.
Variable A : Type.
Variable cmp : A -> A -> Z.

Fixpoint insertSorted (x : A) (l : list A) : list A :=
  match l with
  | [] => [x]
  | y :: r => if (cmp x y <? 0)%Z then x :: y :: r else y :: insertSorted x r
  end.

Definition sort (l : list A) : list A :=
  fold_left (fun acc x => insertSorted x acc) l [].
End Sort.

End Js.

(* ------------------------------------------------------------------------- *)
(** ** The fragment of [RegExp] that the allow-list check can build *)
(* ------------------------------------------------------------------------- *)

Module RegExp.

(** Pieces of a pattern [^ ... $] without flags. *)
Inductive piece : Type :=
| Lit (c : ascii)       (* a literal or an identity escape [\c] *)
| AnyChar               (* [.]  *)
| AnyStar.              (* [.*] *)

(** Characters with a syntactic role in a pattern. *)
Definition syntaxChar (c : ascii) : bool :=
  existsb (Ascii.eqb c)
    ["^"; "$"; "\"; "."; "*"; "+"; "?"; "("; ")"; "["; "]"; "{"; "}"; "|"]%char.

(** [.] matches any code unit except the line terminators. *)
Definition lineTerminator (c : ascii) : bool :=
  (Js.code c =? 10)%nat || (Js.code c =? 13)%nat.

(** The body up to and including the closing [$].  [None] is a source
    outside the fragment (which [new RegExp] may reject). *)
Fixpoint parseBody (src : string) : option (list piece) :=
  match src with
  | EmptyString => None
  | String "$" EmptyString => Some []
  | String "\" (String c r) =>
      if syntaxChar c
      then option_map (cons (Lit c)) (parseBody r) else None
  | String "." (String "*" r) => option_map (cons AnyStar) (parseBody r)
  | String "." r => option_map (cons AnyChar) (parseBody r)
  | String c r =>
      if syntaxChar c then None
      else option_map (cons (Lit c)) (parseBody r)
  end.

(** [new RegExp(src)]. *)
Definition make (src : string) : option (list piece) :=
  match src with
  | String "^" body => parseBody body
  | _ => None
  end.

(** Anchored matching by backtracking. *)
Fixpoint matchPieces (ps : list piece) : string -> bool :=
  match ps with
  | [] => fun s => match s with EmptyString => true | _ => false end
  | Lit c :: ps' =>
      fun s => match s with
               | String d r => Ascii.eqb c d && matchPieces ps' r
               | EmptyString => false
               end
  | AnyChar :: ps' =>
      fun s => match s with
               | String d r => negb (lineTerminator d) && matchPieces ps' r
               | EmptyString => false
               end
  | AnyStar :: ps' =>
      fix star (s : string) : bool :=
        matchPieces ps' s
        || match s with
           | String d r => negb (lineTerminator d) && star r
           | EmptyString => false
           end
  end.

(** [regex.test(s)]. *)
Definition test (re : list piece) (s : string) : bool := matchPieces re s.

End RegExp.

(* ------------------------------------------------------------------------- *)
(** ** What a component exchanges with the terminal UI host *)
(* ------------------------------------------------------------------------- *)

Module Tui.

(** Key identifiers handed to [matchesKey]: a name such as [escape], or
    [Key.ctrl(k)]. *)
Inductive KeyId : Type :=
| Named (name : string)
| Ctrl (k : string).

(** What one call of a component's [handleInput] does besides updating
    its own variables: nothing, [tui.requestRender()], [done(r)] (with
    [None] for [null]), or an uncaught [TypeError]. *)
Inductive Signal (R : Type) : Type :=
| Idle
| RequestRender
| Done (r : option R)
| Throws.

Arguments Idle {R}.
Arguments RequestRender {R}.
Arguments Done {R} r.
Arguments Throws {R}.

(** [arr[i]] for an integer [i]: [undefined] outside the array. *)
Definition at_ (A : Type) (arr : list A) (i : Z) : option A :=
  if (i <? 0)%Z then None else nth_error arr (Z.to_nat i).

(** [arr.length]. *)
Definition len (A : Type) (arr : list A) : Z := Z.of_nat (List.length arr).

End Tui.

(* ------------------------------------------------------------------------- *)
(** ** Model switcher: allow-list of enabled models *)
(* ------------------------------------------------------------------------- *)

Module ModelSwitcher.

Definition ThinkingLevel := string.

Definition ALL_THINKING_LEVELS : list ThinkingLevel :=
  ["off"; "minimal"; "low"; "medium"; "high"; "xhigh"].

(** An entry of the model registry. *)
Record Model : Type := {
  provider : string;
  id : string;
  name : string;
  reasoning : bool;
  input : list string
}.

Record ProviderInfo : Type := {
  pname : string;
  modelCount : nat
}.

(** [Set<string>]: insertion order, no duplicates. *)
Definition setHas (s : list string) (x : string) : bool :=
  existsb (String.eqb x) s.

Definition setAdd (s : list string) (x : string) : list string :=
  if setHas s x then s else (s ++ [x])%list.

Definition newSet (xs : list string) : list string := fold_left setAdd xs [].

(** [patterns] is what [sm.getEnabledModels()] returned ([None] for
    [undefined]). *)
Definition getEnabledModelSet (patterns : option (list string))
  : option (list string) :=
  match patterns with
  | None => None
  | Some [] => None
  | Some ps => Some (newSet (map Js.toLowerCase ps))
  end.

(** The character class [[.+^${}()|[\]\\]]. *)
Definition escapeClass (c : ascii) : bool :=
  existsb (Ascii.eqb c)
    ["."; "+"; "^"; "$"; "{"; "}"; "("; ")"; "|"; "["; "]"; "\"]%char.

(** The pattern with the class above escaped by a backslash, then every
    star replaced by dot-star, then every question mark by a dot. *)
Definition globBody (pattern : string) : string :=
  Js.replaceEach (Ascii.eqb "?") (fun _ => ".")
    (Js.replaceEach (Ascii.eqb "*") (fun _ => ".*")
       (Js.replaceEach escapeClass
          (fun c => String "\" (String c EmptyString)) pattern)).

(** The source handed to [new RegExp]: the body between the anchors. *)
Definition globSource (pattern : string) : string :=
  "^" ++ globBody pattern ++ "$".

(** The [for (const pattern of enabled)] loop.  [None]: [new RegExp]
    threw. *)
Fixpoint globLoop (key : string) (patterns : list string) : option bool :=
  match patterns with
  | [] => Some false
  | pattern :: rest =>
      if Js.includes pattern "*" || Js.includes pattern "?"
      then match RegExp.make (globSource pattern) with
           | None => None
           | Some regex =>
               if RegExp.test regex key then Some true
               else globLoop key rest
           end
      else globLoop key rest
  end.

(** [`${provider}/${modelId}`.toLowerCase()], with the case mapping and
    the code units of this file: those of the sources for a provider and
    a model id in ASCII. *)
Definition modelKey (provider modelId : string) : string :=
  Js.toLowerCase (provider ++ "/" ++ modelId).

Definition isModelEnabled (provider modelId : string)
           (enabled : option (list string)) : option bool :=
  match enabled with
  | None => Some true
  | Some set =>
      let key := modelKey provider modelId in
      if setHas set key then Some true else globLoop key set
  end.

(** What the regular expression that the code builds from a pattern
    accepts, read off the three replacements of [globBody]: a star has
    become [.*], a question mark [.], and the dot of a regular expression
    does not match a line terminator; anything else stands for itself
    (see [globSource_refines]). *)
Fixpoint regexGlob (pattern : string) : string -> bool :=
  match pattern with
  | EmptyString =>
      fun s => match s with EmptyString => true | _ => false end
  | String c rest =>
      if Ascii.eqb c "*" then
        fix star (s : string) : bool :=
          regexGlob rest s
          || match s with
             | String d r => negb (RegExp.lineTerminator d) && star r
             | EmptyString => false
             end
      else if Ascii.eqb c "?" then
        fun s => match s with
                 | String d r =>
                     negb (RegExp.lineTerminator d) && regexGlob rest r
                 | EmptyString => false
                 end
      else
        fun s => match s with
                 | String d r => Ascii.eqb c d && regexGlob rest r
                 | EmptyString => false
                 end
  end.



Definition isGlob (pattern : string) : bool :=
  Js.includes pattern "*" || Js.includes pattern "?".

(** What the three replacements make of one pattern character. *)
Definition globChar (c : ascii) : string :=
  if Ascii.eqb c "*" then ".*"
  else if Ascii.eqb c "?" then "."
  else if escapeClass c then String "\" (String c EmptyString)
  else String c EmptyString.

Definition startsWithStar (s : string) : bool :=
  match s with
  | String c _ => Ascii.eqb c "*"
  | EmptyString => false
  end.

(** One round of the loop over the set, and the whole check for one
    entry of the set. *)
Definition globHit (key pattern : string) : bool :=
  isGlob pattern && regexGlob pattern key.

Definition enabledBy (key pattern : string) : bool :=
  String.eqb pattern key || globHit key pattern.

(* ----------------------------------------------------------------------- *)
(** *** The searchable select list *)

Record SearchableItem : Type := {
  value : string;
  label : string;
  description : option string
}.

Definition MAX_VISIBLE : Z := 15.

(** The variables closed over by the component. *)
Record SelectState : Type := {
  searchText : string;
  filteredItems : list SearchableItem;
  highlightedIndex : Z;
  scrollOffset : Z
}.

Definition setSearchText (st : SelectState) (q : string) : SelectState :=
  {| searchText := q;
     filteredItems := filteredItems st;
     highlightedIndex := highlightedIndex st;
     scrollOffset := scrollOffset st |}.

Definition setHighlightedIndex (st : SelectState) (i : Z) : SelectState :=
  {| searchText := searchText st;
     filteredItems := filteredItems st;
     highlightedIndex := i;
     scrollOffset := scrollOffset st |}.

Definition setScrollOffset (st : SelectState) (o : Z) : SelectState :=
  {| searchText := searchText st;
     filteredItems := filteredItems st;
     highlightedIndex := highlightedIndex st;
     scrollOffset := o |}.

Section SearchableSelect.

Variable matchesKey : string -> Tui.KeyId -> bool.
Variable fuzzyFilter :
  forall T : Type, list T -> string -> (T -> string) -> list T.
Variable items : list SearchableItem.

Definition initialState : SelectState :=
  {| searchText := EmptyString;
     filteredItems := items;
     highlightedIndex := 0;
     scrollOffset := 0 |}.

Definition itemText (item : SearchableItem) : string :=
  label item ++ " " ++ value item.

Definition applyFilter (st : SelectState) : SelectState :=
  {| searchText := searchText st;
     filteredItems :=
       if String.eqb (searchText st) EmptyString then items
       else fuzzyFilter items (searchText st) itemText;
     highlightedIndex := 0;
     scrollOffset := 0 |}.

Definition ensureVisible (st : SelectState) : SelectState :=
  if (highlightedIndex st <? scrollOffset st)%Z then
    setScrollOffset st (highlightedIndex st)
  else if (scrollOffset st + MAX_VISIBLE <=? highlightedIndex st)%Z then
    setScrollOffset st (highlightedIndex st - MAX_VISIBLE + 1)
  else st.

(** The two navigation branches of [handleInput]. *)
Definition moveUp (st : SelectState) : SelectState :=
  ensureVisible
    (setHighlightedIndex st (Z.max 0 (highlightedIndex st - 1))).

Definition moveDown (st : SelectState) : SelectState :=
  ensureVisible
    (setHighlightedIndex st
       (Z.min (Tui.len (filteredItems st) - 1) (highlightedIndex st + 1))).

Definition handleInput (st : SelectState) (data : string)
  : SelectState * Tui.Signal string :=
  if matchesKey data (Tui.Named "escape") || matchesKey data (Tui.Ctrl "c")
  then (st, Tui.Done None)
  else if matchesKey data (Tui.Named "backspace") then
    if (0 <? String.length (searchText st))%nat
    then (applyFilter (setSearchText st (Js.dropLast (searchText st))),
          Tui.RequestRender)
    else (st, Tui.Idle)
  else if matchesKey data (Tui.Named "up") || matchesKey data (Tui.Ctrl "p")
  then (moveUp st, Tui.RequestRender)
  else if matchesKey data (Tui.Named "down")
          || matchesKey data (Tui.Ctrl "n")
  then (moveDown st, Tui.RequestRender)
  else if matchesKey data (Tui.Named "enter") then
    if (0 <? Tui.len (filteredItems st))%Z
       && (highlightedIndex st <? Tui.len (filteredItems st))%Z
    then match Tui.at_ (filteredItems st) (highlightedIndex st) with
         | Some item => (st, Tui.Done (Some (value item)))
         | None => (st, Tui.Throws)
         end
    else (st, Tui.Idle)
  else if Js.isPrintable data
  then (applyFilter (setSearchText st (searchText st ++ data)),
        Tui.RequestRender)
  else (st, Tui.Idle).

(** How [handleInput] classifies an input event, first match wins. *)
Definition isCancelKey (data : string) : bool :=
  matchesKey data (Tui.Named "escape") || matchesKey data (Tui.Ctrl "c").

Definition isBackspaceKey (data : string) : bool :=
  negb (isCancelKey data) && matchesKey data (Tui.Named "backspace").

Definition isUpKey (data : string) : bool :=
  negb (isCancelKey data)
  && negb (matchesKey data (Tui.Named "backspace"))
  && (matchesKey data (Tui.Named "up") || matchesKey data (Tui.Ctrl "p")).

Definition isDownKey (data : string) : bool :=
  negb (isCancelKey data)
  && negb (matchesKey data (Tui.Named "backspace"))
  && negb (matchesKey data (Tui.Named "up") || matchesKey data (Tui.Ctrl "p"))
  && (matchesKey data (Tui.Named "down") || matchesKey data (Tui.Ctrl "n")).

(** The input is one of the recognised control keys. *)
Definition isControlKey (data : string) : bool :=
  matchesKey data (Tui.Named "escape") || matchesKey data (Tui.Ctrl "c")
  || matchesKey data (Tui.Named "backspace")
  || matchesKey data (Tui.Named "up") || matchesKey data (Tui.Ctrl "p")
  || matchesKey data (Tui.Named "down") || matchesKey data (Tui.Ctrl "n")
  || matchesKey data (Tui.Named "enter").

(** A state whose highlighted row exists and lies inside the visible
    window. *)
Definition wellFormed (st : SelectState) : Prop :=
  (0 <= highlightedIndex st < Tui.len (filteredItems st)
   /\ 0 <= scrollOffset st <= highlightedIndex st
   /\ highlightedIndex st < scrollOffset st + MAX_VISIBLE)%Z.

(** What the code maintains when nothing matches the query. *)
Definition emptyForm (st : SelectState) : Prop :=
  (filteredItems st = []
   /\ -1 <= scrollOffset st <= highlightedIndex st
   /\ highlightedIndex st <= 0)%Z.

(** What holds between two input events (see [run_settled]). *)
Definition settled (st : SelectState) : Prop :=
  wellFormed st \/ emptyForm st.

(** The component fed a stream of input events; it is disposed of once
    it has called [done] (or thrown), and later events do not reach
    it. *)
Fixpoint feed (st : SelectState) (events : list string)
  : SelectState * Tui.Signal string :=
  match events with
  | [] => (st, Tui.Idle)
  | data :: rest =>
      match handleInput st data with
      | (st', Tui.Done r) => (st', Tui.Done r)
      | (st', Tui.Throws) => (st', Tui.Throws)
      | (st', _) => feed st' rest
      end
  end.

End SearchableSelect.

(* ----------------------------------------------------------------------- *)
(** *** The wizard: provider, model, thinking level *)

(** Calls into the host.  Reads of the context and the registry are
    events as well, since the host may answer them differently each
    time. *)
Inductive Event : Type :=
| HasUI                                   (* ctx.hasUI *)
| GetEnabledModels                        (* settings: enabledModels *)
| GetAvailable                            (* ctx.modelRegistry.getAvailable() *)
| CurrentModel                            (* ctx.model *)
| Find (provider modelId : string)        (* ctx.modelRegistry.find *)
| GetThinkingLevel                        (* pi.getThinkingLevel() *)
| Select (title : string) (items : list SearchableItem)
         (helpText : option string)       (* await searchableSelect(...) *)
| Notify (message severity : string)      (* ctx.ui.notify *)
| SetModel (m : Model)                    (* await pi.setModel *)
| SetThinkingLevel (level : ThinkingLevel).

Definition answer (e : Event) : Type :=
  match e with
  | HasUI => bool
  | GetEnabledModels => option (list string)
  | GetAvailable => list Model
  | CurrentModel => option Model
  | Find _ _ => option Model
  | GetThinkingLevel => ThinkingLevel
  | Select _ _ _ => option string
  | Notify _ _ => unit
  | SetModel _ => bool
  | SetThinkingLevel _ => unit
  end.

(** A run of an [async] function: it returns, throws, or calls the host
    and continues with the answer. *)
Inductive Prog (A : Type) : Type :=
| Ret (a : A)
| Raise
| Call (e : Event) (k : answer e -> Prog A).

Arguments Ret {A} a.
Arguments Raise {A}.
Arguments Call {A} e k.

Fixpoint bind (A B : Type) (p : Prog A) (f : A -> Prog B) : Prog B :=
  match p with
  | Ret a => f a
  | Raise => Raise
  | Call e k => Call e (fun x => bind (k x) f)
  end.

Definition call (e : Event) : Prog (answer e) := Call e (fun x => Ret x).

Definition orRaise (A : Type) (v : option A) : Prog A :=
  match v with
  | Some a => Ret a
  | None => Raise
  end.

Notation "x <- p ;; q" := (bind p (fun x => q))
  (at level 61, p at next level, right associativity).
Notation "p ;;; q" := (bind p (fun _ => q))
  (at level 61, right associativity).

(** [models.filter((m) => isModelEnabled(m.provider, m.id, enabled))]. *)
Fixpoint filterEnabled (enabled : option (list string)) (models : list Model)
  : option (list Model) :=
  match models with
  | [] => Some []
  | m :: rest =>
      match isModelEnabled (provider m) (id m) enabled with
      | None => None
      | Some keep =>
          match filterEnabled enabled rest with
          | None => None
          | Some rest' => Some (if keep then m :: rest' else rest')
          end
      end
  end.

Definition getAvailableEnabledModels : Prog (list Model) :=
  patterns <- call GetEnabledModels ;;
  let enabled := getEnabledModelSet patterns in
  available <- call GetAvailable ;;
  orRaise (filterEnabled enabled available).

(** [Map<string, number>] with its insertion order. *)
Fixpoint mapGet (m : list (string * nat)) (k : string) : option nat :=
  match m with
  | [] => None
  | (k', v) :: rest => if String.eqb k' k then Some v else mapGet rest k
  end.

Fixpoint mapSet (m : list (string * nat)) (k : string) (v : nat)
  : list (string * nat) :=
  match m with
  | [] => [(k, v)]
  | (k', v') :: rest =>
      if String.eqb k' k then (k', v) :: rest else (k', v') :: mapSet rest k v
  end.

Section Wizard.

Variable localeCompare : string -> string -> Z.

Definition countProviders (models : list Model) : list (string * nat) :=
  fold_left
    (fun providerMap model =>
       mapSet providerMap (provider model)
         (match mapGet providerMap (provider model) with
          | Some n => n
          | None => 0
          end + 1))
    models [].

Definition getProviders : Prog (list ProviderInfo) :=
  models <- getAvailableEnabledModels ;;
  Ret (Js.sort (fun a b => localeCompare (pname a) (pname b))
         (map (fun e => {| pname := fst e; modelCount := snd e |})
            (countProviders models))).

Definition getModelsForProvider (prov : string) : Prog (list Model) :=
  models <- getAvailableEnabledModels ;;
  Ret (Js.sort (fun a b => localeCompare (name a) (name b))
         (filter (fun m => String.eqb (provider m) prov) models)).

Definition getThinkingDescription (level : ThinkingLevel) : string :=
  if String.eqb level "off" then "No extended thinking"
  else if String.eqb level "minimal" then "Minimal reasoning effort"
  else if String.eqb level "low" then "Low reasoning effort"
  else if String.eqb level "medium" then "Moderate reasoning effort"
  else if String.eqb level "high" then "High reasoning effort"
  else if String.eqb level "xhigh" then "Maximum reasoning effort"
  else EmptyString.

Definition plural (n : nat) : string :=
  if (n =? 1)%nat then EmptyString else "s".

(** [a === b] for [string | undefined] operands. *)
Definition sameString (a b : option string) : bool :=
  match a, b with
  | Some x, Some y => String.eqb x y
  | None, None => true
  | _, _ => false
  end.

Definition providerItem (currentProvider : option string) (p : ProviderInfo)
  : SearchableItem :=
  let isCurrent := sameString (Some (pname p)) currentProvider in
  let badge := if isCurrent then " (current)" else EmptyString in
  {| value := pname p;
     label := pname p ++ badge;
     description :=
       Some (Js.ofNat (modelCount p) ++ " model" ++ plural (modelCount p)) |}.

Definition modelItem (currentProvider currentModelId : option string)
           (model : Model) : SearchableItem :=
  let isCurrent :=
    sameString (Some (provider model)) currentProvider
    && sameString (Some (id model)) currentModelId in
  let badge := if isCurrent then " (current)" else EmptyString in
  let features :=
    ((if reasoning model then ["reasoning"] else [])
       ++ (if existsb (String.eqb "image") (input model)
           then ["vision"] else []))%list in
  let desc :=
    if (0 <? List.length features)%nat
    then String.concat ", " features else EmptyString in
  {| value := id model;
     label := name model ++ badge;
     description := Some desc |}.

Definition thinkingItem (currentThinking : ThinkingLevel)
           (level : ThinkingLevel) : SearchableItem :=
  let isCurrent := String.eqb level currentThinking in
  {| value := level;
     label := if isCurrent then level ++ " (current)" else level;
     description := Some (getThinkingDescription level) |}.

Definition defaultHelp : string :=
  "type to search • ↑↓ navigate • enter select • esc cancel".

Definition runModelSwitcher : Prog unit :=
  hasUI <- call HasUI ;;
  if negb hasUI then Ret tt else
  (* Step 1: pick provider *)
  providers <- getProviders ;;
  if (List.length providers =? 0)%nat then
    call (Notify "No providers available" "warning")
  else
  cm <- call CurrentModel ;;
  let currentProvider := option_map provider cm in
  let providerItems := map (providerItem currentProvider) providers in
  selectedProvider' <- call (Select "Select Provider" providerItems None) ;;
  match (if Js.truthy selectedProvider' then selectedProvider' else None) with
  | None => Ret tt
  | Some selectedProvider =>
  (* Step 2: pick model from provider *)
  models <- getModelsForProvider selectedProvider ;;
  if (List.length models =? 0)%nat then
    call (Notify ("No models found for provider " ++ Js.dquote
                    ++ selectedProvider ++ Js.dquote) "warning")
  else
  cm' <- call CurrentModel ;;
  let currentModelId := option_map id cm' in
  let modelItems := map (modelItem currentProvider currentModelId) models in
  selectedModelId' <-
    call (Select ("Select Model (" ++ selectedProvider ++ ")")
            modelItems None) ;;
  match (if Js.truthy selectedModelId' then selectedModelId' else None) with
  | None => Ret tt
  | Some selectedModelId =>
  (* Step 3: pick thinking level *)
  found <- call (Find selectedProvider selectedModelId) ;;
  match found with
  | None =>
      call (Notify ("Model " ++ selectedProvider ++ "/" ++ selectedModelId
                      ++ " not found") "error")
  | Some selectedModel =>
  let supportsReasoning := reasoning selectedModel in
  initialThinking <- call GetThinkingLevel ;;
  chosen <-
    (if supportsReasoning then
       currentThinking <- call GetThinkingLevel ;;
       let thinkingItems :=
         map (thinkingItem currentThinking) ALL_THINKING_LEVELS in
       thinkingChoice <-
         call (Select ("Thinking Level (" ++ name selectedModel ++ ")")
                 thinkingItems (Some defaultHelp)) ;;
       Ret (if Js.truthy thinkingChoice then thinkingChoice else None)
     else Ret (Some initialThinking)) ;;
  match chosen with
  | None => Ret tt
  | Some selectedThinking =>
  (* Apply *)
  ok <- call (SetModel selectedModel) ;;
  if negb ok then
    call (Notify ("No API key available for " ++ selectedProvider ++ "/"
                    ++ selectedModelId) "warning")
  else
  (if supportsReasoning
   then call (SetThinkingLevel selectedThinking) else Ret tt) ;;;
  call (Notify ("Switched to " ++ name selectedModel
                  ++ (if supportsReasoning
                      then " (thinking: " ++ selectedThinking ++ ")"
                      else EmptyString)) "info")
  end end end end.

End Wizard.

(** One observed host call together with the host's answer. *)
Definition Entry : Type := { e : Event & answer e }.

(** The host: the answer it gives to the [n]-th call of a run. *)
Definition Host : Type := nat -> forall e : Event, answer e.

(** The trace of a run against a host, and how the run ended ([None]: an
    exception escaped). *)
Fixpoint exec (A : Type) (p : Prog A) (host : Host) (n : nat)
  : list Entry * option A :=
  match p with
  | Ret a => ([], Some a)
  | Raise => ([], None)
  | Call e k =>
      let x := host n e in
      let (tr, r) := exec (k x) host (S n) in
      (existT answer e x :: tr, r)
  end.

(** A step of the wizard that came back cancelled. *)
Definition isCancelled (en : Entry) : bool :=
  match en with
  | existT _ (Select _ _ _) None => true
  | _ => false
  end.

(** Calls that change external state or tell the user something. *)
Definition isEffect (e : Event) : bool :=
  match e with
  | Notify _ _ | SetModel _ | SetThinkingLevel _ => true
  | _ => false
  end.

Definition isSelectEvent (e : Event) : bool :=
  match e with
  | Select _ _ _ => true
  | _ => false
  end.

(** The trace has no notification and no change of external state. *)
Definition quiet (tr : list Entry) : bool :=
  forallb (fun en => negb (isEffect (projT1 en))) tr.

(** Programs that only read from the host. *)
Inductive ReadOnly (A : Type) : Prog A -> Prop :=
| RO_Ret a : ReadOnly (Ret a)
| RO_Raise : ReadOnly Raise
| RO_Call e k :
    isEffect e = false -> isSelectEvent e = false ->
    (forall x, ReadOnly (k x)) -> ReadOnly (Call e k).

(** Programs that show no further prompt. *)
Inductive NoSelect (A : Type) : Prog A -> Prop :=
| NS_Ret a : NoSelect (Ret a)
| NS_Raise : NoSelect Raise
| NS_Call e k :
    isSelectEvent e = false ->
    (forall x, NoSelect (k x)) -> NoSelect (Call e k).

(** Programs in which a cancelled prompt ends the run on the spot and in
    which no effect precedes a prompt. *)
Inductive CancelSafe (A : Type) : Prog A -> Prop :=
| CS_Ret a : CancelSafe (Ret a)
| CS_Raise : CancelSafe Raise
| CS_Read e k :
    isEffect e = false -> isSelectEvent e = false ->
    (forall x, CancelSafe (k x)) -> CancelSafe (Call e k)
| CS_Select title items helpText
            (k : answer (Select title items helpText) -> Prog A) :
    (exists a, k None = Ret a) ->
    (forall v, CancelSafe (k (Some v))) ->
    CancelSafe (Call (Select title items helpText) k)
| CS_Effect e k :
    isEffect e = true ->
    (forall x, NoSelect (k x)) -> CancelSafe (Call e k).

End ModelSwitcher.

(* ------------------------------------------------------------------------- *)
(** ** The standalone model switcher (the earlier extension) *)
(* ------------------------------------------------------------------------- *)

(** The earlier extension drives the host's [SelectList] and writes its
    filter result into two of its fields. *)
Module Standalone.

Import ModelSwitcher.

(** The fields of the [SelectList] that [applyFuzzyFilter] assigns. *)
Record SelectListFields : Type := {
  filteredItems : list SearchableItem;
  selectedIndex : Z
}.

Section Filter.

Variable fuzzyFilter :
  forall T : Type, list T -> string -> (T -> string) -> list T.
Variable items : list SearchableItem.

Definition applyFuzzyFilter (query : string) (sl : SelectListFields)
  : SelectListFields :=
  {| filteredItems :=
       if String.eqb query EmptyString then items
       else fuzzyFilter items query itemText;
     selectedIndex := 0 |}.

End Filter.

End Standalone.

(* ------------------------------------------------------------------------- *)
(** ** Leader key: the chorded palette *)
(* ------------------------------------------------------------------------- *)

Module LeaderKey.

Section Overlay.

(** What an entry runs when selected: [(ctx) => void | Promise<void>]. *)
Variable Action : Type.

Record ActionItem : Type := {
  key : string;
  label : string;
  description : option string;
  action : Action
}.

Record ActionGroup : Type := {
  groupKey : string;
  groupLabel : string;
  items : list ActionItem
}.

(** Top-level entry: either a group (chord, then submenu) or a direct
    action. *)
Inductive TopLevelEntry : Type :=
| GroupEntry (group : ActionGroup)
| ActionEntry (item : ActionItem).

Inductive View : Type :=
| Root
| InGroup (group : ActionGroup).

(** The mutable fields of the overlay. *)
Record Overlay : Type := {
  view : View;
  highlightedIndex : Z
}.

(** A row of [currentItems]. *)
Record Row : Type := {
  rowKey : string;
  rowLabel : string;
  rowDescription : option string
}.

Variable matchesKey : string -> Tui.KeyId -> bool.
Variable parseKey : string -> option string.
Variable entries : list TopLevelEntry.

Definition initialOverlay : Overlay := {| view := Root; highlightedIndex := 0 |}.

Definition entryKey (e : TopLevelEntry) : string :=
  match e with
  | GroupEntry g => groupKey g
  | ActionEntry a => key a
  end.

Definition currentItems (o : Overlay) : list Row :=
  match view o with
  | Root =>
      map (fun e =>
             match e with
             | GroupEntry g =>
                 {| rowKey := groupKey g;
                    rowLabel := groupLabel g;
                    rowDescription :=
                      Some (Js.ofNat (List.length (items g)) ++ " action"
                              ++ (if (List.length (items g) =? 1)%nat
                                  then EmptyString else "s")) |}
             | ActionEntry a =>
                 {| rowKey := key a;
                    rowLabel := label a;
                    rowDescription := description a |}
             end) entries
  | InGroup g =>
      map (fun a => {| rowKey := key a;
                       rowLabel := label a;
                       rowDescription := description a |}) (items g)
  end.

Definition handleRootSelection (o : Overlay) (k : string)
  : Overlay * Tui.Signal ActionItem :=
  match find (fun e => String.eqb (entryKey e) k) entries with
  | None => (o, Tui.Idle)
  | Some (GroupEntry g) =>
      ({| view := InGroup g; highlightedIndex := 0 |}, Tui.Idle)
  | Some (ActionEntry a) =>
      (o, Tui.Done (Some {| key := key a;
                            label := label a;
                            description := description a;
                            action := action a |}))
  end.

(** The body shared by the enter branch and the two direct-key
    branches: dispatch a key in the current view. *)
Definition selectKey (o : Overlay) (k : string)
  : Overlay * Tui.Signal ActionItem :=
  match view o with
  | Root => handleRootSelection o k
  | InGroup g =>
      match find (fun a => String.eqb (key a) k) (items g) with
      | Some a => (o, Tui.Done (Some a))
      | None => (o, Tui.Idle)
      end
  end.

(** Escape, Ctrl+C and backspace: back to the root, or close. *)
Definition goBack (o : Overlay) : Overlay * Tui.Signal ActionItem :=
  match view o with
  | InGroup _ => ({| view := Root; highlightedIndex := 0 |}, Tui.Idle)
  | Root => (o, Tui.Done None)
  end.

(** [parsed && parsed.length === 1 && parsed >= a && parsed <= z]. *)
Definition isLowerLetter (parsed : option string) : bool :=
  match parsed with
  | None => false
  | Some p =>
      negb (String.eqb p EmptyString)
      && (String.length p =? 1)%nat && ("a" <=? p)%string && (p <=? "z")%string
  end.

(** [LeaderKeyOverlay.handleInput]; the component that wraps the overlay
    requests a render after every call, whatever the signal. *)
Definition handleInput (o : Overlay) (data : string)
  : Overlay * Tui.Signal ActionItem :=
  if matchesKey data (Tui.Named "escape") || matchesKey data (Tui.Ctrl "c")
  then goBack o
  else if matchesKey data (Tui.Named "backspace") then goBack o
  else if matchesKey data (Tui.Named "up") then
    ({| view := view o;
        highlightedIndex := Z.max 0 (highlightedIndex o - 1) |}, Tui.Idle)
  else if matchesKey data (Tui.Named "down") then
    ({| view := view o;
        highlightedIndex :=
          Z.min (Tui.len (currentItems o) - 1) (highlightedIndex o + 1) |},
     Tui.Idle)
  else if matchesKey data (Tui.Named "enter")
          || matchesKey data (Tui.Named "return") then
    if (0 <=? highlightedIndex o)%Z
       && (highlightedIndex o <? Tui.len (currentItems o))%Z
    then match Tui.at_ (currentItems o) (highlightedIndex o) with
         | Some item => selectKey o (rowKey item)
         | None => (o, Tui.Throws)
         end
    else (o, Tui.Idle)
  else
    let parsed := parseKey data in
    if isLowerLetter parsed then
      match parsed with
      | Some p => selectKey o (Js.toLowerCase p)
      | None => (o, Tui.Idle)
      end
    else if Js.isPrintable data then selectKey o (Js.toLowerCase data)
    else (o, Tui.Idle).

(** The input is one of the reserved control keys of the palette. *)
Definition isReservedKey (data : string) : bool :=
  matchesKey data (Tui.Named "escape") || matchesKey data (Tui.Ctrl "c")
  || matchesKey data (Tui.Named "backspace")
  || matchesKey data (Tui.Named "up") || matchesKey data (Tui.Named "down")
  || matchesKey data (Tui.Named "enter")
  || matchesKey data (Tui.Named "return").

(** The chord key that the two direct-key branches dispatch. *)
Definition directKey (data : string) : option string :=
  if isLowerLetter (parseKey data)
  then option_map Js.toLowerCase (parseKey data)
  else if Js.isPrintable data then Some (Js.toLowerCase data)
  else None.

(** The input event is a press of chord key [k]. *)
Definition presses (data k : string) : Prop :=
  isReservedKey data = false /\ directKey data = Some k.

End Overlay.

End LeaderKey.

(* ------------------------------------------------------------------------- *)
(** ** Favourite models: preset file and quick picker *)
(* ------------------------------------------------------------------------- *)

Module Favourites.

(** A value produced by [JSON.parse]; an object is the list of its own
    properties. *)
Inductive Json : Type :=
| JNull
| JBool (b : bool)
| JNumber (literal : string)
| JString (s : string)
| JArray (elements : list Json)
| JObject (properties : list (string * Json)).

Definition MAX_FAVOURITES : nat := 8.

(** Result of evaluating an expression inside the [try] block. *)
Inductive Eval (A : Type) : Type :=
| Value (a : A)
| TypeError.

Arguments Value {A} a.
Arguments TypeError {A}.

Fixpoint ownProperty (properties : list (string * Json)) (k : string)
  : option Json :=
  match properties with
  | [] => None
  | (k', v) :: rest => if String.eqb k' k then Some v else ownProperty rest k
  end.

(** [e.k] for one of the names [key], [label], [provider], [model], none
    of which is found on a prototype: [undefined] ([None]) unless [e] is
    an object that owns it; reading a property of [null] throws. *)
Definition getProperty (e : Json) (k : string) : Eval (option Json) :=
  match e with
  | JNull => TypeError
  | JObject properties => Value (ownProperty properties k)
  | _ => Value None
  end.

(** [typeof v === STRING]. *)
Definition isString (v : option Json) : bool :=
  match v with
  | Some (JString _) => true
  | _ => false
  end.

(** [v.length] of a string, in the code units of this file: the
    [length] of the sources when the string is in ASCII. *)
Definition stringLength (v : option Json) : nat :=
  match v with
  | Some (JString s) => String.length s
  | _ => 0
  end.

(** The predicate handed to [filter], with the short-circuit order of the
    source. *)
Definition isValidEntry (e : Json) : Eval bool :=
  match getProperty e "key" with
  | TypeError => TypeError
  | Value k =>
      if negb (isString k) then Value false
      else if negb (stringLength k =? 1)%nat then Value false
      else match getProperty e "label" with
           | TypeError => TypeError
           | Value l =>
               if negb (isString l) then Value false
               else match getProperty e "provider" with
                    | TypeError => TypeError
                    | Value p =>
                        if negb (isString p) then Value false
                        else match getProperty e "model" with
                             | TypeError => TypeError
                             | Value m => Value (isString m)
                             end
                    end
           end
  end.

(** [parsed.filter(isValidEntry)]. *)
Fixpoint filterValid (parsed : list Json) : Eval (list Json) :=
  match parsed with
  | [] => Value []
  | e :: rest =>
      match isValidEntry e with
      | TypeError => TypeError
      | Value keep =>
          match filterValid rest with
          | TypeError => TypeError
          | Value rest' => Value (if keep then e :: rest' else rest')
          end
      end
  end.

Section Load.

(** [JSON.parse]; [None] when it throws a [SyntaxError]. *)
Variable JSON_parse : string -> option Json.

(** [file] is what [readFileSync(configPath)] returns, [None] when it
    throws. *)
Definition loadFavourites (file : option string) : list Json :=
  match file with
  | None => []
  | Some raw =>
      match JSON_parse raw with
      | None => []
      | Some (JArray parsed) =>
          match filterValid parsed with
          | TypeError => []
          | Value valid => firstn MAX_FAVOURITES valid
          end
      | Some _ => []
      end
  end.

End Load.

(** A loaded favourite as the picker reads it. *)
Record FavouriteModelEntry : Type := {
  key : string;
  label : string;
  provider : string;
  model : string;
  thinking : option Json
}.

Section Picker.

Variable matchesKey : string -> Tui.KeyId -> bool.
Variable parseKey : string -> option string.
Variable favourites : list FavouriteModelEntry.

(** [keyChar || rawChar]. *)
Definition pressedKey (data : string) : option string :=
  let keyChar :=
    match parseKey data with
    | Some parsed =>
        if negb (String.eqb parsed EmptyString)
           && (String.length parsed =? 1)%nat
        then Some (Js.toLowerCase parsed) else None
    | None => None
    end in
  let rawChar :=
    if Js.isPrintable data then Some (Js.toLowerCase data) else None in
  if Js.truthy keyChar then keyChar else rawChar.

(** The picker's only variable is [highlightedIndex]. *)
Definition handleInput (highlightedIndex : Z) (data : string)
  : Z * Tui.Signal FavouriteModelEntry :=
  if matchesKey data (Tui.Named "escape") || matchesKey data (Tui.Ctrl "c")
  then (highlightedIndex, Tui.Done None)
  else if matchesKey data (Tui.Named "backspace")
  then (highlightedIndex, Tui.Done None)
  else if matchesKey data (Tui.Named "up") || matchesKey data (Tui.Ctrl "p")
  then (Z.max 0 (highlightedIndex - 1), Tui.RequestRender)
  else if matchesKey data (Tui.Named "down")
          || matchesKey data (Tui.Ctrl "n")
  then (Z.min (Tui.len favourites - 1) (highlightedIndex + 1),
        Tui.RequestRender)
  else if matchesKey data (Tui.Named "enter") then
    if (0 <=? highlightedIndex)%Z
       && (highlightedIndex <? Tui.len favourites)%Z
    then match Tui.at_ favourites highlightedIndex with
         | Some f => (highlightedIndex, Tui.Done (Some f))
         | None => (highlightedIndex, Tui.Throws)
         end
    else (highlightedIndex, Tui.Idle)
  else
    match pressedKey data with
    | Some pressed =>
        if Js.truthy (Some pressed) then
          match find (fun f => String.eqb (Js.toLowerCase (key f)) pressed)
                  favourites with
          | Some f => (highlightedIndex, Tui.Done (Some f))
          | None => (highlightedIndex, Tui.Idle)
          end
        else (highlightedIndex, Tui.Idle)
    | None => (highlightedIndex, Tui.Idle)
    end.

(** The input is one of the reserved control keys of the picker. *)
Definition isReservedKey (data : string) : bool :=
  matchesKey data (Tui.Named "escape") || matchesKey data (Tui.Ctrl "c")
  || matchesKey data (Tui.Named "backspace")
  || matchesKey data (Tui.Named "up") || matchesKey data (Tui.Ctrl "p")
  || matchesKey data (Tui.Named "down") || matchesKey data (Tui.Ctrl "n")
  || matchesKey data (Tui.Named "enter").

End Picker.

(** The key a favourite is compared by. *)
Definition lowerKey (f : FavouriteModelEntry) : string :=
  Js.toLowerCase (key f).

(** A well-formed entry in the words of the file format: an object whose
    [key] is a string of length 1 and whose [label], [provider] and
    [model] are strings. *)
Definition wellFormedEntry (e : Json) : bool :=
  match e with
  | JObject properties =>
      isString (ownProperty properties "key")
      && (stringLength (ownProperty properties "key") =? 1)%nat
      && isString (ownProperty properties "label")
      && isString (ownProperty properties "provider")
      && isString (ownProperty properties "model")
  | _ => false
  end.

Definition isNull (e : Json) : bool :=
  match e with
  | JNull => true
  | _ => false
  end.

End Favourites.

(* ------------------------------------------------------------------------- *)
(** ** A concrete host: a legacy terminal *)
(* ------------------------------------------------------------------------- *)

(** An instance of the host functions, used to run the components on
    concrete key streams: the byte sequences a legacy (non-Kitty) terminal
    sends, and a [parseKey] that names letters and digits by themselves. *)
Module Legacy.

Definition chr (n : nat) : string := String (ascii_of_nat n) EmptyString.

Definition ESC : string := chr 27.
Definition CTRL_C : string := chr 3.
Definition BACKSPACE : string := chr 127.
Definition ENTER : string := chr 13.
Definition CTRL_P : string := chr 16.
Definition CTRL_N : string := chr 14.
Definition UP : string := ESC ++ "[A".
Definition DOWN : string := ESC ++ "[B".

Definition matchesKey (data : string) (k : Tui.KeyId) : bool :=
  match k with
  | Tui.Named name =>
      if String.eqb name "escape" then String.eqb data ESC
      else if String.eqb name "backspace" then String.eqb data BACKSPACE
      else if String.eqb name "up" then String.eqb data UP
      else if String.eqb name "down" then String.eqb data DOWN
      else if String.eqb name "enter" then String.eqb data ENTER
      else if String.eqb name "return" then String.eqb data ENTER
      else false
  | Tui.Ctrl c =>
      if String.eqb c "c" then String.eqb data CTRL_C
      else if String.eqb c "p" then String.eqb data CTRL_P
      else if String.eqb c "n" then String.eqb data CTRL_N
      else false
  end.

Definition isAlnum (c : ascii) : bool :=
  let n := Js.code c in
  ((48 <=? n) && (n <=? 57) || (97 <=? n) && (n <=? 122))%nat.

Definition parseKey (data : string) : option string :=
  match data with
  | String c EmptyString => if isAlnum c then Some data else None
  | _ => None
  end.

(** A fuzzy filter in the spirit of the host's: keeps the items whose
    text contains the query's characters in order, ignoring case. *)
Fixpoint subsequence (q t : string) : bool :=
  match t with
  | EmptyString => match q with EmptyString => true | _ => false end
  | String d r =>
      match q with
      | EmptyString => true
      | String c q' =>
          if Ascii.eqb (Js.lowerChar c) (Js.lowerChar d)
          then subsequence q' r else subsequence q r
      end
  end.

Definition fuzzyFilter (T : Type) (items : list T) (query : string)
           (getText : T -> string) : list T :=
  filter (fun item => subsequence query (getText item)) items.

End Legacy.

(* ------------------------------------------------------------------------- *)
(** ** Sample data *)
(* ------------------------------------------------------------------------- *)

Module Samples.

Import ModelSwitcher.

Definition claudeX : Model :=
  {| provider := "anthropic"; id := "claude-x"; name := "Claude X";
     reasoning := true; input := ["text"; "image"] |}.

Definition claudeY : Model :=
  {| provider := "anthropic"; id := "claude-y"; name := "Claude Y";
     reasoning := false; input := ["text"] |}.

Definition gptZ : Model :=
  {| provider := "openai"; id := "gpt-z"; name := "GPT Z";
     reasoning := true; input := ["text"] |}.

Definition registry : list Model := [gptZ; claudeY; claudeX].

(** Code-unit order, standing in for the locale's collation. *)
Definition localeCompare (a b : string) : Z :=
  match String.compare a b with
  | Lt => -1
  | Eq => 0
  | Gt => 1
  end%Z.

(** A host with the registry above, an allow-list of two globs and a
    user whose answer to the prompt shown as the [n]-th host call is
    [answers n]. *)
Definition host (answers : nat -> option string) : Host :=
  fun n e =>
    match e return answer e with
    | HasUI => true
    | GetEnabledModels => Some ["Anthropic/*"; "openai/gpt-?"]
    | GetAvailable => registry
    | CurrentModel => Some claudeY
    | Find p m =>
        find (fun x => String.eqb (provider x) p && String.eqb (id x) m)
          registry
    | GetThinkingLevel => "medium"
    | Select _ _ _ => answers n
    | Notify _ _ => tt
    | SetModel _ => true
    | SetThinkingLevel _ => tt
    end.

(** The prompts of a run are host calls 4, 8 and 12. *)
Definition pickAll (n : nat) : option string :=
  if (n =? 4)%nat then Some "anthropic"
  else if (n =? 8)%nat then Some "claude-x"
  else if (n =? 12)%nat then Some "high"
  else None.

Definition cancelModel (n : nat) : option string :=
  if (n =? 4)%nat then Some "anthropic" else None.

Definition selectItems : list SearchableItem :=
  [ {| value := "anthropic"; label := "anthropic (current)";
       description := Some "2 models" |};
    {| value := "openai"; label := "openai";
       description := Some "1 model" |};
    {| value := "google"; label := "google";
       description := Some "3 models" |} ].

(** The state of the select list over [selectItems] after the query
    [z], which matches nothing. *)
Definition noMatches : SelectState :=
  fst (feed Legacy.matchesKey Legacy.fuzzyFilter selectItems
         (initialState selectItems) ["z"]).

(** A palette with one group and one direct action; actions are named
    by a string. *)
Definition session : LeaderKey.ActionGroup string :=
  {| LeaderKey.groupKey := "s";
     LeaderKey.groupLabel := "Session";
     LeaderKey.items :=
       [ {| LeaderKey.key := "n"; LeaderKey.label := "New session";
            LeaderKey.description := Some "start fresh";
            LeaderKey.action := "/new" |};
         {| LeaderKey.key := "r"; LeaderKey.label := "Resume session";
            LeaderKey.description := Some "/resume";
            LeaderKey.action := "/resume" |} ] |}.

Definition modelAction : LeaderKey.ActionItem string :=
  {| LeaderKey.key := "m"; LeaderKey.label := "Model";
     LeaderKey.description := Some "switch model";
     LeaderKey.action := "runModelSwitcher" |}.

Definition palette : list (LeaderKey.TopLevelEntry string) :=
  [LeaderKey.GroupEntry session; LeaderKey.ActionEntry modelAction].

Definition favouriteG : Favourites.FavouriteModelEntry :=
  {| Favourites.key := "g"; Favourites.label := "Gemini";
     Favourites.provider := "google"; Favourites.model := "gemini-pro";
     Favourites.thinking := None |}.

Definition favourite1 : Favourites.FavouriteModelEntry :=
  {| Favourites.key := "1"; Favourites.label := "Claude";
     Favourites.provider := "anthropic"; Favourites.model := "claude-x";
     Favourites.thinking := Some (Favourites.JString "high") |}.

Definition favourites : list Favourites.FavouriteModelEntry :=
  [favourite1; favouriteG].

(** The same favourite as [JSON.parse] returns it. *)
Definition jsonG : Favourites.Json :=
  Favourites.JObject
    [ ("key", Favourites.JString "g");
      ("label", Favourites.JString "Gemini");
      ("provider", Favourites.JString "google");
      ("model", Favourites.JString "gemini-pro") ].

End Samples.

(* ------------------------------------------------------------------------- *)
(** ** The searchable select list: confirm key and rendering *)
(* ------------------------------------------------------------------------- *)

Module SelectView.

Import ModelSwitcher.

(** What evaluating [render] gives: the lines, or an uncaught exception. *)
Inductive Outcome (A : Type) : Type :=
| Lines (a : A)
| RangeError
| TypeError.

Arguments Lines {A} a.
Arguments RangeError {A}.
Arguments TypeError {A}.

(** [s.repeat(n)] for a count that is not negative. *)
Fixpoint repeatString (s : string) (n : nat) : string :=
  match n with
  | O => EmptyString
  | S n' => s ++ repeatString s n'
  end.

(** [s.repeat(n)]: a negative count is a [RangeError]. *)
Definition repeat (s : string) (n : Z) : option string :=
  if (n <? 0)%Z then None else Some (repeatString s (Z.to_nat n)).

(** An integer inside a template literal. *)
Definition ofZ (n : Z) : string :=
  if (n <? 0)%Z then "-" ++ Js.ofNat (Z.to_nat (- n)) else Js.ofNat (Z.to_nat n).

(** The part of the host's theme that the overlays use. *)
Record Theme : Type := {
  fg : string -> string -> string;
  bold : string -> string
}.

Section Keys.

Variable matchesKey : string -> Tui.KeyId -> bool.

(** The input reaches the enter branch of [handleInput]. *)
Definition isEnterKey (data : string) : bool :=
  negb (isCancelKey matchesKey data)
  && negb (matchesKey data (Tui.Named "backspace"))
  && negb (matchesKey data (Tui.Named "up") || matchesKey data (Tui.Ctrl "p"))
  && negb (matchesKey data (Tui.Named "down")
           || matchesKey data (Tui.Ctrl "n"))
  && matchesKey data (Tui.Named "enter").

End Keys.

Section Filtering.

Variable fuzzyFilter :
  forall T : Type, list T -> string -> (T -> string) -> list T.
Variable items : list SearchableItem.

(** The filtered list is the one [applyFilter] computes for the query. *)
Definition fresh (st : SelectState) : Prop :=
  filteredItems st
  = if String.eqb (searchText st) EmptyString then items
    else fuzzyFilter items (searchText st) itemText.

End Filtering.

Section Render.

Variable th : Theme.
Variable visibleWidth : string -> Z.
Variable truncateToWidth : string -> Z -> string.
Variable title : string.
Variable helpText : option string.

Definition pad (s : string) (len : Z) : string :=
  s ++ repeatString " " (Z.to_nat (Z.max 0 (len - visibleWidth s))).

Definition row (maxW : Z) (content : string) : string :=
  fg th "border" "│" ++ " " ++ pad content (maxW - 4) ++ " "
  ++ fg th "border" "│".

(** The body of the [for] loop for row [i]. *)
Definition itemRow (maxW : Z) (st : SelectState) (i : Z)
           (item : SearchableItem) : string :=
  let isHighlighted := (i =? highlightedIndex st)%Z in
  let lbl :=
    if isHighlighted then fg th "accent" (bold th (label item))
    else fg th "text" (label item) in
  let line := (if isHighlighted then "> " else "  ") ++ lbl in
  let line :=
    if Js.truthy (description item)
    then line ++ "  "
         ++ fg th "dim" (match description item with
                         | Some d => d
                         | None => EmptyString
                         end)
    else line in
  row maxW (truncateToWidth line (maxW - 4)).

(** [for (let i = from; i < visibleEnd; i++)], with the number of rounds
    left; reading a field of a missing item throws. *)
Fixpoint itemRows (maxW : Z) (st : SelectState) (rounds : nat) (i : Z)
  : Outcome (list string) :=
  match rounds with
  | O => Lines []
  | S rounds' =>
      match Tui.at_ (filteredItems st) i with
      | None => TypeError
      | Some item =>
          match itemRows maxW st rounds' (i + 1) with
          | Lines rest => Lines (itemRow maxW st i item :: rest)
          | RangeError => RangeError
          | TypeError => TypeError
          end
      end
  end.

Definition defaultHint : string :=
  "type to search • ↑↓ navigate • enter select • esc cancel".

Definition render (st : SelectState) (width : Z) : Outcome (list string) :=
  let maxW := Z.min width 80 in
  match repeat "─" (maxW - 2) with
  | None => RangeError
  | Some hLine =>
      let header :=
        [fg th "border" ("╭" ++ hLine ++ "╮");
         row maxW (fg th "accent" (bold th title))] in
      let search :=
        if (0 <? String.length (searchText st))%nat
        then [row maxW (fg th "muted" "search: "
                        ++ fg th "accent" (searchText st)
                        ++ fg th "dim" "▏")]
        else [] in
      let separator := [fg th "border" ("├" ++ hLine ++ "┤")] in
      let body :=
        if (Tui.len (filteredItems st) =? 0)%Z
        then Lines [row maxW (fg th "warning" "  no matches")]
        else
          let visibleEnd :=
            Z.min (scrollOffset st + MAX_VISIBLE)
              (Tui.len (filteredItems st)) in
          let above :=
            if (0 <? scrollOffset st)%Z
            then [row maxW (fg th "dim"
                              ("  ↑ " ++ ofZ (scrollOffset st) ++ " more"))]
            else [] in
          match itemRows maxW st
                  (Z.to_nat (visibleEnd - scrollOffset st))
                  (scrollOffset st) with
          | Lines rows =>
              let remaining := (Tui.len (filteredItems st) - visibleEnd)%Z in
              let below :=
                if (0 <? remaining)%Z
                then [row maxW (fg th "dim"
                                  ("  ↓ " ++ ofZ remaining ++ " more"))]
                else [] in
              Lines (above ++ rows ++ below)%list
          | RangeError => RangeError
          | TypeError => TypeError
          end in
      match body with
      | Lines bodyLines =>
          let hint :=
            match helpText with
            | Some h => h
            | None => defaultHint
            end in
          Lines (header ++ search ++ separator ++ bodyLines
                 ++ [fg th "border" ("├" ++ hLine ++ "┤");
                     row maxW (fg th "dim" hint);
                     fg th "border" ("╰" ++ hLine ++ "╯")])%list
      | RangeError => RangeError
      | TypeError => TypeError
      end
  end.

End Render.

End SelectView.

(** A plain theme and width functions for the legacy terminal: no colour,
    one column per code unit. *)
Module LegacyView.

Definition plain : SelectView.Theme :=
  {| SelectView.fg := fun _ text => text;
     SelectView.bold := fun text => text |}.

Definition visibleWidth (s : string) : Z := Z.of_nat (String.length s).

Definition truncateToWidth (s : string) (w : Z) : string :=
  String.substring 0 (Z.to_nat w) s.

End LegacyView.

(* ------------------------------------------------------------------------- *)
(** ** The thinking-level picker, and what a trace shows *)
(* ------------------------------------------------------------------------- *)

Module WizardTrace.

Import ModelSwitcher.

(** [runThinkingPicker]: one searchable prompt over all thinking levels;
    the chosen level is applied at once. *)
Definition runThinkingPicker : Prog unit :=
  hasUI <- call HasUI ;;
  if negb hasUI then Ret tt else
  currentThinking <- call GetThinkingLevel ;;
  let thinkingItems :=
    map (thinkingItem currentThinking) ALL_THINKING_LEVELS in
  choice' <- call (Select "Select Thinking Level" thinkingItems None) ;;
  match (if Js.truthy choice' then choice' else None) with
  | None => Ret tt
  | Some choice =>
      call (SetThinkingLevel choice) ;;;
      call (Notify ("Thinking: " ++ choice) "info")
  end.

(** The calls of a trace that change external state or notify, in
    order. *)
Definition effects (tr : list Entry) : list Event :=
  filter isEffect (map (@projT1 Event answer) tr).

Definition collect (A : Type) (pick : Entry -> option A) (tr : list Entry)
  : list A :=
  flat_map (fun en => match pick en with
                      | Some a => [a]
                      | None => []
                      end) tr.

(** [setModel] calls with what they returned. *)
Definition modelCalls : list Entry -> list (Model * bool) :=
  collect (fun en =>
             match en with
             | existT _ e x =>
                 match e return answer e -> option (Model * bool) with
                 | SetModel m => fun ok => Some (m, ok)
                 | _ => fun _ => None
                 end x
             end).

(** Levels handed to [setThinkingLevel]. *)
Definition levelsSet : list Entry -> list ThinkingLevel :=
  collect (fun en =>
             match projT1 en with
             | SetThinkingLevel l => Some l
             | _ => None
             end).

(** Notifications: message and severity. *)
Definition notifications : list Entry -> list (string * string) :=
  collect (fun en =>
             match projT1 en with
             | Notify msg severity => Some (msg, severity)
             | _ => None
             end).

(** What the prompts came back with. *)
Definition selections : list Entry -> list (option string) :=
  collect (fun en =>
             match en with
             | existT _ e x =>
                 match e return answer e -> option (option string) with
                 | Select _ _ _ => fun v => Some v
                 | _ => fun _ => None
                 end x
             end).

(** The values each prompt offered. *)
Definition offered : list Entry -> list (list string) :=
  collect (fun en =>
             match projT1 en with
             | Select _ items _ => Some (map value items)
             | _ => None
             end).

(** Registry lookups with their results. *)
Definition lookups : list Entry -> list (string * string * option Model) :=
  collect (fun en =>
             match en with
             | existT _ e x =>
                 match e return answer e
                                -> option (string * string * option Model) with
                 | Find p m => fun r => Some (p, m, r)
                 | _ => fun _ => None
                 end x
             end).

(** What the settings and the registry answered. *)
Definition enabledReads : list Entry -> list (option (list string)) :=
  collect (fun en =>
             match en with
             | existT _ e x =>
                 match e return answer e -> option (option (list string)) with
                 | GetEnabledModels => fun r => Some r
                 | _ => fun _ => None
                 end x
             end).

Definition availableReads : list Entry -> list (list Model) :=
  collect (fun en =>
             match en with
             | existT _ e x =>
                 match e return answer e -> option (list Model) with
                 | GetAvailable => fun r => Some r
                 | _ => fun _ => None
                 end x
             end).

(** Each prompt: the values it offered and what it came back with. *)
Definition picks : list Entry -> list (list string * option string) :=
  collect (fun en =>
             match en with
             | existT _ e x =>
                 match e return answer e
                                -> option (list string * option string) with
                 | Select _ items _ => fun v => Some (map value items, v)
                 | _ => fun _ => None
                 end x
             end).

(** All elements of a list are the same. *)
Definition constant (A : Type) (l : list A) : Prop :=
  forall a b, In a l -> In b l -> a = b.

(** The settings and the registry answer the same throughout the run. *)
Definition stableRegistry (tr : list Entry) : Prop :=
  constant (enabledReads tr) /\ constant (availableReads tr).

(** Every prompt that was confirmed came back with one of the values it
    offered. *)
Definition picksOffered (tr : list Entry) : Prop :=
  forall values v, In (values, Some v) (picks tr) -> In v values.

(** A property of every trace of a program, established call by call. *)
Fixpoint Runs (A : Type) (Q : list Entry -> Prop) (p : Prog A) : Prop :=
  match p with
  | Ret _ => Q []
  | Raise => Q []
  | Call e k => forall x, Runs (fun tr => Q (existT answer e x :: tr)) (k x)
  end.

(** The same calls, each with what the host answered. *)
Definition effectCalls (tr : list Entry) : list Entry :=
  filter (fun en => isEffect (projT1 en)) tr.

(** A call of [pi.setModel] that the host answered with [ok]. *)
Definition setModelCall (m : Model) (ok : bool) : Entry :=
  existT answer (SetModel m) ok.

Definition notifyCall (msg severity : string) : Entry :=
  existT answer (Notify msg severity) tt.

Definition setThinkingLevelCall (level : ThinkingLevel) : Entry :=
  existT answer (SetThinkingLevel level) tt.

(** The shapes the effects of one run of the model switcher can have,
    with the answer of [setModel]. *)
Inductive WizardEffects : list Entry -> Prop :=
| NoEffect : WizardEffects []
| Complaint msg severity :
    severity <> "info" -> WizardEffects [notifyCall msg severity]
| ApplyFailed m msg :
    WizardEffects [setModelCall m false; notifyCall msg "warning"]
| Applied m msg :
    reasoning m = false ->
    WizardEffects [setModelCall m true; notifyCall msg "info"]
| AppliedWithLevel m level msg :
    reasoning m = true ->
    WizardEffects [setModelCall m true; setThinkingLevelCall level;
                   notifyCall msg "info"].

(** Whether the allow-list lets a model through. *)
Definition allowed (enabled : option (list string)) (m : Model) : bool :=
  match isModelEnabled (provider m) (id m) enabled with
  | Some b => b
  | None => false
  end.

(** The models of one provider. *)
Definition ofProvider (prov : string) (models : list Model) : list Model :=
  filter (fun m => String.eqb (provider m) prov) models.

Definition countOf (k : string) (models : list Model) : nat :=
  List.length (ofProvider k models).

(** The map built by the counting loop of [getProviders]: one key per
    provider met so far, bound to the number of its models. *)
Definition counts (acc : list (string * nat)) (seen : list Model) : Prop :=
  NoDup (map fst acc)
  /\ forall k,
      mapGet acc k
      = if (countOf k seen =? 0)%nat then None else Some (countOf k seen).

Definition noModelsMessage (provider : string) : string :=
  "No models found for provider " ++ Js.dquote ++ provider ++ Js.dquote.

End WizardTrace.

(* ------------------------------------------------------------------------- *)
(** ** Leader key: the palette that is built, and the overlay as it runs *)
(* ------------------------------------------------------------------------- *)

Module Palette.

Import LeaderKey.

(** An entry of [pi.getCommands()]. *)
Record Command : Type := {
  cmdName : string;
  cmdSource : string;
  cmdDescription : option string
}.

(** What the [action] callback of an entry does when it is run. *)
Inductive Effect : Type :=
| Submit (text : string)      (* put [text] in the editor and send Enter *)
| SwitchSession               (* runSessionSwitch(pi, ctx) *)
| Compact                     (* ctx.compact({}) and a notification *)
| SwitchModel                 (* runModelSwitcher(pi, ctx) *)
| FavouriteModels             (* runFavouriteModels(pi, ctx) *)
| Thinking                    (* runThinkingPicker(pi, ctx) *)
| Lazygit                     (* runLazygit(ctx) *)
| LazyVim                     (* runLazyvim(ctx) *)
| VsCode                      (* runVscode(ctx) *)
| PickExtension (items : list ModelSwitcher.SearchableItem)
| PickSkill (items : list ModelSwitcher.SearchableItem).

Definition item (k l : string) (d : string) (a : Effect)
  : ActionItem Effect :=
  {| key := k; label := l; description := Some d; action := a |}.

Definition builtinCommandNames : list string :=
  ["new"; "resume"; "tree"; "fork"; "compact";
   "model"; "thinking"; "tools"; "reload";
   "switch"; "lk"; "leader-key"].

Definition plural (n : nat) : string :=
  if (n =? 1)%nat then EmptyString else "s".

(** [commands.filter((c) => c.source === SOURCE)]. *)
Definition fromSource (source : string) (commands : list Command)
  : list Command :=
  filter (fun c => String.eqb (cmdSource c) source) commands.

Definition customCommands (commands : list Command) : list Command :=
  filter (fun c => negb (existsb (String.eqb (cmdName c)) builtinCommandNames))
    (fromSource "extension" commands).

(** [cmd.description || fallback]. *)
Definition commandItem (fallback : string) (cmd : Command)
  : ModelSwitcher.SearchableItem :=
  {| ModelSwitcher.value := cmdName cmd;
     ModelSwitcher.label := cmdName cmd;
     ModelSwitcher.description :=
       Some (if Js.truthy (cmdDescription cmd)
             then match cmdDescription cmd with
                  | Some d => d
                  | None => fallback
                  end
             else fallback) |}.

(** [buildEntries(pi, ctx)], from [ctx.model], [pi.getThinkingLevel()] and
    [pi.getCommands()]. *)
Definition buildEntries (currentModel : option ModelSwitcher.Model)
           (currentThinking : string) (commands : list Command)
  : list (TopLevelEntry Effect) :=
  let skillCommands := fromSource "skill" commands in
  ([ GroupEntry
       {| groupKey := "s";
          groupLabel := "Session";
          items :=
            [ item "n" "New session" "start fresh" (Submit "/new");
              item "r" "Resume session" "/resume" (Submit "/resume");
              item "s" "Switch session" "split panel picker" SwitchSession;
              item "t" "Session tree" "/tree" (Submit "/tree");
              item "f" "Fork session" "/fork" (Submit "/fork");
              item "c" "Compact context" "compact now" Compact ] |};
     ActionEntry
       (item "m" "Model"
          (match currentModel with
           | Some m =>
               ModelSwitcher.provider m ++ "/" ++ ModelSwitcher.id m
           | None => "switch model"
           end) SwitchModel);
     ActionEntry
       (item "f" "Favourites" "quick-switch favourite models"
          FavouriteModels);
     ActionEntry
       (item "t" "Thinking" ("current: " ++ currentThinking) Thinking);
     ActionEntry
       (item "g" "Lazygit" "open lazygit in current folder" Lazygit);
     GroupEntry
       {| groupKey := "o";
          groupLabel := "Open";
          items :=
            [ item "v" "LazyVim" "open lazyvim in current folder" LazyVim;
              item "c" "VS Code" "open vscode in current folder" VsCode ] |} ]
   ++ (if (0 <? List.length (customCommands commands))%nat
       then [ ActionEntry
                (item "e" "Extensions"
                   (Js.ofNat (List.length (customCommands commands))
                    ++ " command"
                    ++ plural (List.length (customCommands commands)))
                   (PickExtension
                      (map (commandItem "extension")
                         (customCommands commands)))) ]
       else [])
   ++ (if (0 <? List.length skillCommands)%nat
       then [ ActionEntry
                (item "k" "Skills"
                   (Js.ofNat (List.length skillCommands) ++ " skill"
                    ++ plural (List.length skillCommands))
                   (PickSkill (map (commandItem "skill") skillCommands))) ]
       else [])
   ++ [ ActionEntry (item "x" "Exit" "quit pi" (Submit "/quit")) ])%list.

Section Run.

Variable Action : Type.
Variable matchesKey : string -> Tui.KeyId -> bool.
Variable parseKey : string -> option string.
Variable entries : list (TopLevelEntry Action).

Definition isCancelKey (data : string) : bool :=
  matchesKey data (Tui.Named "escape") || matchesKey data (Tui.Ctrl "c").

(** The input reaches the enter branch of the overlay. *)
Definition isEnterKey (data : string) : bool :=
  negb (isCancelKey data)
  && negb (matchesKey data (Tui.Named "backspace"))
  && negb (matchesKey data (Tui.Named "up"))
  && negb (matchesKey data (Tui.Named "down"))
  && (matchesKey data (Tui.Named "enter")
      || matchesKey data (Tui.Named "return")).

(** The overlay fed a stream of input events, until it calls [done]. *)
Fixpoint feed (o : Overlay Action) (events : list string)
  : Overlay Action * Tui.Signal (ActionItem Action) :=
  match events with
  | [] => (o, Tui.Idle)
  | data :: rest =>
      match handleInput matchesKey parseKey entries o data with
      | (o', Tui.Done r) => (o', Tui.Done r)
      | (o', Tui.Throws) => (o', Tui.Throws)
      | (o', _) => feed o' rest
      end
  end.

(** No list of the palette is empty. *)
Definition populated : Prop :=
  entries <> []
  /\ forall g, In (GroupEntry g) entries -> items g <> [].

(** The highlight is on a row of the current view, and the current view
    is the root or one of the palette's groups. *)
Definition inRange (o : Overlay Action) : Prop :=
  (0 <= highlightedIndex o < Tui.len (currentItems entries o))%Z
  /\ match view o with
     | Root _ => True
     | InGroup g => In (GroupEntry g) entries
     end.

(** The action is the first one under its key in the scope of the
    view. *)
Definition firstUnderKey (o : Overlay Action) (a : ActionItem Action)
  : Prop :=
  match view o with
  | Root _ =>
      find (fun e => String.eqb (entryKey e) (key a)) entries
      = Some (ActionEntry a)
  | InGroup g =>
      find (fun x => String.eqb (key x) (key a)) (items g) = Some a
  end.

End Run.

End Palette.

Module PaletteSamples.

Import Palette.

Definition deploy : Command :=
  {| cmdName := "deploy"; cmdSource := "extension";
     cmdDescription := Some "ship it" |}.

Definition reload : Command :=
  {| cmdName := "reload"; cmdSource := "extension";
     cmdDescription := None |}.

Definition review : Command :=
  {| cmdName := "review"; cmdSource := "skill";
     cmdDescription := Some EmptyString |}.

Definition commands : list Command := [deploy; reload; review].

Definition built : list (LeaderKey.TopLevelEntry Effect) :=
  buildEntries (Some Samples.claudeX) "high" commands.

Definition modelItem : LeaderKey.ActionItem Effect :=
  item "m" "Model" "anthropic/claude-x" SwitchModel.

Definition compactItem : LeaderKey.ActionItem Effect :=
  item "c" "Compact context" "compact now" Compact.

End PaletteSamples.

(* ------------------------------------------------------------------------- *)
(** ** Favourite models: the picker as it runs, and the switch that follows *)
(* ------------------------------------------------------------------------- *)

Module FavouritePicker.

Import Favourites.

Definition stringOf (v : option Json) : option string :=
  match v with
  | Some (JString s) => Some s
  | _ => None
  end.

(** The entry that the picker and the switch read off an element of the
    loaded array: [e.key], [e.label], [e.provider], [e.model] as strings,
    [e.thinking] as it is. *)
Definition asEntry (e : Json) : option FavouriteModelEntry :=
  match e with
  | JObject properties =>
      match stringOf (ownProperty properties "key"),
            stringOf (ownProperty properties "label"),
            stringOf (ownProperty properties "provider"),
            stringOf (ownProperty properties "model") with
      | Some k, Some l, Some p, Some m =>
          Some {| key := k; label := l; provider := p; model := m;
                  thinking := ownProperty properties "thinking" |}
      | _, _, _, _ => None
      end
  | _ => None
  end.

Definition entries (loaded : list Json) : list FavouriteModelEntry :=
  flat_map (fun e => match asEntry e with
                     | Some f => [f]
                     | None => []
                     end) loaded.

(** The [key] of the element, if it has one that is a string, is in
    ASCII: its length here is its [length] in the sources. *)
Definition asciiKey (e : Json) : bool :=
  match e with
  | JObject properties =>
      match ownProperty properties "key" with
      | Some (JString k) => Js.isAscii k
      | _ => true
      end
  | _ => true
  end.

(** What the preset file holds, when it holds an array: [[]] for a file
    that cannot be read or parsed or holds something else. *)
Definition fileElements (JSON_parse : string -> option Json)
           (file : option string) : list Json :=
  match file with
  | Some raw =>
      match JSON_parse raw with
      | Some (JArray parsed) => parsed
      | _ => []
      end
  | None => []
  end.

Section Run.

Variable matchesKey : string -> Tui.KeyId -> bool.
Variable parseKey : string -> option string.
Variable favourites : list FavouriteModelEntry.

Definition isCancelKey (data : string) : bool :=
  matchesKey data (Tui.Named "escape") || matchesKey data (Tui.Ctrl "c")
  || matchesKey data (Tui.Named "backspace").

Definition isUpKey (data : string) : bool :=
  negb (isCancelKey data)
  && (matchesKey data (Tui.Named "up") || matchesKey data (Tui.Ctrl "p")).

(** The input reaches the down branch of the picker. *)
Definition isDownKey (data : string) : bool :=
  negb (isCancelKey data)
  && negb (matchesKey data (Tui.Named "up") || matchesKey data (Tui.Ctrl "p"))
  && (matchesKey data (Tui.Named "down") || matchesKey data (Tui.Ctrl "n")).

(** The input reaches the enter branch of the picker. *)
Definition isEnterKey (data : string) : bool :=
  negb (isCancelKey data)
  && negb (matchesKey data (Tui.Named "up") || matchesKey data (Tui.Ctrl "p"))
  && negb (matchesKey data (Tui.Named "down")
           || matchesKey data (Tui.Ctrl "n"))
  && matchesKey data (Tui.Named "enter").

(** The picker fed a stream of input events, until it calls [done]. *)
Fixpoint feed (highlightedIndex : Z) (events : list string)
  : Z * Tui.Signal FavouriteModelEntry :=
  match events with
  | [] => (highlightedIndex, Tui.Idle)
  | data :: rest =>
      match handleInput matchesKey parseKey favourites highlightedIndex data
      with
      | (hi, Tui.Done r) => (hi, Tui.Done r)
      | (hi, Tui.Throws) => (hi, Tui.Throws)
      | (hi, _) => feed hi rest
      end
  end.

End Run.

(** What [runFavouriteModels] does to the host. *)
Inductive Effect : Type :=
| OpenPicker (favourites : list FavouriteModelEntry)  (* ctx.ui.custom *)
| Notify (message severity : string)                  (* ctx.ui.notify *)
| SetModel (m : ModelSwitcher.Model)                  (* pi.setModel *)
| SetThinkingLevel (level : string).                  (* pi.setThinkingLevel *)

(** How a call of [runFavouriteModels] stands once the input events are
    used up. *)
Inductive Outcome : Type :=
| Returned     (* the promise is resolved *)
| Waiting      (* the picker is still open *)
| Crashed.     (* the input handler threw *)

Section Flow.

(** The host: [ctx.hasUI], [readFileSync] of the preset file ([None]
    when it throws), [JSON.parse], [ctx.modelRegistry.find],
    [await pi.setModel], the key functions, and the conversions of the
    language that are not spelled out here: whether a number literal
    denotes zero or not, and the string a template literal makes of a
    value that is no string. *)
Variable hasUI : bool.
Variable file : option string.
Variable JSON_parse : string -> option Json.
Variable find : string -> string -> option ModelSwitcher.Model.
Variable setModel : ModelSwitcher.Model -> bool.
Variable matchesKey : string -> Tui.KeyId -> bool.
Variable parseKey : string -> option string.
Variable numberIsZero : string -> bool.
Variable stringify : Json -> string.

(** Whether [selected.thinking] is truthy. *)
Definition truthyJson (v : option Json) : bool :=
  match v with
  | None => false
  | Some JNull => false
  | Some (JBool b) => b
  | Some (JNumber literal) => negb (numberIsZero literal)
  | Some (JString s) => negb (String.eqb s EmptyString)
  | Some (JArray _) => true
  | Some (JObject _) => true
  end.

(** [ALL_THINKING_LEVELS.includes(selected.thinking)]. *)
Definition includesLevel (v : option Json) : bool :=
  match v with
  | Some (JString s) =>
      existsb (String.eqb s) ModelSwitcher.ALL_THINKING_LEVELS
  | _ => false
  end.

(** [selected.thinking as ThinkingLevel]. *)
Definition asLevel (v : option Json) : string :=
  match v with
  | Some (JString s) => s
  | _ => EmptyString
  end.

(** [selected.thinking] inside a template literal. *)
Definition display (v : option Json) : string :=
  match v with
  | Some (JString s) => s
  | Some other => stringify other
  | None => "undefined"
  end.

(** The statements after the picker, for a favourite that was picked. *)
Definition applyFavourite (selected : FavouriteModelEntry) : list Effect :=
  match find (provider selected) (model selected) with
  | None =>
      [ Notify ("Model " ++ provider selected ++ "/" ++ model selected
                ++ " not found in registry") "error" ]
  | Some modelInfo =>
      (SetModel modelInfo ::
       if negb (setModel modelInfo)
       then [ Notify ("No API key available for " ++ provider selected
                      ++ "/" ++ model selected) "warning" ]
       else
         (if truthyJson (thinking selected)
             && includesLevel (thinking selected)
          then [ SetThinkingLevel (asLevel (thinking selected)) ]
          else [])
         ++ [ Notify ("Switched to " ++ label selected
                      ++ (if truthyJson (thinking selected)
                          then " (thinking: "
                               ++ display (thinking selected) ++ ")"
                          else EmptyString)) "info" ])%list
  end.

(** [runFavouriteModels(pi, ctx)] with the input events that the picker
    receives while it is open.  The reads of [ctx.model] and
    [pi.getThinkingLevel()] only feed the picker's [render]. *)
Definition runFavouriteModels (events : list string)
  : list Effect * Outcome :=
  if negb hasUI then ([], Returned)
  else
    let favourites := entries (loadFavourites JSON_parse file) in
    if (List.length favourites =? 0)%nat
    then ([ Notify
              "No favourite models configured. Edit favourite-models.json"
              "warning" ], Returned)
    else
      match feed matchesKey parseKey favourites 0 events with
      | (_, Tui.Done (Some selected)) =>
          (OpenPicker favourites :: applyFavourite selected, Returned)
      | (_, Tui.Done None) => ([OpenPicker favourites], Returned)
      | (_, Tui.Throws) => ([OpenPicker favourites], Crashed)
      | (_, _) => ([OpenPicker favourites], Waiting)
      end.

(** The effects a run can have, by the way it ends. *)
Inductive Shape : list Effect -> Prop :=
| WithoutUI : Shape []
| NoFavourites message : Shape [Notify message "warning"]
| NothingPicked favourites :
    favourites <> [] ->
    Shape [OpenPicker favourites]
| NotInRegistry favourites f message :
    In f favourites ->
    find (provider f) (model f) = None ->
    Shape [OpenPicker favourites; Notify message "error"]
| NoApiKey favourites f m message :
    In f favourites ->
    find (provider f) (model f) = Some m ->
    setModel m = false ->
    Shape [OpenPicker favourites; SetModel m; Notify message "warning"]
| Switched favourites f m message :
    In f favourites ->
    find (provider f) (model f) = Some m ->
    setModel m = true ->
    includesLevel (thinking f) = false ->
    Shape [OpenPicker favourites; SetModel m; Notify message "info"]
| SwitchedWithLevel favourites f m level message :
    In f favourites ->
    find (provider f) (model f) = Some m ->
    setModel m = true ->
    thinking f = Some (JString level) ->
    In level ModelSwitcher.ALL_THINKING_LEVELS ->
    Shape [OpenPicker favourites; SetModel m; SetThinkingLevel level;
           Notify message "info"].

End Flow.

End FavouritePicker.

Module FavouriteSamples.

Import Favourites.

(** A preset with a level that is not one of the thinking levels. *)
Definition jsonUltra : Json :=
  JObject
    [ ("key", JString "U");
      ("label", JString "Ultra");
      ("provider", JString "anthropic");
      ("model", JString "claude-x");
      ("thinking", JString "ultra") ].

Definition jsonHigh : Json :=
  JObject
    [ ("key", JString "u");
      ("label", JString "High");
      ("provider", JString "anthropic");
      ("model", JString "claude-x");
      ("thinking", JString "high") ].

Definition presets : list Json := [jsonUltra; Samples.jsonG; jsonHigh].

Definition JSON_parse (raw : string) : option Json :=
  if String.eqb raw "presets" then Some (JArray presets) else None.

Definition find (provider id : string) : option ModelSwitcher.Model :=
  List.find (fun m => String.eqb (ModelSwitcher.provider m) provider
                      && String.eqb (ModelSwitcher.id m) id)
    Samples.registry.

Definition ultra : FavouriteModelEntry :=
  {| key := "U"; label := "Ultra"; provider := "anthropic";
     model := "claude-x"; thinking := Some (JString "ultra") |}.

Definition high : FavouriteModelEntry :=
  {| key := "u"; label := "High"; provider := "anthropic";
     model := "claude-x"; thinking := Some (JString "high") |}.

Definition favourites : list FavouriteModelEntry :=
  [ultra; Samples.favouriteG; high].



End FavouriteSamples.

(* ========================================================================= *)
(** * Properties *)
(* ========================================================================= *)

Unset Implicit Arguments.

(* ------------------------------------------------------------------------- *)
(** ** Strings and lists *)
(* ------------------------------------------------------------------------- *)

Module JsFacts.

Import Js.

Lemma append_assoc (a b c : string) : (a ++ b) ++ c = a ++ (b ++ c).
Proof. induction a as [|x r IH]; simpl; [reflexivity|]. now rewrite IH. Qed.

Lemma length_append (a b : string) :
  String.length (a ++ b) = (String.length a + String.length b)%nat.
Proof. induction a; simpl; congruence. Qed.

Lemma lowerChar_idem c : lowerChar (lowerChar c) = lowerChar c.
Proof. destruct c as [[] [] [] [] [] [] [] []]; reflexivity. Qed.

Lemma toLowerCase_idem s : toLowerCase (toLowerCase s) = toLowerCase s.
Proof.
  induction s as [|c r IH]; simpl; [reflexivity|].
  now rewrite lowerChar_idem, IH.
Qed.


Lemma replaceEach_app hit subst a b :
  replaceEach hit subst (a ++ b)
  = replaceEach hit subst a ++ replaceEach hit subst b.
Proof.
  induction a as [|c r IH]; simpl; [reflexivity|].
  now rewrite IH, append_assoc.
Qed.

Lemma isPrintable_char c :
  isPrintable (String c EmptyString)
  = ((32 <=? code c) && (code c <=? 126))%nat.
Proof. destruct c as [[] [] [] [] [] [] [] []]; reflexivity. Qed.

Lemma isPrintable_inv data :
  isPrintable data = true ->
  exists c, data = String c EmptyString /\ (32 <= code c <= 126)%nat.
Proof.
  intros H. destruct data as [|c [|d r]]; try discriminate.
  exists c. split; [reflexivity|].
  rewrite isPrintable_char in H. apply andb_prop in H as [H1 H2].
  apply Nat.leb_le in H1, H2. lia.
Qed.

Lemma append_nonempty q c :
  String.eqb (q ++ String c EmptyString) EmptyString = false.
Proof. destruct q; reflexivity. Qed.

Lemma nonempty_length q :
  q <> EmptyString -> (0 <? String.length q)%nat = true.
Proof. destruct q; [congruence|reflexivity]. Qed.

Lemma dropLast_append q c : dropLast (q ++ String c EmptyString) = q.
Proof.
  induction q as [|d r IH]; [reflexivity|].
  cbn [String.append dropLast]. rewrite IH.
  destruct r; reflexivity.
Qed.

Lemma dropLast_last q :
  q <> EmptyString -> exists c, q = dropLast q ++ String c EmptyString.
Proof.
  induction q as [|a r IH]; [congruence|]. intros _.
  destruct r as [|d r'].
  - exists a. reflexivity.
  - destruct IH as (c & Ec); [discriminate|]. exists c.
    change (dropLast (String a (String d r')))
      with (String a (dropLast (String d r'))).
    cbn [String.append]. now rewrite <- Ec.
Qed.

Lemma length_dropLast q :
  (String.length (dropLast q) <= String.length q)%nat.
Proof.
  induction q as [|d r IH]; [simpl; lia|].
  destruct r as [|a r']; [simpl; lia|].
  change (dropLast (String d (String a r')))
    with (String d (dropLast (String a r'))).
  simpl in *. lia.
Qed.

End JsFacts.

Module ListFacts.

Lemma find_unique (A : Type) (k : A -> string) (l : list A) (x : A) :
  NoDup (map k l) -> In x l ->
  find (fun e => String.eqb (k e) (k x)) l = Some x.
Proof.
  induction l as [|y r IH]; intros Hnd Hin; [contradiction|].
  cbn [map] in Hnd. inversion Hnd as [|? ? Hy Hr]; subst.
  cbn [find]. destruct Hin as [->|Hin].
  - now rewrite String.eqb_refl.
  - destruct (String.eqb_spec (k y) (k x)) as [E|_].
    + exfalso. apply Hy. rewrite E. now apply in_map.
    + now apply IH.
Qed.



End ListFacts.

(* ------------------------------------------------------------------------- *)
(** ** The allow-list *)
(* ------------------------------------------------------------------------- *)

Module AllowListProofs.

Import Js RegExp ModelSwitcher JsFacts ListFacts.

Lemma globBody_cons c r : globBody (String c r) = globChar c ++ globBody r.
Proof.
  unfold globBody. cbn [replaceEach].
  rewrite !replaceEach_app. f_equal.
  destruct c as [[] [] [] [] [] [] [] []]; reflexivity.
Qed.

Lemma globChar_no_star c x : startsWithStar (globChar c ++ x) = false.
Proof. destruct c as [[] [] [] [] [] [] [] []]; reflexivity. Qed.

Lemma globBody_no_star p : startsWithStar (globBody p ++ "$") = false.
Proof.
  destruct p as [|c r]; [reflexivity|].
  rewrite globBody_cons, append_assoc. apply globChar_no_star.
Qed.

Lemma parseBody_dot x :
  startsWithStar x = false ->
  parseBody (String "." x) = option_map (cons AnyChar) (parseBody x).
Proof.
  destruct x as [|d x']; [reflexivity|].
  destruct d as [[] [] [] [] [] [] [] []]; simpl; intros H;
    try reflexivity; discriminate.
Qed.

Lemma star_ext (f g : string -> bool) :
  (forall s, f s = g s) ->
  forall s,
    (fix star (s : string) : bool :=
       f s || match s with
              | String d r => negb (lineTerminator d) && star r
              | EmptyString => false
              end) s
    = (fix star (s : string) : bool :=
         g s || match s with
                | String d r => negb (lineTerminator d) && star r
                | EmptyString => false
                end) s.
Proof.
  intros E s. induction s as [|d r IH]; [now rewrite E|].
  now rewrite E, IH.
Qed.

(** The source built from a pattern always parses, and the regular
    expression decides [regexGlob] of the pattern. *)
Lemma globSource_refines p :
  exists re, parseBody (globBody p ++ "$") = Some re
             /\ forall s, matchPieces re s = regexGlob p s.
Proof.
  induction p as [|c r IH].
  - exists []. split; [reflexivity|]. intros s. reflexivity.
  - destruct IH as (re & Hp & Hm).
    rewrite globBody_cons, append_assoc.
    pose proof (globBody_no_star r) as Hs.
    set (x := globBody r ++ "$") in *.
    unfold globChar.
    destruct (Ascii.eqb_spec c "*") as [->|Hstar].
    + exists (AnyStar :: re). split.
      * cbn. now rewrite Hp.
      * intros s. cbn. now apply star_ext.
    + destruct (Ascii.eqb_spec c "?") as [->|Hq].
      * exists (AnyChar :: re). split.
        -- change ("." ++ x) with (String "." x).
           rewrite parseBody_dot by assumption. now rewrite Hp.
        -- intros s. cbn. destruct s; [reflexivity|]. now rewrite Hm.
      * exists (Lit c :: re). split.
        -- clear Hm Hs. revert Hstar Hq.
           destruct c as [[] [] [] [] [] [] [] []]; intros; cbn;
             try (now rewrite Hp); congruence.
        -- intros s. cbn [matchPieces regexGlob].
           apply Ascii.eqb_neq in Hstar, Hq. rewrite Hstar, Hq.
           destruct s; [reflexivity|]. now rewrite Hm.
Qed.

Lemma make_globSource p :
  exists re, RegExp.make (globSource p) = Some re
             /\ forall s, RegExp.test re s = regexGlob p s.
Proof. exact (globSource_refines p). Qed.




(** The loop never throws: it is the disjunction of its rounds. *)
Lemma globLoop_spec key set :
  globLoop key set = Some (existsb (globHit key) set).
Proof.
  induction set as [|pat r IH]; [reflexivity|].
  cbn [globLoop existsb]. unfold globHit at 1, isGlob.
  destruct (includes pat "*" || includes pat "?"); cbn [andb orb];
    [|assumption].
  destruct (make_globSource pat) as (re & -> & Hm).
  rewrite Hm. destruct (regexGlob pat key); [reflexivity|assumption].
Qed.

Lemma isModelEnabled_set p m set :
  isModelEnabled p m (Some set)
  = Some (existsb (enabledBy (modelKey p m)) set).
Proof.
  unfold isModelEnabled. cbv zeta. rewrite globLoop_spec.
  unfold setHas, enabledBy.
  set (key := modelKey p m).
  induction set as [|x r IH]; [reflexivity|].
  cbn [existsb]. rewrite (String.eqb_sym key x).
  destruct (String.eqb x key); cbn [orb]; [reflexivity|].
  destruct (globHit key x); cbn [orb].
  - now destruct (existsb (String.eqb key) r).
  - exact IH.
Qed.



(** The filter over the registry never throws either. *)
Lemma filterEnabled_total enabled models :
  exists kept, filterEnabled enabled models = Some kept.
Proof.
  induction models as [|m r (kept & IH)]; [now exists []|].
  cbn [filterEnabled]. rewrite IH.
  destruct enabled as [set|].
  - rewrite isModelEnabled_set. eexists. reflexivity.
  - cbn. eexists. reflexivity.
Qed.

(** *** The regular expression and the glob of the specification *)








End AllowListProofs.

(* ------------------------------------------------------------------------- *)
(** ** The searchable select list *)
(* ------------------------------------------------------------------------- *)

Module SelectProofs.

Import Js Tui ModelSwitcher JsFacts.
Local Open Scope Z_scope.

Ltac split_ifs :=
  repeat match goal with
         | |- context [if ?b then _ else _] => destruct b eqn:?
         end.

Ltac reflect_Z :=
  repeat match goal with
         | E : (_ <? _) = _ |- _ =>
             first [apply Z.ltb_lt in E | apply Z.ltb_ge in E]
         | E : (_ <=? _) = _ |- _ =>
             first [apply Z.leb_le in E | apply Z.leb_gt in E]
         end.

Section Select.

Variable matchesKey : string -> KeyId -> bool.
Variable fuzzyFilter :
  forall T : Type, list T -> string -> (T -> string) -> list T.
Variable items : list SearchableItem.

Abbreviation handle := (handleInput matchesKey fuzzyFilter items).
Abbreviation refilter := (applyFilter fuzzyFilter items).
Abbreviation run := (feed matchesKey fuzzyFilter items).
Abbreviation control := (isControlKey matchesKey).

(** *** Which branch an input takes *)

Lemma control_false data :
  control data = false ->
  matchesKey data (Named "escape") = false
  /\ matchesKey data (Ctrl "c") = false
  /\ matchesKey data (Named "backspace") = false
  /\ matchesKey data (Named "up") = false
  /\ matchesKey data (Ctrl "p") = false
  /\ matchesKey data (Named "down") = false
  /\ matchesKey data (Ctrl "n") = false
  /\ matchesKey data (Named "enter") = false.
Proof.
  unfold isControlKey. intros H.
  repeat (apply orb_false_elim in H as [H ?]). repeat split; assumption.
Qed.

Lemma handle_plain data st :
  control data = false ->
  handle st data =
    if isPrintable data
    then (refilter (setSearchText st (searchText st ++ data)),
          RequestRender)
    else (st, Idle).
Proof.
  intros H.
  apply control_false in H as (E1 & E2 & E3 & E4 & E5 & E6 & E7 & E8).
  unfold handleInput. now rewrite E1, E2, E3, E4, E5, E6, E7, E8.
Qed.

Lemma handle_up data st :
  isUpKey matchesKey data = true ->
  handle st data = (moveUp st, RequestRender).
Proof.
  unfold isUpKey, isCancelKey, handleInput. intros H.
  apply andb_prop in H as [H Hu]. apply andb_prop in H as [Hc Hb].
  apply negb_true_iff in Hc, Hb. now rewrite Hc, Hb, Hu.
Qed.

Lemma handle_down data st :
  isDownKey matchesKey data = true ->
  handle st data = (moveDown st, RequestRender).
Proof.
  unfold isDownKey, isCancelKey, handleInput. intros H.
  apply andb_prop in H as [H Hd]. apply andb_prop in H as [H Hu].
  apply andb_prop in H as [Hc Hb].
  apply negb_true_iff in Hc, Hb, Hu. now rewrite Hc, Hb, Hu, Hd.
Qed.

Lemma handle_backspace data st :
  isBackspaceKey matchesKey data = true ->
  handle st data =
    if (0 <? String.length (searchText st))%nat
    then (refilter (setSearchText st (dropLast (searchText st))),
          RequestRender)
    else (st, Idle).
Proof.
  unfold isBackspaceKey, isCancelKey, handleInput. intros H.
  apply andb_prop in H as [Hc Hb]. apply negb_true_iff in Hc.
  now rewrite Hc, Hb.
Qed.

(** *** What the component maintains between two events *)

Lemma ensureVisible_fields st :
  searchText (ensureVisible st) = searchText st
  /\ filteredItems (ensureVisible st) = filteredItems st
  /\ highlightedIndex (ensureVisible st) = highlightedIndex st.
Proof.
  unfold ensureVisible. split_ifs; repeat split; reflexivity.
Qed.

Lemma moveDown_fields st :
  filteredItems (moveDown st) = filteredItems st
  /\ searchText (moveDown st) = searchText st
  /\ highlightedIndex (moveDown st)
     = Z.min (len (filteredItems st) - 1) (highlightedIndex st + 1).
Proof.
  unfold moveDown.
  destruct (ensureVisible_fields
              (setHighlightedIndex st
                 (Z.min (len (filteredItems st) - 1)
                    (highlightedIndex st + 1))))
    as (E1 & E2 & E3).
  rewrite E1, E2, E3. repeat split.
Qed.

Lemma moveUp_fields st :
  filteredItems (moveUp st) = filteredItems st
  /\ searchText (moveUp st) = searchText st
  /\ highlightedIndex (moveUp st) = Z.max 0 (highlightedIndex st - 1).
Proof.
  unfold moveUp.
  destruct (ensureVisible_fields
              (setHighlightedIndex st (Z.max 0 (highlightedIndex st - 1))))
    as (E1 & E2 & E3).
  rewrite E1, E2, E3. repeat split.
Qed.

Lemma refilter_settled st : settled (refilter st).
Proof.
  unfold settled, wellFormed, emptyForm, applyFilter, len, MAX_VISIBLE.
  cbn.
  destruct (if String.eqb (searchText st) EmptyString then items
            else fuzzyFilter _ items (searchText st) itemText) as [|x r].
  - right. cbn. repeat split; lia.
  - left. cbn [List.length]. lia.
Qed.

Lemma moveUp_settled st : settled st -> settled (moveUp st).
Proof.
  unfold settled, wellFormed, emptyForm, moveUp, ensureVisible,
    MAX_VISIBLE.
  destruct st as [q f h o]; cbn.
  intros [H | (-> & H)]; [left|right];
    split_ifs; cbn in *; reflect_Z;
    try (split; [reflexivity|]); lia.
Qed.

Lemma moveDown_settled st : settled st -> settled (moveDown st).
Proof.
  unfold settled, wellFormed, emptyForm, moveDown, ensureVisible,
    MAX_VISIBLE, len.
  destruct st as [q f h o]; cbn.
  intros [H | (-> & H)]; [left|right];
    split_ifs; cbn in *; reflect_Z;
    try (split; [reflexivity|]); lia.
Qed.

Lemma handle_settled st data :
  settled st -> settled (fst (handle st data)).
Proof.
  intros H. unfold handleInput.
  repeat match goal with
         | |- context [if ?b then _ else _] => destruct b
         | |- context [match ?o with Some _ => _ | None => _ end] =>
             destruct o
         end; cbn [fst];
    auto using refilter_settled, moveUp_settled, moveDown_settled.
Qed.

Lemma initial_settled : settled (initialState items).
Proof.
  unfold settled, wellFormed, emptyForm, initialState, len, MAX_VISIBLE.
  cbn. destruct items; [right|left]; cbn [List.length]; repeat split; lia.
Qed.

(** After every input event the state is well formed, unless nothing
    matches the query: then the two indices lie between -1 and 0. *)
Lemma run_settled events :
  forall st, settled st -> settled (fst (run st events)).
Proof.
  induction events as [|data rest IH]; intros st H; [exact H|].
  cbn [feed]. pose proof (handle_settled st data H) as H'.
  destruct (handle st data) as [st' sig]. cbn [fst] in H'.
  destruct sig; cbn [fst]; auto.
Qed.

(** Enter never reads outside the filtered list. *)
Lemma handle_never_throws st data :
  settled st -> snd (handle st data) <> Throws.
Proof.
  intros H. unfold handleInput. split_ifs; cbn [snd]; try discriminate.
  destruct (at_ (filteredItems st) (highlightedIndex st)) eqn:E; cbn;
    [discriminate|].
  exfalso. unfold at_ in E.
  match goal with
  | G : (0 <? _) && _ = true |- _ => apply andb_prop in G as [L1 L2]
  end.
  apply Z.ltb_lt in L1, L2.
  destruct H as [W | (Hf & _)].
  - unfold wellFormed in W.
    destruct (highlightedIndex st <? 0) eqn:E0;
      [apply Z.ltb_lt in E0; lia|].
    apply nth_error_None in E. unfold len in *. lia.
  - rewrite Hf in L1. cbn in L1. lia.
Qed.

(** The slip in the down branch: on an empty result the minimum is
    taken with -1, and [ensureVisible] follows. *)
Lemma moveDown_without_matches st :
  filteredItems st = [] ->
  highlightedIndex st = 0 -> scrollOffset st = 0 ->
  highlightedIndex (moveDown st) = -1 /\ scrollOffset (moveDown st) = -1.
Proof.
  destruct st as [q f h o]. cbn. intros -> -> ->.
  split; reflexivity.
Qed.

(** *** Navigation *)

Lemma run_down keys :
  Forall (fun d => isDownKey matchesKey d = true) keys ->
  forall st,
    filteredItems (fst (run st keys)) = filteredItems st
    /\ (keys <> [] ->
        highlightedIndex (fst (run st keys))
        = Z.min (len (filteredItems st) - 1)
            (highlightedIndex st + Z.of_nat (List.length keys))).
Proof.
  induction 1 as [|d keys Hd _ IH]; intros st.
  - split; [reflexivity|congruence].
  - cbn [feed]. rewrite (handle_down d st Hd).
    destruct (moveDown_fields st) as (Ef & _ & Eh).
    destruct (IH (moveDown st)) as (IHf & IHh).
    split; [congruence|]. intros _.
    destruct keys as [|d' keys'].
    + cbn. rewrite Eh. lia.
    + rewrite IHh by discriminate. rewrite Ef, Eh.
      cbn [List.length]. lia.
Qed.

(** Where something matches the query, navigation clamps.  In every
    filter state with at least one filtered item and the highlighted
    index on one of them: any number of [moveDown] steps leaves the index
    within [0, length - 1], and [filteredItems.length] of them leave it
    on the last item, never past it; one [moveUp] or [moveDown] step
    leaves the filtered list alone and moves the index by one, clamped to
    [0, length - 1]. *)
Lemma navigation_clamps st :
  filteredItems st <> [] ->
  0 <= highlightedIndex st < len (filteredItems st) ->
  (forall keys,
      Forall (fun d => isDownKey matchesKey d = true) keys ->
      filteredItems (fst (run st keys)) = filteredItems st
      /\ 0 <= highlightedIndex (fst (run st keys))
         <= len (filteredItems st) - 1
      /\ (List.length keys = List.length (filteredItems st) ->
          highlightedIndex (fst (run st keys))
          = len (filteredItems st) - 1))
  /\ (forall data,
         (isUpKey matchesKey data = true ->
          filteredItems (fst (handle st data)) = filteredItems st
          /\ 0 <= highlightedIndex (fst (handle st data))
             <= len (filteredItems st) - 1
          /\ highlightedIndex (fst (handle st data))
             = Z.max 0 (highlightedIndex st - 1))
         /\ (isDownKey matchesKey data = true ->
             filteredItems (fst (handle st data)) = filteredItems st
             /\ 0 <= highlightedIndex (fst (handle st data))
                <= len (filteredItems st) - 1
             /\ highlightedIndex (fst (handle st data))
                = Z.min (len (filteredItems st) - 1)
                    (highlightedIndex st + 1))).
Proof.
  intros Hne Hh. split.
  - intros keys Hk.
    destruct (run_down keys Hk st) as (Ef & Eh). split; [exact Ef|].
    destruct keys as [|d r].
    + cbn [feed fst List.length]. split; [lia|].
      intros E. destruct (filteredItems st); [congruence|discriminate].
    + rewrite Eh by discriminate. split; [lia|].
      intros E. unfold len. rewrite <- E. lia.
  - intros data. split; intros Hkey.
    + rewrite (handle_up data st Hkey). cbn [fst].
      destruct (moveUp_fields st) as (Ef & _ & Eh). rewrite Eh.
      repeat split; try assumption; lia.
    + rewrite (handle_down data st Hkey). cbn [fst].
      destruct (moveDown_fields st) as (Ef & _ & Eh). rewrite Eh.
      repeat split; try assumption; lia.
Qed.

(** C4.  The two navigation branches do not clamp alike.  The up
    branch keeps the index at 0 or above in every state.  The down branch
    has no lower clamp: in a state where nothing matches the query, with
    the index at 0 as the filter leaves it, the down key takes it to -1,
    below the range that the up key keeps, and the scroll offset follows
    it there. *)
Theorem down_key_has_no_lower_clamp st data :
  filteredItems st = [] ->
  highlightedIndex st = 0 ->
  scrollOffset st = 0 ->
  (isUpKey matchesKey data = true ->
   0 <= highlightedIndex (fst (handle st data))
   /\ highlightedIndex (fst (handle st data)) = 0)
  /\ (isDownKey matchesKey data = true ->
      highlightedIndex (fst (handle st data)) = -1
      /\ scrollOffset (fst (handle st data)) = -1
      /\ ~ 0 <= highlightedIndex (fst (handle st data))).
Proof.
  intros Hf Hh Ho. split; intros Hkey.
  - rewrite (handle_up data st Hkey). cbn [fst].
    destruct (moveUp_fields st) as (_ & _ & Eh). rewrite Eh, Hh.
    split; [lia|reflexivity].
  - rewrite (handle_down data st Hkey). cbn [fst].
    destruct (moveDown_without_matches st Hf Hh Ho) as (Eh & Eo).
    rewrite Eh, Eo. repeat split. lia.
Qed.

(** *** Filtering *)

(** C5.  With an empty query the filter step is the identity on the
    candidate list: the filtered items are the items the list was
    constructed with, in their order, and the fuzzy filter is not
    consulted.  So it is for the initial state, for [applyFilter] on
    any state with an empty query, for the backspace that empties the
    query, and for [applyFuzzyFilter] of the earlier standalone
    extension. *)
Theorem empty_query_is_identity :
  filteredItems (initialState items) = items
  /\ (forall st, searchText st = EmptyString ->
                 filteredItems (refilter st) = items)
  /\ (forall st data,
         isBackspaceKey matchesKey data = true ->
         searchText st <> EmptyString ->
         dropLast (searchText st) = EmptyString ->
         filteredItems (fst (handle st data)) = items)
  /\ (forall sl,
         Standalone.filteredItems
           (Standalone.applyFuzzyFilter fuzzyFilter items EmptyString sl)
         = items).
Proof.
  split; [reflexivity|]. split; [|split].
  - intros st E. unfold applyFilter. cbn. now rewrite E.
  - intros st data Hb Hne E. rewrite (handle_backspace data st Hb).
    rewrite (nonempty_length _ Hne). unfold applyFilter. cbn.
    now rewrite E.
  - intros sl. reflexivity.
Qed.

(** C6.  In every state, a printable character (one not bound to a
    control key) is appended to the query, the candidates are filtered
    again with the new query and both [highlightedIndex] and
    [scrollOffset] become 0; backspace on a non-empty query removes its
    last character and filters again in the same way; backspace on an
    empty query changes nothing and requests no render. *)
Theorem append_and_backspace st :
  (forall c,
      (32 <= code c <= 126)%nat ->
      control (String c EmptyString) = false ->
      handle st (String c EmptyString)
      = ({| searchText := searchText st ++ String c EmptyString;
            filteredItems :=
              fuzzyFilter _ items
                (searchText st ++ String c EmptyString) itemText;
            highlightedIndex := 0;
            scrollOffset := 0 |}, RequestRender))
  /\ (forall data,
         isBackspaceKey matchesKey data = true ->
         searchText st <> EmptyString ->
         handle st data
         = (refilter (setSearchText st (dropLast (searchText st))),
            RequestRender)
         /\ highlightedIndex (fst (handle st data)) = 0
         /\ scrollOffset (fst (handle st data)) = 0
         /\ exists c,
             searchText st
             = searchText (fst (handle st data)) ++ String c EmptyString)
  /\ (forall data,
         isBackspaceKey matchesKey data = true ->
         searchText st = EmptyString ->
         handle st data = (st, Idle)).
Proof.
  split; [|split].
  - intros c Hc Hctl. rewrite (handle_plain _ st Hctl), isPrintable_char.
    replace ((32 <=? code c)%nat && (code c <=? 126)%nat) with true
      by (symmetry; apply andb_true_intro; split; apply Nat.leb_le; lia).
    unfold applyFilter. cbn. now rewrite append_nonempty.
  - intros data Hb Hne.
    rewrite (handle_backspace data st Hb), (nonempty_length _ Hne).
    repeat split.
    cbn [fst applyFilter searchText setSearchText].
    now apply dropLast_last.
  - intros data Hb E. rewrite (handle_backspace data st Hb).
    now rewrite E.
Qed.

(** C10.  An input that is none of the control keys and is not one
    code unit in the range U+0020 to U+007E leaves the state as it is and
    has no outcome: so it is for a single character below U+0020 or above
    U+007E, whatever the number of code units that stand for it here, and
    for any longer or empty input; and whatever the input, the query
    grows only when the input is one character in the range U+0020 to
    U+007E. *)
Theorem nonprintable_input_ignored st :
  (forall data,
      (forall c, data = String c EmptyString ->
                 (code c < 32)%nat \/ (126 < code c)%nat) ->
      control data = false ->
      handle st data = (st, Idle))
  /\ (forall data,
         (String.length (searchText st)
          < String.length (searchText (fst (handle st data))))%nat ->
         exists c,
           data = String c EmptyString /\ (32 <= code c <= 126)%nat).
Proof.
  split.
  - intros data Hout Hctl. rewrite (handle_plain _ st Hctl).
    destruct (isPrintable data) eqn:P; [|reflexivity].
    destruct (isPrintable_inv _ P) as (c & -> & Hc).
    specialize (Hout c eq_refl). lia.
  - intros data. unfold handleInput.
    repeat match goal with
           | |- context [if ?b then _ else _] => destruct b eqn:?
           | |- context [match ?o with Some _ => _ | None => _ end] =>
               destruct o
           end; cbn [fst];
      try (destruct (moveUp_fields st) as (_ & -> & _));
      try (destruct (moveDown_fields st) as (_ & -> & _));
      cbn [applyFilter searchText setSearchText]; intros L; try lia.
    + pose proof (length_dropLast (searchText st)). lia.
    + now apply isPrintable_inv.
Qed.

End Select.

(** C3.  The invariant of the filter state does not survive the down
    key when nothing matches the query: the highlighted index and the
    scroll offset both become -1. *)
Theorem down_without_matches_breaks_invariant :
  let st :=
    fst (feed Legacy.matchesKey Legacy.fuzzyFilter Samples.selectItems
           (initialState Samples.selectItems) ["z"%string; Legacy.DOWN]) in
  searchText st = "z"%string /\ filteredItems st = []
  /\ highlightedIndex st = -1 /\ scrollOffset st = -1.
Proof. vm_compute. repeat split. Qed.

Lemma down_key_has_no_lower_clamp_witness :
  highlightedIndex
    (fst (handleInput Legacy.matchesKey Legacy.fuzzyFilter
            Samples.selectItems Samples.noMatches Legacy.DOWN)) = -1
  /\ highlightedIndex
       (fst (handleInput Legacy.matchesKey Legacy.fuzzyFilter
               Samples.selectItems Samples.noMatches Legacy.CTRL_P)) = 0.
Proof.
  pose proof (down_key_has_no_lower_clamp Legacy.matchesKey
                Legacy.fuzzyFilter Samples.selectItems Samples.noMatches)
    as H.
  split.
  - exact (proj1 (proj2 (H Legacy.DOWN eq_refl eq_refl eq_refl) eq_refl)).
  - exact (proj2 (proj1 (H Legacy.CTRL_P eq_refl eq_refl eq_refl) eq_refl)).
Defined.

Lemma navigation_clamps_witness :
  let st := initialState Samples.selectItems in
  let keys := [Legacy.DOWN; Legacy.DOWN; Legacy.DOWN] in
  highlightedIndex
    (fst (feed Legacy.matchesKey Legacy.fuzzyFilter Samples.selectItems
            st keys)) = 2.
Proof.
  intros st keys.
  assert (Hne : filteredItems st <> []) by discriminate.
  assert (Hh : 0 <= highlightedIndex st < len (filteredItems st))
    by (vm_compute; split; [discriminate|reflexivity]).
  assert (Hk : Forall (fun d => isDownKey Legacy.matchesKey d = true) keys)
    by (repeat constructor).
  exact (proj2 (proj2 (proj1
           (navigation_clamps Legacy.matchesKey Legacy.fuzzyFilter
              Samples.selectItems st Hne Hh) keys Hk)) eq_refl).
Defined.

Lemma empty_query_is_identity_witness :
  filteredItems
    (fst (handleInput Legacy.matchesKey Legacy.fuzzyFilter
            Samples.selectItems
            {| searchText := "z"; filteredItems := [];
               highlightedIndex := -1; scrollOffset := -1 |}
            Legacy.BACKSPACE))
  = Samples.selectItems.
Proof.
  apply (proj1 (proj2 (proj2 (empty_query_is_identity Legacy.matchesKey
                                Legacy.fuzzyFilter Samples.selectItems))));
    [reflexivity | discriminate | reflexivity].
Defined.

Lemma append_and_backspace_witness :
  handleInput Legacy.matchesKey Legacy.fuzzyFilter Samples.selectItems
    (initialState Samples.selectItems) "o"
  = ({| searchText := "o";
        filteredItems :=
          Legacy.fuzzyFilter Samples.selectItems "o" itemText;
        highlightedIndex := 0;
        scrollOffset := 0 |}, RequestRender).
Proof.
  apply (proj1 (append_and_backspace Legacy.matchesKey Legacy.fuzzyFilter
                  Samples.selectItems (initialState Samples.selectItems))
           "o"%char).
  - vm_compute. split; apply Nat.leb_le; reflexivity.
  - reflexivity.
Defined.

Lemma nonprintable_input_ignored_witness :
  handleInput Legacy.matchesKey Legacy.fuzzyFilter Samples.selectItems
    (initialState Samples.selectItems) (Legacy.chr 9)
  = (initialState Samples.selectItems, Idle)
  /\ handleInput Legacy.matchesKey Legacy.fuzzyFilter Samples.selectItems
       (initialState Samples.selectItems)
       (Legacy.chr 197 ++ Legacy.chr 130)
     = (initialState Samples.selectItems, Idle).
Proof.
  pose proof (proj1 (nonprintable_input_ignored Legacy.matchesKey
                       Legacy.fuzzyFilter Samples.selectItems
                       (initialState Samples.selectItems))) as H.
  split.
  - apply H; [|reflexivity].
    intros c [= <-]. left. vm_compute. apply Nat.leb_le. reflexivity.
  - apply H; [|reflexivity]. intros c E. discriminate E.
Defined.

End SelectProofs.

(* ------------------------------------------------------------------------- *)
(** ** The wizard *)
(* ------------------------------------------------------------------------- *)

Module WizardProofs.

Import Js ModelSwitcher.
Local Open Scope list_scope.

Lemma ReadOnly_bind A B (p : Prog A) (f : A -> Prog B) :
  ReadOnly p -> (forall a, ReadOnly (f a)) -> ReadOnly (bind p f).
Proof.
  induction 1 as [a| |e k He Hs _ IH]; intros Hf; cbn [bind];
    [apply Hf | constructor | constructor; auto].
Qed.

Lemma CancelSafe_bind_read A B (p : Prog A) (f : A -> Prog B) :
  ReadOnly p -> (forall a, CancelSafe (f a)) -> CancelSafe (bind p f).
Proof.
  induction 1 as [a| |e k He Hs _ IH]; intros Hf; cbn [bind];
    [apply Hf | constructor | apply CS_Read; auto].
Qed.

Lemma getAvailableEnabledModels_ReadOnly : ReadOnly getAvailableEnabledModels.
Proof.
  unfold getAvailableEnabledModels. cbn [bind call].
  constructor; try reflexivity. intros patterns.
  constructor; try reflexivity. intros available.
  cbn [bind]. destruct (filterEnabled _ _); constructor.
Qed.

Lemma getProviders_ReadOnly lc : ReadOnly (getProviders lc).
Proof.
  apply ReadOnly_bind; [apply getAvailableEnabledModels_ReadOnly|].
  constructor.
Qed.

Lemma getModelsForProvider_ReadOnly lc p :
  ReadOnly (getModelsForProvider lc p).
Proof.
  apply ReadOnly_bind; [apply getAvailableEnabledModels_ReadOnly|].
  constructor.
Qed.

(** Walks the part of a program that follows an effect. *)
Ltac quietTail :=
  repeat first
    [ progress cbn [bind call]
    | match goal with
      | |- NoSelect (Ret _) => constructor
      | |- NoSelect (call _) => unfold call
      | |- NoSelect (bind (if ?b then _ else _) _) => destruct b
      | |- NoSelect (if ?b then _ else _) => destruct b
      | |- NoSelect (Call _ _) => apply NS_Call; [reflexivity | intros ?]
      end ].

(** Walks a program call by call. *)
Ltac walk :=
  repeat first
    [ progress cbn [bind call]
    | match goal with
      | |- CancelSafe (Ret _) => constructor
      | |- CancelSafe (call _) => unfold call
      | |- CancelSafe (bind (if ?b then _ else _) _) => destruct b
      | |- CancelSafe (bind (getProviders _) _) =>
          apply CancelSafe_bind_read;
          [apply getProviders_ReadOnly | intros ?]
      | |- CancelSafe (bind (getModelsForProvider _ _) _) =>
          apply CancelSafe_bind_read;
          [apply getModelsForProvider_ReadOnly | intros ?]
      | |- CancelSafe (Call (Select _ _ _) _) =>
          apply CS_Select; [exists tt; reflexivity | intros ?]
      | |- CancelSafe (Call _ _) =>
          first [ apply CS_Read; [reflexivity | reflexivity | intros ?]
                | apply CS_Effect; [reflexivity | intros ?; quietTail] ]
      | |- CancelSafe (if ?b then _ else _) => destruct b
      | |- CancelSafe (match (if ?b then _ else _) with
                       | Some _ => _
                       | None => _
                       end) => destruct b
      | |- CancelSafe (match ?o with Some _ => _ | None => _ end) =>
          destruct o
      end ].

Lemma runModelSwitcher_CancelSafe lc : CancelSafe (runModelSwitcher lc).
Proof. unfold runModelSwitcher. walk. Qed.

(** In a trace without prompts nothing was cancelled. *)
Lemma NoSelect_trace A (p : Prog A) :
  NoSelect p ->
  forall host n, existsb isCancelled (fst (exec p host n)) = false.
Proof.
  induction 1 as [a| |e k He _ IH]; intros host n; cbn [exec];
    try reflexivity.
  specialize (IH (host n e) host (S n)).
  destruct (exec (k (host n e)) host (S n)) as [tr r].
  cbn [fst existsb] in *.
  rewrite IH, orb_false_r. destruct e; try reflexivity; discriminate.
Qed.

Lemma cancelled_in_tail (pre post : list Entry) (en hd : Entry) tr :
  hd :: tr = pre ++ en :: post ->
  isCancelled hd = false -> isCancelled en = true ->
  exists pre', pre = hd :: pre' /\ tr = pre' ++ en :: post.
Proof.
  intros E Hh He. destruct pre as [|x pre']; cbn in E; inversion E; subst.
  - congruence.
  - exists pre'. split; reflexivity.
Qed.

Lemma CancelSafe_trace A (p : Prog A) :
  CancelSafe p ->
  forall host n pre en post,
    fst (exec p host n) = pre ++ en :: post ->
    isCancelled en = true ->
    post = [] /\ quiet (fst (exec p host n)) = true.
Proof.
  induction 1
    as [a| |e k He Hs _ IH|title items helpText k (a & Hk) _ IH|e k He Hk];
    intros host n pre en post; cbn [exec].
  - intros E; destruct pre; discriminate.
  - intros E; destruct pre; discriminate.
  - specialize (IH (host n e) host (S n)).
    destruct (exec (k (host n e)) host (S n)) as [tr r]. cbn [fst] in *.
    intros E Hc.
    destruct (cancelled_in_tail pre post en _ tr E) as (pre' & -> & E');
      try assumption.
    { destruct e; try reflexivity; discriminate. }
    destruct (IH pre' en post E' Hc) as (-> & Q). split; [reflexivity|].
    unfold quiet in *. cbn [forallb projT1]. now rewrite He, Q.
  - destruct (host n (Select title items helpText)) as [v|] eqn:Ans.
    + specialize (IH v host (S n)).
      destruct (exec (k (Some v)) host (S n)) as [tr r]. cbn [fst] in *.
      intros E Hc.
      destruct (cancelled_in_tail pre post en _ tr E) as (pre' & -> & E');
        try assumption.
      { reflexivity. }
      destruct (IH pre' en post E' Hc) as (-> & Q). split; [reflexivity|].
      unfold quiet in *. cbn [forallb projT1 isEffect negb andb]. exact Q.
    + rewrite Hk. cbn [exec fst]. intros E Hc.
      destruct pre as [|x [|y pre']]; cbn in E; inversion E; subst.
      split; reflexivity.
  - pose proof (NoSelect_trace _ _ (Hk (host n e)) host (S n)) as Hn.
    destruct (exec (k (host n e)) host (S n)) as [tr r]. cbn [fst] in *.
    intros E Hc. exfalso.
    destruct (cancelled_in_tail pre post en _ tr E) as (pre' & -> & E');
      try assumption.
    { destruct e; try reflexivity; discriminate. }
    rewrite E' in Hn. rewrite existsb_app in Hn. cbn [existsb] in Hn.
    rewrite Hc in Hn. rewrite orb_true_r in Hn. discriminate.
Qed.

(** C1.  Whatever the host answers: if some prompt of the model switcher
    (provider, model or thinking level) comes back cancelled, that prompt
    is the last call the run makes, so no later step is built or shown,
    and the whole trace contains no [setModel], no [setThinkingLevel] and
    no notification. *)
Theorem cancel_ends_wizard
        (localeCompare : string -> string -> Z) (host : Host) :
  forall pre en post,
    fst (exec (runModelSwitcher localeCompare) host 0) = pre ++ en :: post ->
    isCancelled en = true ->
    post = []
    /\ quiet (fst (exec (runModelSwitcher localeCompare) host 0)) = true.
Proof.
  intros pre en post. apply CancelSafe_trace, runModelSwitcher_CancelSafe.
Qed.

Lemma cancel_ends_wizard_witness :
  let tr :=
    fst (exec (runModelSwitcher Samples.localeCompare)
           (Samples.host Samples.cancelModel) 0) in
  List.length tr = 9%nat /\ quiet tr = true.
Proof.
  intros tr. split; [reflexivity|].
  apply (cancel_ends_wizard Samples.localeCompare
           (Samples.host Samples.cancelModel)
           (firstn 8 tr) (nth 8 tr (existT answer HasUI true)) []).
  - vm_compute. reflexivity.
  - reflexivity.
Defined.

(** The run of the sample host in which nothing is cancelled: provider
    [anthropic], model [claude-x], thinking level [high]. *)
Example wizard_end_to_end :
  map (@projT1 Event answer)
    (skipn 13 (fst (exec (runModelSwitcher Samples.localeCompare)
                      (Samples.host Samples.pickAll) 0)))
  = [ SetModel Samples.claudeX;
      SetThinkingLevel "high";
      Notify "Switched to Claude X (thinking: high)" "info" ].
Proof. reflexivity. Qed.

End WizardProofs.

(* ------------------------------------------------------------------------- *)
(** ** The chorded palette *)
(* ------------------------------------------------------------------------- *)

Module LeaderKeyProofs.

Import Js Tui LeaderKey ListFacts.
Local Open Scope Z_scope.

Section Palette.

Variable Action : Type.
Variable matchesKey : string -> KeyId -> bool.
Variable parseKey : string -> option string.
Variable entries : list (TopLevelEntry Action).

Abbreviation handle := (handleInput matchesKey parseKey entries).
Abbreviation pressed := (presses matchesKey parseKey).

Lemma palette_direct o data :
  isReservedKey matchesKey data = false ->
  handle o data =
    match directKey parseKey data with
    | Some k => selectKey entries o k
    | None => (o, Idle)
    end.
Proof.
  unfold isReservedKey. intros H.
  repeat (apply orb_false_elim in H as [H ?]).
  unfold handleInput, directKey.
  repeat match goal with
         | E : matchesKey _ _ = false |- _ => rewrite E; clear E
         end.
  cbn [orb]. destruct (isLowerLetter (parseKey data)) eqn:L.
  - destruct (parseKey data); [reflexivity|discriminate].
  - destruct (isPrintable data); reflexivity.
Qed.

Lemma wrap_eta (a : ActionItem Action) :
  {| key := key a; label := label a; description := description a;
     action := action a |} = a.
Proof. destruct a; reflexivity. Qed.

(** C7.  The palette as a state machine, for chord keys that are
    unique in their scope: from [Root], a press of a group's chord key
    opens that group (with the highlight on its first row); a press of
    a direct action's chord key from [Root], or of an action's key
    inside its group, calls [done] with that action; backspace inside a
    group returns to [Root] with [highlightedIndex] 0; escape at [Root]
    calls [done] with [null]. *)
Theorem palette_transitions :
  (forall o data g,
      view o = Root Action ->
      NoDup (map (@entryKey Action) entries) ->
      In (GroupEntry g) entries ->
      pressed data (groupKey g) ->
      handle o data
      = ({| view := InGroup g; highlightedIndex := 0 |}, Idle))
  /\ (forall o data a,
         view o = Root Action ->
         NoDup (map (@entryKey Action) entries) ->
         In (ActionEntry a) entries ->
         pressed data (key a) ->
         handle o data = (o, Done (Some a)))
  /\ (forall o data g a,
         view o = InGroup g ->
         NoDup (map (@key Action) (items g)) ->
         In a (items g) ->
         pressed data (key a) ->
         handle o data = (o, Done (Some a)))
  /\ (forall o data g,
         view o = InGroup g ->
         matchesKey data (Named "backspace") = true ->
         handle o data
         = ({| view := Root Action; highlightedIndex := 0 |}, Idle))
  /\ (forall o data,
         view o = Root Action ->
         matchesKey data (Named "escape") = true ->
         handle o data = (o, Done None)).
Proof.
  repeat split.
  - intros o data g Hv Hnd Hin (Hr & Hk).
    rewrite (palette_direct o data Hr), Hk.
    unfold selectKey, handleRootSelection. rewrite Hv.
    pose proof (find_unique _ (@entryKey Action) entries (GroupEntry g)
                  Hnd Hin) as F.
    cbn [entryKey] in F. now rewrite F.
  - intros o data a Hv Hnd Hin (Hr & Hk).
    rewrite (palette_direct o data Hr), Hk.
    unfold selectKey, handleRootSelection. rewrite Hv.
    pose proof (find_unique _ (@entryKey Action) entries (ActionEntry a)
                  Hnd Hin) as F.
    cbn [entryKey] in F. rewrite F. now rewrite wrap_eta.
  - intros o data g a Hv Hnd Hin (Hr & Hk).
    rewrite (palette_direct o data Hr), Hk. unfold selectKey. rewrite Hv.
    now rewrite (find_unique _ (@key Action) (items g) a Hnd Hin).
  - intros o data g Hv Hb. unfold handleInput, goBack. rewrite Hb, Hv.
    now destruct (matchesKey data (Named "escape")
                  || matchesKey data (Ctrl "c")).
  - intros o data Hv He. unfold handleInput, goBack. now rewrite He, Hv.
Qed.

End Palette.

Lemma palette_transitions_witness :
  handleInput Legacy.matchesKey Legacy.parseKey Samples.palette
    (initialOverlay string) "s"
  = ({| view := InGroup Samples.session; highlightedIndex := 0 |}, Idle)
  /\ handleInput Legacy.matchesKey Legacy.parseKey Samples.palette
       {| view := InGroup Samples.session; highlightedIndex := 1 |}
       Legacy.BACKSPACE
     = (initialOverlay string, Idle).
Proof.
  pose proof (palette_transitions string Legacy.matchesKey Legacy.parseKey
                Samples.palette) as (T1 & _ & _ & T4 & _).
  split.
  - apply T1.
    + reflexivity.
    + vm_compute. repeat constructor; cbn; intuition discriminate.
    + left. reflexivity.
    + split; reflexivity.
  - apply (T4 _ _ Samples.session); reflexivity.
Defined.

End LeaderKeyProofs.

(* ------------------------------------------------------------------------- *)
(** ** Favourites *)
(* ------------------------------------------------------------------------- *)

Module FavouritesProofs.

Import Js Tui Favourites ListFacts.
Local Open Scope Z_scope.

Section Picker.

Variable matchesKey : string -> KeyId -> bool.
Variable parseKey : string -> option string.
Variable favourites : list FavouriteModelEntry.

Abbreviation handle := (handleInput matchesKey parseKey favourites).




End Picker.



(** *** Loading the preset file *)

Lemma isValidEntry_not_null e :
  isNull e = false -> isValidEntry e = Value (wellFormedEntry e).
Proof.
  destruct e as [| | | | |properties]; try discriminate; intros _;
    try reflexivity.
  unfold isValidEntry, wellFormedEntry. cbn [getProperty].
  destruct (isString (ownProperty properties "key")); cbn [negb andb];
    [|reflexivity].
  destruct (stringLength (ownProperty properties "key") =? 1)%nat;
    cbn [negb andb]; [|reflexivity].
  destruct (isString (ownProperty properties "label")); cbn [negb andb];
    [|reflexivity].
  destruct (isString (ownProperty properties "provider"));
    cbn [negb andb]; reflexivity.
Qed.

Lemma filterValid_without_null parsed :
  existsb isNull parsed = false ->
  filterValid parsed = Value (filter wellFormedEntry parsed).
Proof.
  induction parsed as [|e r IH]; [reflexivity|].
  cbn [existsb]. intros H. apply orb_false_elim in H as [He Hr].
  cbn [filterValid filter]. rewrite (isValidEntry_not_null e He), (IH Hr).
  reflexivity.
Qed.

Lemma filterValid_with_null parsed :
  existsb isNull parsed = true -> filterValid parsed = TypeError.
Proof.
  induction parsed as [|e r IH]; [discriminate|].
  cbn [existsb filterValid]. destruct e; cbn [isNull orb]; intros H;
    try reflexivity;
    match goal with
    | |- context [isValidEntry ?x] =>
        rewrite (isValidEntry_not_null x eq_refl)
    end; now rewrite (IH H).
Qed.

(** What the loader does: the first eight well-formed entries of an
    array without [null] elements; nothing at all when the file cannot
    be read or parsed, holds no array, or holds an array with a [null]
    element. *)
Lemma loadFavourites_spec (JSON_parse : string -> option Json) :
  loadFavourites JSON_parse None = []
  /\ (forall raw, JSON_parse raw = None ->
                  loadFavourites JSON_parse (Some raw) = [])
  /\ (forall raw v, JSON_parse raw = Some v ->
                    (forall l, v <> JArray l) ->
                    loadFavourites JSON_parse (Some raw) = [])
  /\ (forall raw parsed,
         JSON_parse raw = Some (JArray parsed) ->
         existsb isNull parsed = false ->
         loadFavourites JSON_parse (Some raw)
         = firstn MAX_FAVOURITES (filter wellFormedEntry parsed))
  /\ (forall raw parsed,
         JSON_parse raw = Some (JArray parsed) ->
         existsb isNull parsed = true ->
         loadFavourites JSON_parse (Some raw) = [])
  /\ (forall file,
         (List.length (loadFavourites JSON_parse file) <= MAX_FAVOURITES)%nat).
Proof.
  repeat split.
  - intros raw E. cbn. now rewrite E.
  - intros raw v E Hv. cbn. rewrite E.
    destruct v; try reflexivity. now destruct (Hv elements).
  - intros raw parsed E Hn. cbn [loadFavourites]. rewrite E.
    now rewrite (filterValid_without_null parsed Hn).
  - intros raw parsed E Hn. cbn [loadFavourites]. rewrite E.
    now rewrite (filterValid_with_null parsed Hn).
  - intros [raw|]; cbn [loadFavourites]; [|cbn; lia].
    destruct (JSON_parse raw) as [[| | | |parsed|]|];
      try (cbn [List.length]; unfold MAX_FAVOURITES; lia).
    destruct (filterValid parsed);
      [|cbn [List.length]; unfold MAX_FAVOURITES; lia].
    apply firstn_le_length.
Qed.

(** C9.  A file holding [[null, g]], with [g] a well-formed favourite,
    loads as the empty list: reading [key] of the [null] entry throws
    inside the [try] block and the valid favourite is lost with it.  An
    entry that is malformed in another way, here a number, is dropped
    alone. *)
Theorem null_entry_empties_favourites (raw : string) :
  loadFavourites (fun _ => Some (JArray [JNull; Samples.jsonG])) (Some raw)
  = []
  /\ loadFavourites
       (fun _ => Some (JArray [JNumber "1"; Samples.jsonG])) (Some raw)
     = [Samples.jsonG].
Proof. split; reflexivity. Qed.

End FavouritesProofs.

(* ------------------------------------------------------------------------- *)
(** ** More on the searchable select list *)
(* ------------------------------------------------------------------------- *)

Module SelectMore.

Import Js Tui ModelSwitcher JsFacts SelectProofs SelectView.
Local Open Scope Z_scope.

Section Select.

Variable matchesKey : string -> KeyId -> bool.
Variable fuzzyFilter :
  forall T : Type, list T -> string -> (T -> string) -> list T.
Variable items : list SearchableItem.

Abbreviation handle := (handleInput matchesKey fuzzyFilter items).
Abbreviation refilter := (applyFilter fuzzyFilter items).
Abbreviation run := (feed matchesKey fuzzyFilter items).
Abbreviation start := (initialState items).

Lemma handle_enter data st :
  isEnterKey matchesKey data = true ->
  handle st data =
    if (0 <? len (filteredItems st))
       && (highlightedIndex st <? len (filteredItems st))
    then match at_ (filteredItems st) (highlightedIndex st) with
         | Some item => (st, Done (Some (value item)))
         | None => (st, Throws)
         end
    else (st, Idle).
Proof.
  unfold isEnterKey, isCancelKey, handleInput. intros H.
  apply andb_prop in H as [H He]. apply andb_prop in H as [H Hd].
  apply andb_prop in H as [H Hu]. apply andb_prop in H as [Hc Hb].
  apply negb_true_iff in Hc, Hb, Hu, Hd. now rewrite Hc, Hb, Hu, Hd, He.
Qed.

Lemma at_in_range (A : Type) (l : list A) (i : Z) :
  0 <= i < len l -> exists x, at_ l i = Some x /\ nth_error l (Z.to_nat i) = Some x.
Proof.
  intros [H0 H1]. unfold at_, len in *.
  destruct (i <? 0) eqn:E; [apply Z.ltb_lt in E; lia|].
  destruct (nth_error l (Z.to_nat i)) as [x|] eqn:N.
  - exists x. split; reflexivity.
  - apply nth_error_None in N. lia.
Qed.

(** X1.  Confirming.  In a state as the component keeps it between two
    events, the enter key does nothing when no candidate matches the
    query, and otherwise calls [done] with the value of the highlighted
    candidate; the state itself is left as it is. *)
Theorem enter_confirms_highlighted st data :
  settled st ->
  isEnterKey matchesKey data = true ->
  (filteredItems st = [] -> handle st data = (st, Idle))
  /\ (filteredItems st <> [] ->
      exists item,
        nth_error (filteredItems st) (Z.to_nat (highlightedIndex st))
        = Some item
        /\ handle st data = (st, Done (Some (value item)))).
Proof.
  intros Hs He. rewrite (handle_enter data st He). split.
  - intros E. rewrite E. reflexivity.
  - intros Hne. destruct Hs as [W | (E & _)]; [|congruence].
    destruct W as (Hh & _).
    destruct (at_in_range _ (filteredItems st) (highlightedIndex st) Hh)
      as (item & Ha & Hn).
    exists item. split; [exact Hn|]. rewrite Ha.
    replace (0 <? len (filteredItems st)) with true
      by (symmetry; apply Z.ltb_lt; lia).
    replace (highlightedIndex st <? len (filteredItems st)) with true
      by (symmetry; apply Z.ltb_lt; lia).
    reflexivity.
Qed.

Lemma run_never_throws events :
  forall st, settled st -> snd (run st events) <> Throws.
Proof.
  induction events as [|data rest IH]; intros st H; [discriminate|].
  cbn [feed].
  pose proof (handle_never_throws matchesKey fuzzyFilter items st data H) as Hn.
  pose proof (handle_settled matchesKey fuzzyFilter items st data H) as Hs.
  destruct (handle st data) as [st' sig]. cbn [fst snd] in *.
  destruct sig; cbn [snd]; try discriminate; try congruence; now apply IH.
Qed.

(** X2.  Whatever the stream of input events, the component never throws:
    the enter key never reads past the filtered list, not even after the
    down key has driven the index to -1 on an empty result. *)
Theorem select_never_throws events :
  snd (feed matchesKey fuzzyFilter items (initialState items) events)
  <> Throws.
Proof. apply run_never_throws, initial_settled. Qed.

(** *** The filtered list follows the query *)

Lemma refilter_fresh st : fresh fuzzyFilter items (refilter st).
Proof. reflexivity. Qed.

Lemma moveUp_fresh st :
  fresh fuzzyFilter items st -> fresh fuzzyFilter items (moveUp st).
Proof.
  unfold fresh. destruct (moveUp_fields st) as (-> & -> & _). auto.
Qed.

Lemma moveDown_fresh st :
  fresh fuzzyFilter items st -> fresh fuzzyFilter items (moveDown st).
Proof.
  unfold fresh. destruct (moveDown_fields st) as (-> & -> & _). auto.
Qed.

Lemma handle_fresh st data :
  fresh fuzzyFilter items st -> fresh fuzzyFilter items (fst (handle st data)).
Proof.
  intros H. unfold handleInput.
  repeat match goal with
         | |- context [if ?b then _ else _] => destruct b
         | |- context [match ?o with Some _ => _ | None => _ end] =>
             destruct o
         end; cbn [fst];
    auto using refilter_fresh, moveUp_fresh, moveDown_fresh.
Qed.

Lemma run_fresh events :
  forall st, fresh fuzzyFilter items st ->
             fresh fuzzyFilter items (fst (run st events)).
Proof.
  induction events as [|data rest IH]; intros st H; [exact H|].
  cbn [feed]. pose proof (handle_fresh st data H) as H'.
  destruct (handle st data) as [st' sig]. cbn [fst] in H'.
  destruct sig; cbn [fst]; auto.
Qed.

Lemma start_fresh : fresh fuzzyFilter items start.
Proof. reflexivity. Qed.

(** X4.  Round trip.  In every state the component can be in, typing a
    printable character and then pressing backspace restores the query and
    the filtered list exactly, with the highlight and the scroll offset
    back at 0. *)
Theorem append_backspace_round_trip events c back :
  (32 <= code c <= 126)%nat ->
  isControlKey matchesKey (String c EmptyString) = false ->
  isBackspaceKey matchesKey back = true ->
  let st := fst (run start events) in
  fst (handle (fst (handle st (String c EmptyString))) back)
  = {| searchText := searchText st;
       filteredItems := filteredItems st;
       highlightedIndex := 0;
       scrollOffset := 0 |}.
Proof.
  intros Hc Hctl Hb st.
  pose proof (run_fresh events start start_fresh) as Hf. fold st in Hf.
  rewrite (handle_plain matchesKey fuzzyFilter items _ st Hctl), isPrintable_char.
  replace ((32 <=? code c)%nat && (code c <=? 126)%nat) with true
    by (symmetry; apply andb_true_intro; split; apply Nat.leb_le; lia).
  cbn [fst]. rewrite (handle_backspace matchesKey fuzzyFilter items back _ Hb).
  cbn [applyFilter searchText setSearchText].
  rewrite length_append. cbn [String.length].
  replace (0 <? String.length (searchText st) + 1)%nat with true
    by (symmetry; apply Nat.ltb_lt; lia).
  cbn [fst applyFilter searchText setSearchText].
  rewrite dropLast_append. unfold applyFilter.
  cbn [searchText setSearchText]. unfold fresh in Hf. now rewrite <- Hf.
Qed.

(** X3.  When the host's fuzzy filter only ever returns candidates it was
    given, a value the component confirms is the value of one of the
    candidates the list was constructed with. *)
Theorem confirmed_value_is_candidate :
  (forall query, incl (fuzzyFilter _ items query itemText) items) ->
  forall events v,
    snd (run start events) = Done (Some v) ->
    In v (map value items).
Proof.
  intros Hff.
  assert (Hstep : forall st data v,
             incl (filteredItems st) items ->
             (incl (filteredItems (fst (handle st data))) items)
             /\ (snd (handle st data) = Done (Some v) -> In v (map value items))).
  { intros st data v Hi.
    assert (Hre : forall s, incl (filteredItems (refilter s)) items).
    { intros s. unfold applyFilter. cbn [filteredItems].
      destruct (String.eqb (searchText s) EmptyString);
        [apply incl_refl | apply Hff]. }
    assert (Hup : incl (filteredItems (moveUp st)) items)
      by (destruct (moveUp_fields st) as (-> & _); exact Hi).
    assert (Hdn : incl (filteredItems (moveDown st)) items)
      by (destruct (moveDown_fields st) as (-> & _); exact Hi).
    unfold handleInput.
    repeat match goal with
           | |- context [if ?b then _ else _] => destruct b
           end; cbn [fst snd];
      try (split; [first [exact Hi | exact Hup | exact Hdn | apply Hre]
                  | discriminate]).
    destruct (at_ (filteredItems st) (highlightedIndex st)) as [item|] eqn:A;
      cbn [fst snd]; (split; [exact Hi|]); [|discriminate].
    intros [= <-]. apply in_map. apply Hi.
    unfold at_ in A. destruct (highlightedIndex st <? 0); [discriminate|].
    eapply nth_error_In; eassumption. }
  assert (Hrun : forall events st v,
             incl (filteredItems st) items ->
             snd (run st events) = Done (Some v) -> In v (map value items)).
  { induction events as [|data rest IH]; intros st v Hi; [discriminate|].
    cbn [feed]. destruct (Hstep st data v Hi) as (Hi' & Hd).
    destruct (handle st data) as [st' sig]. cbn [fst snd] in *.
    destruct sig; cbn [snd]; try discriminate; auto; now apply IH. }
  intros events v. apply Hrun. apply incl_refl.
Qed.

(** X5.  Minimal scrolling.  In a well-formed state one navigation step
    moves the window by at most one row, and only when the new highlighted
    row would otherwise fall outside it; afterwards the highlighted row is
    inside the window. *)
Theorem scroll_is_minimal st data :
  wellFormed st ->
  (isUpKey matchesKey data = true ->
   let st' := fst (handle st data) in
   scrollOffset st'
   = (if highlightedIndex st' <? scrollOffset st
      then scrollOffset st - 1 else scrollOffset st)
   /\ scrollOffset st' <= highlightedIndex st' < scrollOffset st' + MAX_VISIBLE)
  /\ (isDownKey matchesKey data = true ->
      let st' := fst (handle st data) in
      scrollOffset st'
      = (if scrollOffset st + MAX_VISIBLE <=? highlightedIndex st'
         then scrollOffset st + 1 else scrollOffset st)
      /\ scrollOffset st' <= highlightedIndex st'
         < scrollOffset st' + MAX_VISIBLE).
Proof.
  intros W. split; intros Hk st'; subst st'.
  - rewrite (handle_up matchesKey fuzzyFilter items data st Hk). cbn [fst].
    destruct (moveUp_fields st) as (_ & _ & Eh). rewrite Eh. clear Eh.
    unfold wellFormed, moveUp, ensureVisible, MAX_VISIBLE in *.
    destruct st as [q f h o]; cbn in *.
    split_ifs; cbn; reflect_Z; lia.
  - rewrite (handle_down matchesKey fuzzyFilter items data st Hk). cbn [fst].
    destruct (moveDown_fields st) as (_ & _ & Eh). rewrite Eh. clear Eh.
    unfold wellFormed, moveDown, ensureVisible, MAX_VISIBLE, len in *.
    destruct st as [q f h o]; cbn in *.
    split_ifs; cbn; reflect_Z; lia.
Qed.

Lemma run_app_down keys rest :
  Forall (fun d => isDownKey matchesKey d = true) keys ->
  forall st, run st (keys ++ rest)%list = run (fst (run st keys)) rest.
Proof.
  induction 1 as [|d keys Hd _ IH]; intros st; [reflexivity|].
  cbn [app feed]. rewrite (handle_down matchesKey fuzzyFilter items d st Hd).
  apply IH.
Qed.

(** X6.  Every candidate can be reached without typing: from a state with
    the highlight on the first row, as after every change of the query,
    pressing the down key [i] times and then enter confirms the [i]-th
    filtered candidate, for every position [i] of the filtered list. *)
Theorem downs_then_enter_confirms st down enter i item :
  highlightedIndex st = 0 ->
  isDownKey matchesKey down = true ->
  isEnterKey matchesKey enter = true ->
  nth_error (filteredItems st) i = Some item ->
  snd (run st (List.repeat down i ++ [enter])%list)
  = Done (Some (value item)).
Proof.
  intros Hh Hd He Hn.
  assert (Hi : (i < List.length (filteredItems st))%nat)
    by (apply nth_error_Some; congruence).
  assert (Hk : Forall (fun d => isDownKey matchesKey d = true)
                 (List.repeat down i))
    by (apply Forall_forall; intros x Hx; apply repeat_spec in Hx; now subst).
  rewrite (run_app_down _ [enter] Hk st).
  destruct (run_down matchesKey fuzzyFilter items _ Hk st) as (Ef & Eh).
  set (st' := fst (run st (List.repeat down i))) in *.
  assert (Hh' : highlightedIndex st' = Z.of_nat i).
  { destruct i as [|i'].
    - subst st'. cbn. exact Hh.
    - rewrite Eh by discriminate. rewrite repeat_length, Hh.
      unfold len. lia. }
  cbn [feed]. rewrite (handle_enter enter st' He), Ef, Hh'.
  unfold len, at_.
  replace (0 <? Z.of_nat (List.length (filteredItems st))) with true
    by (symmetry; apply Z.ltb_lt; lia).
  replace (Z.of_nat i <? Z.of_nat (List.length (filteredItems st))) with true
    by (symmetry; apply Z.ltb_lt; lia).
  replace (Z.of_nat i <? 0) with false by (symmetry; apply Z.ltb_ge; lia).
  rewrite Nat2Z.id, Hn. reflexivity.
Qed.

(** *** Rendering *)

Section Render.

Variable th : Theme.
Variable visibleWidth : string -> Z.
Variable truncateToWidth : string -> Z -> string.
Variable title : string.
Variable helpText : option string.

Abbreviation draw := (render th visibleWidth truncateToWidth title helpText).

Lemma itemRows_in_range maxW st rounds :
  forall i,
    0 <= i -> i + Z.of_nat rounds <= len (filteredItems st) ->
    exists rows,
      itemRows th visibleWidth truncateToWidth maxW st rounds i = Lines rows
      /\ List.length rows = rounds.
Proof.
  induction rounds as [|n IH]; intros i H0 H1.
  - exists []. split; reflexivity.
  - cbn [itemRows].
    destruct (at_in_range _ (filteredItems st) i) as (item & -> & _); [lia|].
    destruct (IH (i + 1)) as (rows & -> & Hl); [lia|lia|].
    eexists. split; [reflexivity|]. cbn [List.length]. now rewrite Hl.
Qed.

(** X7.  Rendering.  In every state the component keeps between two
    events, [render] throws exactly when the width is below 2 (the border
    line would have a negative length); for any other width it returns
    between 7 and 24 lines, whatever the number of candidates. *)
Theorem render_is_safe st width :
  settled st ->
  (width < 2 -> draw st width = RangeError)
  /\ (2 <= width ->
      exists lines,
        draw st width = Lines lines
        /\ (7 <= List.length lines <= 24)%nat).
Proof.
  intros Hs. split.
  - intros Hw. unfold render, repeat.
    replace (Z.min width 80 - 2 <? 0) with true
      by (symmetry; apply Z.ltb_lt; lia).
    reflexivity.
  - intros Hw. unfold render, repeat.
    replace (Z.min width 80 - 2 <? 0) with false
      by (symmetry; apply Z.ltb_ge; lia).
    cbv zeta.
    set (search := if (0 <? String.length (searchText st))%nat
                   then [_] else []).
    assert (Hsearch : (List.length search <= 1)%nat)
      by (subst search; destruct (0 <? String.length (searchText st))%nat;
          cbn; lia).
    destruct (len (filteredItems st) =? 0) eqn:E.
    + eexists. split; [reflexivity|].
      cbn [List.length app]. rewrite !length_app. cbn [List.length]. lia.
    + apply Z.eqb_neq in E.
      destruct Hs as [W | (Ef & _)];
        [|rewrite Ef in E; cbn in E; congruence].
      unfold wellFormed, MAX_VISIBLE in W.
      set (n := Z.to_nat (Z.min (scrollOffset st + MAX_VISIBLE)
                            (len (filteredItems st)) - scrollOffset st)).
      destruct (itemRows_in_range (Z.min width 80) st n (scrollOffset st))
        as (rows & -> & Hl);
        [lia | subst n; unfold MAX_VISIBLE; lia |].
      eexists. split; [reflexivity|].
      cbn [List.length app]. rewrite !length_app. cbn [List.length].
      rewrite !length_app, Hl.
      assert (Hn : (1 <= n <= 15)%nat) by (subst n; unfold MAX_VISIBLE; lia).
      destruct (0 <? scrollOffset st);
        destruct (0 <? len (filteredItems st)
                       - Z.min (scrollOffset st + MAX_VISIBLE)
                           (len (filteredItems st)));
        cbn [List.length]; lia.
Qed.

End Render.

End Select.

Lemma enter_confirms_highlighted_witness :
  handleInput Legacy.matchesKey Legacy.fuzzyFilter Samples.selectItems
    (initialState Samples.selectItems) Legacy.ENTER
  = (initialState Samples.selectItems, Done (Some "anthropic"%string)).
Proof.
  destruct (proj2 (enter_confirms_highlighted Legacy.matchesKey
                     Legacy.fuzzyFilter Samples.selectItems
                     (initialState Samples.selectItems) Legacy.ENTER
                     (initial_settled Samples.selectItems) eq_refl))
    as (item & Hn & Hd); [discriminate|].
  injection Hn as <-. exact Hd.
Defined.

Lemma append_backspace_round_trip_witness :
  fst (handleInput Legacy.matchesKey Legacy.fuzzyFilter Samples.selectItems
         (fst (handleInput Legacy.matchesKey Legacy.fuzzyFilter
                 Samples.selectItems
                 (fst (feed Legacy.matchesKey Legacy.fuzzyFilter
                         Samples.selectItems
                         (initialState Samples.selectItems)
                         ["o"%string; Legacy.DOWN]))
                 "p"))
         Legacy.BACKSPACE)
  = {| searchText := "o";
       filteredItems :=
         Legacy.fuzzyFilter Samples.selectItems "o" itemText;
       highlightedIndex := 0;
       scrollOffset := 0 |}.
Proof.
  apply (append_backspace_round_trip Legacy.matchesKey Legacy.fuzzyFilter
           Samples.selectItems ["o"%string; Legacy.DOWN] "p"%char
           Legacy.BACKSPACE).
  - vm_compute. split; apply Nat.leb_le; reflexivity.
  - reflexivity.
  - reflexivity.
Defined.

Lemma confirmed_value_is_candidate_witness :
  In "google"%string (map value Samples.selectItems).
Proof.
  apply (confirmed_value_is_candidate Legacy.matchesKey Legacy.fuzzyFilter
           Samples.selectItems)
    with (events := ["o"%string; "g"%string; Legacy.ENTER]).
  - intros query x Hx. apply filter_In in Hx. apply Hx.
  - reflexivity.
Defined.

Lemma scroll_is_minimal_witness :
  scrollOffset
    (fst (handleInput Legacy.matchesKey Legacy.fuzzyFilter
            Samples.selectItems (initialState Samples.selectItems)
            Legacy.DOWN)) = 0.
Proof.
  assert (W : wellFormed (initialState Samples.selectItems))
    by (vm_compute; repeat split; discriminate).
  exact (proj1 (proj2 (scroll_is_minimal Legacy.matchesKey Legacy.fuzzyFilter
                         Samples.selectItems
                         (initialState Samples.selectItems) Legacy.DOWN W)
                  eq_refl)).
Defined.

Lemma downs_then_enter_confirms_witness :
  snd (feed Legacy.matchesKey Legacy.fuzzyFilter Samples.selectItems
         (initialState Samples.selectItems)
         [Legacy.DOWN; Legacy.DOWN; Legacy.ENTER])
  = Done (Some "google"%string).
Proof.
  apply (downs_then_enter_confirms Legacy.matchesKey Legacy.fuzzyFilter
           Samples.selectItems (initialState Samples.selectItems)
           Legacy.DOWN Legacy.ENTER 2
           {| value := "google"; label := "google";
              description := Some "3 models"%string |});
    reflexivity.
Defined.

Lemma render_is_safe_witness :
  exists lines,
    render LegacyView.plain LegacyView.visibleWidth LegacyView.truncateToWidth
      "Select Provider" None (initialState Samples.selectItems) 80
    = Lines lines
    /\ (7 <= List.length lines <= 24)%nat.
Proof.
  apply (proj2 (render_is_safe LegacyView.plain LegacyView.visibleWidth
                  LegacyView.truncateToWidth "Select Provider" None
                  (initialState Samples.selectItems) 80
                  (initial_settled Samples.selectItems))).
  vm_compute. discriminate.
Defined.

End SelectMore.

(* ------------------------------------------------------------------------- *)
(** ** More on the wizard *)
(* ------------------------------------------------------------------------- *)

Module WizardMore.

Import Js ModelSwitcher AllowListProofs WizardTrace.
Local Open Scope list_scope.

Lemma Runs_exec A (p : Prog A) :
  forall (Q : list Entry -> Prop),
    Runs Q p -> forall host n, Q (fst (exec p host n)).
Proof.
  induction p as [a| |e k IH]; intros Q H host n; try exact H.
  cbn [exec]. cbn [Runs] in H.
  specialize (IH (host n e) _ (H (host n e)) host (S n)).
  destruct (exec (k (host n e)) host (S n)) as [tr r]. exact IH.
Qed.

(** Walks a program call by call, keeping what each branch assumed. *)
Ltac runs :=
  repeat first
    [ progress cbn [Runs bind call orRaise negb]
    | match goal with
      | |- forall x : answer _, _ => intros ?
      | |- Runs _ (if negb ?b then _ else _) => destruct b eqn:?
      | |- Runs _ (if ?b then _ else _) => destruct b eqn:?
      | |- Runs _ (bind (if ?b then _ else _) _) => destruct b eqn:?
      | |- Runs _ (bind (orRaise ?v) _) => destruct v eqn:?
      | |- Runs _ (bind (bind (orRaise ?v) _) _) => destruct v eqn:?
      | |- Runs _ (match (if truthy ?o then _ else _) with
                   | Some _ => _
                   | None => _
                   end) =>
          destruct o as [[|? ?]|] eqn:?; cbn [truthy String.eqb negb]
      | |- Runs _ (match ?o with Some _ => _ | None => _ end) =>
          destruct o eqn:?
      end ].

Ltac open_wizard :=
  unfold runModelSwitcher, getProviders, getModelsForProvider,
    getAvailableEnabledModels.

Lemma wizard_effects_runs lc :
  Runs (fun tr => WizardEffects (effectCalls tr)) (runModelSwitcher lc).
Proof.
  open_wizard. runs.
  all: cbv beta; cbn [effectCalls projT1 filter isEffect].
  all: repeat match goal with
              | u : answer (Notify _ _) |- _ => destruct u
              | u : answer (SetThinkingLevel _) |- _ => destruct u
              | u : unit |- _ => destruct u
              end.
  all: solve [ constructor; first [assumption | discriminate] ].
Qed.

(** *** The registry behind the prompts *)

Lemma filterEnabled_filter enabled models :
  filterEnabled enabled models = Some (filter (allowed enabled) models).
Proof.
  induction models as [|m r IH]; [reflexivity|].
  cbn [filterEnabled filter]. rewrite IH. unfold allowed.
  destruct enabled as [set|].
  - rewrite isModelEnabled_set. reflexivity.
  - reflexivity.
Qed.

Lemma insertSorted_perm A (cmp : A -> A -> Z) x l :
  Permutation (insertSorted cmp x l) (x :: l).
Proof.
  induction l as [|y r IH]; cbn [insertSorted]; [reflexivity|].
  destruct (cmp x y <? 0)%Z; [reflexivity|].
  rewrite IH. apply perm_swap.
Qed.

Lemma sort_perm A (cmp : A -> A -> Z) l : Permutation (sort cmp l) l.
Proof.
  unfold sort.
  enough (H : forall acc,
             Permutation
               (fold_left (fun acc x => insertSorted cmp x acc) l acc)
               (acc ++ l))
    by apply (H []).
  induction l as [|x r IH]; intros acc; cbn [fold_left].
  - now rewrite app_nil_r.
  - rewrite IH, insertSorted_perm. cbn [app]. apply Permutation_middle.
Qed.

Lemma mapGet_mapSet_same m k v : mapGet (mapSet m k v) k = Some v.
Proof.
  induction m as [|[k' v'] r IH]; cbn [mapSet mapGet].
  - now rewrite String.eqb_refl.
  - destruct (String.eqb k' k) eqn:E; cbn [mapGet]; rewrite E; auto.
Qed.

Lemma mapGet_mapSet_other m k v k0 :
  k0 <> k -> mapGet (mapSet m k v) k0 = mapGet m k0.
Proof.
  intros Hne. induction m as [|[k' v'] r IH]; cbn [mapSet mapGet].
  - destruct (String.eqb_spec k k0); [congruence|reflexivity].
  - destruct (String.eqb_spec k' k) as [->|Hk]; cbn [mapGet].
    + destruct (String.eqb_spec k k0); [congruence|reflexivity].
    + destruct (String.eqb k' k0); [reflexivity|exact IH].
Qed.

Lemma mapGet_keys m k : mapGet m k = None <-> ~ In k (map fst m).
Proof.
  induction m as [|[k' v'] r IH]; cbn [mapGet map fst In]; [tauto|].
  destruct (String.eqb_spec k' k) as [->|Hk].
  - split; [discriminate|]. intros H. exfalso. apply H. now left.
  - rewrite IH. tauto.
Qed.

Lemma mapSet_keys m k v :
  map fst (mapSet m k v)
  = match mapGet m k with
    | Some _ => map fst m
    | None => map fst m ++ [k]
    end.
Proof.
  induction m as [|[k' v'] r IH]; cbn [mapSet mapGet map fst app];
    [reflexivity|].
  destruct (String.eqb k' k); cbn [map fst]; [reflexivity|].
  rewrite IH. now destruct (mapGet r k).
Qed.

Lemma mapGet_In m k v :
  NoDup (map fst m) -> (In (k, v) m <-> mapGet m k = Some v).
Proof.
  induction m as [|[k' v'] r IH]; cbn [map fst In mapGet]; intros Hnd.
  - split; [contradiction|discriminate].
  - inversion Hnd as [|? ? Hk Hr]; subst.
    destruct (String.eqb_spec k' k) as [->|Hne].
    + split.
      * intros [[= ->]|Hin]; [reflexivity|].
        exfalso. apply Hk. change k with (fst (k, v)). now apply in_map.
      * intros [= ->]. now left.
    + rewrite <- (IH Hr). split; [intros [[= ? ?]|?]; [congruence|assumption]
                                 | now right].
Qed.

Lemma countOf_snoc k models m :
  countOf k (models ++ [m])
  = (countOf k models + if String.eqb (provider m) k then 1 else 0)%nat.
Proof.
  unfold countOf, ofProvider. rewrite filter_app, length_app. cbn [filter].
  destruct (String.eqb (provider m) k); cbn [List.length]; lia.
Qed.

Lemma counts_step acc seen m :
  counts acc seen ->
  counts (mapSet acc (provider m)
            (match mapGet acc (provider m) with
             | Some n => n
             | None => 0
             end + 1))
         (seen ++ [m]).
Proof.
  intros (Hnd & Hget). split.
  - rewrite mapSet_keys.
    destruct (mapGet acc (provider m)) eqn:E; [exact Hnd|].
    apply mapGet_keys in E.
    apply NoDup_app; [exact Hnd|repeat constructor; intros []|].
    intros x Hx [<-|[]]. contradiction.
  - intros k. rewrite countOf_snoc.
    destruct (String.eqb_spec (provider m) k) as [<-|Hne].
    + rewrite mapGet_mapSet_same, Hget.
      destruct (countOf (provider m) seen) as [|c] eqn:C; cbn [Nat.eqb].
      * reflexivity.
      * replace (S c + 1 =? 0)%nat with false
          by (symmetry; apply Nat.eqb_neq; lia).
        reflexivity.
    + rewrite mapGet_mapSet_other by congruence.
      rewrite Hget, Nat.add_0_r. reflexivity.
Qed.

Lemma countProviders_counts models : counts (countProviders models) models.
Proof.
  unfold countProviders.
  enough (H : forall rest acc seen,
             counts acc seen ->
             counts (fold_left
                       (fun providerMap model =>
                          mapSet providerMap (provider model)
                            (match mapGet providerMap (provider model) with
                             | Some n => n
                             | None => 0
                             end + 1)) rest acc)
                    (seen ++ rest)).
  { apply (H models [] []). split; [constructor|]. intros k. reflexivity. }
  induction rest as [|m r IH]; intros acc seen Hc; cbn [fold_left].
  - now rewrite app_nil_r.
  - replace (seen ++ m :: r) with ((seen ++ [m]) ++ r)
      by (rewrite <- app_assoc; reflexivity).
    apply IH, counts_step, Hc.
Qed.

Lemma exec_getAvailableEnabledModels host n :
  exec getAvailableEnabledModels host n
  = ([existT answer GetEnabledModels (host n GetEnabledModels);
      existT answer GetAvailable (host (S n) GetAvailable)],
     Some (filter (allowed (getEnabledModelSet (host n GetEnabledModels)))
             (host (S n) GetAvailable))).
Proof.
  unfold getAvailableEnabledModels. cbn [bind call exec].
  rewrite filterEnabled_filter. reflexivity.
Qed.

Lemma exec_bind_ret A B (p : Prog A) (f : A -> B) host n :
  exec (bind p (fun a => Ret (f a))) host n
  = (fst (exec p host n), option_map f (snd (exec p host n))).
Proof.
  revert n. induction p as [a| |e k IH]; intros n; cbn [bind exec];
    try reflexivity.
  rewrite IH. destruct (exec (k (host n e)) host (S n)) as [tr r].
  reflexivity.
Qed.

(** X11.  [getProviders] never throws, whatever the allow-list holds, and
    lists every provider that has at least one available and enabled model
    exactly once, together with the number of those models; a provider
    without such a model is not listed. *)
Theorem getProviders_counts lc (host : Host) n :
  let models :=
    filter (allowed (getEnabledModelSet (host n GetEnabledModels)))
      (host (S n) GetAvailable) in
  exists providers,
    snd (exec (getProviders lc) host n) = Some providers
    /\ NoDup (map pname providers)
    /\ forall p,
        In p providers
        <-> (0 < modelCount p)%nat
            /\ modelCount p = List.length (ofProvider (pname p) models).
Proof.
  intros models. unfold getProviders.
  rewrite exec_bind_ret, exec_getAvailableEnabledModels. cbn [snd option_map].
  fold models. eexists. split; [reflexivity|].
  destruct (countProviders_counts models) as (Hnd & Hget).
  set (mk := fun e : string * nat => {| pname := fst e; modelCount := snd e |}).
  set (cmp := fun a b : ProviderInfo => lc (pname a) (pname b)).
  pose proof (sort_perm _ cmp (map mk (countProviders models))) as Hp.
  assert (Hnames : map pname (map mk (countProviders models))
                   = map fst (countProviders models))
    by (rewrite map_map; reflexivity).
  split.
  - eapply Permutation_NoDup;
      [apply Permutation_map; symmetry; exact Hp|].
    now rewrite Hnames.
  - intros p. rewrite (Permutation_in' (eq_refl p) Hp).
    rewrite in_map_iff. split.
    + intros ([k v] & <- & Hin). subst mk. cbn [pname modelCount fst snd].
      apply (mapGet_In _ k v Hnd) in Hin. rewrite Hget in Hin.
      fold (countOf k models).
      destruct (countOf k models =? 0)%nat eqn:E; [discriminate|].
      injection Hin as <-. apply Nat.eqb_neq in E. lia.
    + intros (Hpos & Hc). exists (pname p, modelCount p). split.
      * subst mk. destruct p; reflexivity.
      * apply (mapGet_In _ _ _ Hnd). rewrite Hget.
        fold (countOf (pname p) models) in Hc. rewrite <- Hc.
        replace (modelCount p =? 0)%nat with false
          by (symmetry; apply Nat.eqb_neq; lia).
        reflexivity.
Qed.

(** X12.  [getModelsForProvider] never throws and returns exactly the
    available, enabled models of the given provider, each once, in some
    order. *)
Theorem getModelsForProvider_exact lc prov (host : Host) n :
  exists models,
    snd (exec (getModelsForProvider lc prov) host n) = Some models
    /\ Permutation models
         (ofProvider prov
            (filter (allowed (getEnabledModelSet (host n GetEnabledModels)))
               (host (S n) GetAvailable))).
Proof.
  unfold getModelsForProvider.
  rewrite exec_bind_ret, exec_getAvailableEnabledModels. cbn [snd option_map].
  eexists. split; [reflexivity|]. apply sort_perm.
Qed.

Lemma listed_provider_has_models lc current models prov :
  In prov
     (map value
        (map (providerItem current)
           (sort (fun a b : ProviderInfo => lc (pname a) (pname b))
              (map (fun e : string * nat =>
                      {| pname := fst e; modelCount := snd e |})
                 (countProviders models))))) ->
  ofProvider prov models <> [].
Proof.
  rewrite map_map. cbn [providerItem value].
  intros Hin.
  apply (Permutation_in _ (Permutation_map _ (sort_perm _ _ _))) in Hin.
  rewrite map_map in Hin. cbn [pname] in Hin.
  destruct (countProviders_counts models) as (_ & Hget).
  specialize (Hget prov).
  destruct (mapGet (countProviders models) prov) eqn:E.
  - unfold countOf in Hget.
    destruct (ofProvider prov models); [discriminate|discriminate].
  - apply mapGet_keys in E. contradiction.
Qed.

(** X8.  Whatever the host answers, the effects of one run of the model
    switcher, taken with the host's answers, have one of five shapes:
    none at all; a single warning or error; [setModel] answered false,
    then a warning; [setModel] of a model without reasoning answered
    true, then the announcement; [setModel] of a reasoning model answered
    true, then [setThinkingLevel], then the announcement.  So a run calls
    [setModel] at most once, notifies at most once, announces a switch
    only when [setModel] answered true, and sets the thinking level only
    after [setModel] answered true. *)
Theorem wizard_effect_shapes lc host n :
  WizardEffects (effectCalls (fst (exec (runModelSwitcher lc) host n))).
Proof.
  exact (Runs_exec _ (runModelSwitcher lc) _ (wizard_effects_runs lc) host n).
Qed.

(** The leaves of a walk: unfold the observers on the explicit trace. *)
Ltac observe :=
  cbv beta;
  cbn [effects modelCalls levelsSet notifications selections offered lookups
       picks enabledReads availableReads collect flat_map app map projT1
       filter isEffect].

Lemma wizard_picked_runs lc :
  Runs (fun tr =>
          forall m ok,
            modelCalls tr = [(m, ok)] ->
            exists p id,
              lookups tr = [(p, id, Some m)]
              /\ firstn 2 (selections tr) = [Some p; Some id]
              /\ (if reasoning m
                  then exists level,
                      selections tr = [Some p; Some id; Some level]
                      /\ levelsSet tr = (if ok then [level] else [])
                  else selections tr = [Some p; Some id]
                       /\ levelsSet tr = []))
       (runModelSwitcher lc).
Proof.
  open_wizard. runs.
  all: observe; intros m' ok' Hcall; try discriminate Hcall.
  all: injection Hcall as <- <-.
  all: do 2 eexists; split; [reflexivity|]; split; [reflexivity|].
  all: match goal with
       | H : reasoning _ = _ |- _ => rewrite H
       end.
  all: first [ split; reflexivity | eexists; split; reflexivity ].
Qed.

(** X9.  When a run of the model switcher calls [setModel], the model it
    hands over is the registry's entry for the provider and the model id
    that the first two prompts came back with.  For a reasoning model the
    run shows a third prompt and sets exactly the level picked there, and
    only if [setModel] succeeded; for any other model there is no third
    prompt and the thinking level is left alone. *)
Theorem wizard_applies_picked_model lc host n m ok :
  modelCalls (fst (exec (runModelSwitcher lc) host n)) = [(m, ok)] ->
  exists p id,
    lookups (fst (exec (runModelSwitcher lc) host n)) = [(p, id, Some m)]
    /\ firstn 2 (selections (fst (exec (runModelSwitcher lc) host n)))
       = [Some p; Some id]
    /\ (if reasoning m
        then exists level,
            selections (fst (exec (runModelSwitcher lc) host n))
            = [Some p; Some id; Some level]
            /\ levelsSet (fst (exec (runModelSwitcher lc) host n))
               = (if ok then [level] else [])
        else selections (fst (exec (runModelSwitcher lc) host n))
             = [Some p; Some id]
             /\ levelsSet (fst (exec (runModelSwitcher lc) host n)) = []).
Proof.
  exact (Runs_exec _ (runModelSwitcher lc) _ (wizard_picked_runs lc) host n
           m ok).
Qed.

Lemma wizard_applies_picked_model_witness :
  lookups (fst (exec (runModelSwitcher Samples.localeCompare)
                  (Samples.host Samples.pickAll) 0))
  = [("anthropic"%string, "claude-x"%string, Some Samples.claudeX)].
Proof.
  assert (Hcall : modelCalls
                    (fst (exec (runModelSwitcher Samples.localeCompare)
                            (Samples.host Samples.pickAll) 0))
                  = [(Samples.claudeX, true)])
    by (vm_compute; reflexivity).
  destruct (wizard_applies_picked_model Samples.localeCompare
              (Samples.host Samples.pickAll) 0 Samples.claudeX true Hcall)
    as (p & id & Hl & Hs & _).
  rewrite Hl. clear Hl. vm_compute in Hs. injection Hs as <- <-.
  reflexivity.
Defined.

Lemma thinking_picker_runs :
  Runs (fun tr =>
          (offered tr = [] \/ offered tr = [ALL_THINKING_LEVELS])
          /\ ((effects tr = []
               /\ (selections tr = [] \/ selections tr = [None]
                   \/ selections tr = [Some EmptyString]))
              \/ exists level,
                  level <> EmptyString
                  /\ selections tr = [Some level]
                  /\ effects tr
                     = [SetThinkingLevel level;
                        Notify ("Thinking: " ++ level) "info"]))
       runThinkingPicker.
Proof.
  unfold runThinkingPicker. runs.
  all: observe; split;
    [ first [left; reflexivity | right; reflexivity] | ].
  all: first
         [ left; split; [reflexivity|];
           first [ left; reflexivity
                 | right; left; reflexivity
                 | right; right; reflexivity ]
         | right; eexists; split; [|split; reflexivity]; discriminate ].
Qed.

(** X10.  The thinking-level picker offers exactly the six thinking
    levels, and a run of it has no effect at all (no UI, prompt cancelled)
    or sets exactly the level the prompt came back with and announces
    it. *)
Theorem thinking_picker_effects host n :
  let tr := fst (exec runThinkingPicker host n) in
  (offered tr = [] \/ offered tr = [ALL_THINKING_LEVELS])
  /\ ((effects tr = []
       /\ (selections tr = [] \/ selections tr = [None]
           \/ selections tr = [Some EmptyString]))
      \/ exists level,
          level <> EmptyString
          /\ selections tr = [Some level]
          /\ effects tr
             = [SetThinkingLevel level;
                Notify ("Thinking: " ++ level) "info"]).
Proof.
  exact (Runs_exec _ runThinkingPicker _ thinking_picker_runs host n).
Qed.

Lemma stable_registry_runs lc :
  Runs (fun tr =>
          stableRegistry tr -> picksOffered tr ->
          forall p, ~ In (noModelsMessage p, "warning"%string)
                         (notifications tr))
       (runModelSwitcher lc).
Proof.
  open_wizard. runs.
  all: cbv beta; unfold stableRegistry, picksOffered, constant; observe.
  all: intros (He & Ha) Hp p Hin; cbn [In] in Hin.
  all: try contradiction.
  all: destruct Hin as [Hin|[]].
  all: unfold noModelsMessage in Hin; cbn [String.append] in Hin.
  all: try discriminate Hin.
  clear Hin p.
  rewrite filterEnabled_filter in Heqo, Heqo0.
  rewrite <- (He x0 x4) in Heqo0 by (cbn; tauto).
  rewrite <- (Ha x1 x5) in Heqo0 by (cbn; tauto).
  rewrite Heqo in Heqo0. injection Heqo0 as <-.
  specialize (Hp _ _ (or_introl eq_refl)).
  apply listed_provider_has_models in Hp.
  apply Nat.eqb_eq in Heqb0. apply length_zero_iff_nil in Heqb0.
  match type of Heqb0 with
  | sort ?cmp ?l = [] => pose proof (sort_perm _ cmp l) as Hs
  end.
  rewrite Heqb0 in Hs. apply Permutation_nil in Hs. exact (Hp Hs).
Qed.

(** X13.  In a run of the model switcher during which the settings and
    the registry answer the same each time, and in which the provider
    prompt comes back with one of the providers it offered, the warning
    that no models were found for the provider never appears: every
    provider the first step lists has a model for the second. *)
Theorem listed_provider_always_has_models lc host n :
  let tr := fst (exec (runModelSwitcher lc) host n) in
  stableRegistry tr -> picksOffered tr ->
  forall p, ~ In (noModelsMessage p, "warning"%string) (notifications tr).
Proof.
  exact (Runs_exec _ (runModelSwitcher lc) _ (stable_registry_runs lc) host n).
Qed.

Lemma listed_provider_always_has_models_witness :
  ~ In (noModelsMessage "anthropic", "warning"%string)
       (notifications
          (fst (exec (runModelSwitcher Samples.localeCompare)
                  (Samples.host Samples.pickAll) 0))).
Proof.
  apply (listed_provider_always_has_models Samples.localeCompare
           (Samples.host Samples.pickAll) 0).
  - split; intros a b Ha Hb; vm_compute in Ha, Hb;
      repeat (destruct Ha as [Ha|Ha]; [|try contradiction]);
      repeat (destruct Hb as [Hb|Hb]; [|try contradiction]);
      subst; reflexivity.
  - intros values v Hin. vm_compute in Hin.
    repeat (destruct Hin as [Hin|Hin]; [|try contradiction]);
      injection Hin as <- <-; vm_compute; tauto.
Defined.

End WizardMore.

(* ------------------------------------------------------------------------- *)
(** ** More on the chorded palette *)
(* ------------------------------------------------------------------------- *)

Module PaletteMore.

Import Js Tui LeaderKey ListFacts LeaderKeyProofs Palette.
Local Open Scope Z_scope.

Section Overlay.

Variable Action : Type.
Variable matchesKey : string -> KeyId -> bool.
Variable parseKey : string -> option string.
Variable entries : list (TopLevelEntry Action).

Abbreviation handle := (handleInput matchesKey parseKey entries).
Abbreviation run := (feed matchesKey parseKey entries).
Abbreviation rows := (currentItems entries).

Lemma overlay_enter o data :
  isEnterKey matchesKey data = true ->
  handle o data =
    if (0 <=? highlightedIndex o) && (highlightedIndex o <? len (rows o))
    then match at_ (rows o) (highlightedIndex o) with
         | Some row => selectKey entries o (rowKey row)
         | None => (o, Throws)
         end
    else (o, Idle).
Proof.
  unfold isEnterKey, isCancelKey, handleInput. intros H.
  apply andb_prop in H as [H He]. apply andb_prop in H as [H Hd].
  apply andb_prop in H as [H Hu]. apply andb_prop in H as [Hc Hb].
  apply negb_true_iff in Hc, Hb, Hu, Hd. now rewrite Hc, Hb, Hu, Hd, He.
Qed.

Lemma at_some (A : Type) (l : list A) (i : Z) :
  0 <= i < len l -> exists x, at_ l i = Some x.
Proof.
  intros [H0 H1]. unfold at_, len in *.
  destruct (i <? 0) eqn:E; [apply Z.ltb_lt in E; lia|].
  destruct (nth_error l (Z.to_nat i)) as [x|] eqn:N; [now exists x|].
  apply nth_error_None in N. lia.
Qed.

(** X14.  The reserved keys work on the highlighted row: with the
    highlight on a row, enter does exactly what pressing that row's chord
    key does. *)
Theorem enter_is_the_highlighted_key o enter data row :
  0 <= highlightedIndex o ->
  nth_error (rows o) (Z.to_nat (highlightedIndex o)) = Some row ->
  isEnterKey matchesKey enter = true ->
  presses matchesKey parseKey data (rowKey row) ->
  handle o enter = handle o data.
Proof.
  intros H0 Hn He (Hr & Hk).
  rewrite (overlay_enter o enter He), (palette_direct _ _ _ _ o data Hr), Hk.
  assert (Hl : highlightedIndex o < len (rows o)).
  { unfold len.
    assert (Z.to_nat (highlightedIndex o) < List.length (rows o))%nat
      by (apply nth_error_Some; congruence).
    lia. }
  unfold at_.
  replace (0 <=? highlightedIndex o) with true
    by (symmetry; apply Z.leb_le; lia).
  replace (highlightedIndex o <? len (rows o)) with true
    by (symmetry; apply Z.ltb_lt; lia).
  replace (highlightedIndex o <? 0) with false
    by (symmetry; apply Z.ltb_ge; lia).
  now rewrite Hn.
Qed.

(** *** Which action a run can end with *)

Lemma selectKey_done o k o' a :
  selectKey entries o k = (o', Done (Some a)) ->
  o' = o /\ firstUnderKey entries o a.
Proof.
  unfold selectKey, handleRootSelection, firstUnderKey.
  destruct (view o) as [|g].
  - destruct (find (fun e => String.eqb (entryKey e) k) entries)
      as [[g|a0]|] eqn:F; try discriminate.
    rewrite wrap_eta. intros [= <- <-]. split; [reflexivity|].
    apply find_some in F as F'. destruct F' as (_ & Ek).
    apply String.eqb_eq in Ek. cbn [entryKey] in Ek.
    now rewrite Ek.
  - destruct (find (fun x => String.eqb (key x) k) (items g)) as [a0|] eqn:F;
      try discriminate.
    intros [= <- <-]. split; [reflexivity|].
    apply find_some in F as F'. destruct F' as (_ & Ek).
    apply String.eqb_eq in Ek. now rewrite Ek.
Qed.

(** X15.  First registered wins.  Whatever the input, an action the
    overlay finishes with is the first entry under its chord key in the
    scope of the current view: an entry that shares its key with an
    earlier one of the same scope is never run, neither by its key nor
    with the arrows and enter. *)
Theorem finishes_with_first_under_key o data o' a :
  handle o data = (o', Done (Some a)) ->
  o' = o /\ firstUnderKey entries o a.
Proof.
  unfold handleInput, goBack.
  repeat match goal with
         | |- context [if ?b then _ else _] => destruct b
         | |- context [match view o with Root _ => _ | InGroup _ => _ end] =>
             destruct (view o) eqn:?
         | |- context [match at_ ?l ?i with Some _ => _ | None => _ end] =>
             destruct (at_ l i)
         | |- context [match parseKey ?d with Some _ => _ | None => _ end] =>
             destruct (parseKey d)
         end;
    try discriminate; try apply selectKey_done.
Qed.

(** *** The highlight stays on a row *)

Lemma selectKey_inRange o k :
  populated entries -> inRange entries o ->
  inRange entries (fst (selectKey entries o k)).
Proof.
  intros (Hne & Hg) Hr. unfold selectKey, handleRootSelection.
  destruct (view o) as [|g] eqn:V.
  - destruct (find (fun e => String.eqb (entryKey e) k) entries)
      as [[g|a0]|] eqn:F; cbn [fst]; try exact Hr.
    apply find_some in F as (Hin & _).
    unfold inRange, currentItems. cbn [view highlightedIndex].
    split; [|exact Hin].
    unfold len. rewrite length_map.
    specialize (Hg g Hin). destruct (items g); [congruence|].
    cbn [List.length]. lia.
  - destruct (find (fun x => String.eqb (key x) k) (items g));
      cbn [fst]; exact Hr.
Qed.

Lemma rows_not_empty o :
  populated entries -> inRange entries o -> 0 < len (rows o).
Proof. intros _ ((H0 & H1) & _). lia. Qed.

Lemma handle_inRange o data :
  populated entries -> inRange entries o ->
  inRange entries (fst (handle o data))
  /\ snd (handle o data) <> Throws.
Proof.
  intros Hp Hr.
  assert (Hroot : inRange entries {| view := Root Action; highlightedIndex := 0 |}).
  { unfold inRange, currentItems. cbn [view highlightedIndex].
    split; [|exact I]. unfold len. rewrite length_map.
    destruct Hp as (Hne & _). destruct entries; [congruence|].
    cbn [List.length]. lia. }
  assert (Hsel : forall k, snd (selectKey entries o k) <> Throws).
  { intros k. unfold selectKey, handleRootSelection.
    destruct (view o).
    - destruct (find _ entries) as [[g|a0]|]; discriminate.
    - destruct (find _ (items _)); discriminate. }
  pose proof Hr as ((H0 & H1) & Hv).
  assert (Hup : inRange entries
                  {| view := view o;
                     highlightedIndex := Z.max 0 (highlightedIndex o - 1) |}).
  { unfold inRange, currentItems in *. cbn [view highlightedIndex].
    split; [lia|exact Hv]. }
  assert (Hdn : inRange entries
                  {| view := view o;
                     highlightedIndex :=
                       Z.min (len (rows o) - 1) (highlightedIndex o + 1) |}).
  { unfold inRange, currentItems in *. cbn [view highlightedIndex].
    split; [lia|exact Hv]. }
  destruct (at_some _ (rows o) (highlightedIndex o)) as (row & Hrow);
    [lia|].
  unfold handleInput, goBack. rewrite Hrow.
  repeat match goal with
         | |- context [if ?b then _ else _] => destruct b eqn:?
         | |- context [match view o with Root _ => _ | InGroup _ => _ end] =>
             destruct (view o) eqn:?
         | |- context [match parseKey ?d with Some _ => _ | None => _ end] =>
             destruct (parseKey d)
         end;
    cbn [fst snd];
    (split;
     [first [exact Hroot | exact Hr | exact Hup | exact Hdn
            | now apply selectKey_inRange]
     |first [discriminate | apply Hsel]]).
Qed.

(** X16.  In a palette none of whose lists is empty, the highlight is on
    a row of the current view after every input event, and the overlay
    never throws. *)
Theorem palette_stays_in_range events :
  populated entries ->
  inRange entries (fst (run (initialOverlay Action) events))
  /\ snd (run (initialOverlay Action) events) <> Throws.
Proof.
  intros Hp.
  assert (Hstart : inRange entries (initialOverlay Action)).
  { unfold inRange, initialOverlay, currentItems.
    cbn [view highlightedIndex]. split; [|exact I].
    unfold len. rewrite length_map.
    destruct Hp as (Hne & _). destruct entries; [congruence|].
    cbn [List.length]. lia. }
  revert Hstart. generalize (initialOverlay Action).
  induction events as [|data rest IH]; intros o Hr.
  - split; [exact Hr|discriminate].
  - cbn [feed]. destruct (handle_inRange o data Hp Hr) as (Hr' & Ht).
    destruct (handle o data) as [o' sig]. cbn [fst snd] in *.
    destruct sig; cbn [fst snd]; try (split; [exact Hr'|discriminate]);
      try congruence; now apply IH.
Qed.

End Overlay.

(** *** The palette that [buildEntries] builds *)

Section Built.

Variable currentModel : option ModelSwitcher.Model.
Variable currentThinking : string.
Variable commands : list Command.

Abbreviation built := (buildEntries currentModel currentThinking commands).

Ltac enumerate H :=
  cbn [In app] in H;
  repeat match type of H with
         | _ \/ _ => destruct H as [H|H]
         | False => contradiction
         end.

Ltac distinct := cbn; repeat constructor; cbn; intuition discriminate.

Lemma built_populated : populated built.
Proof.
  unfold populated, buildEntries. split.
  - discriminate.
  - intros g H.
    destruct (0 <? List.length (customCommands commands))%nat;
      destruct (0 <? List.length (fromSource "skill" commands))%nat;
      enumerate H; try discriminate;
      injection H as <-; discriminate.
Qed.

Lemma built_root_keys : NoDup (map (@entryKey Effect) built).
Proof.
  unfold buildEntries.
  destruct (0 <? List.length (customCommands commands))%nat;
    destruct (0 <? List.length (fromSource "skill" commands))%nat;
    distinct.
Qed.

Lemma built_group_keys g :
  In (GroupEntry g) built -> NoDup (map (@key Effect) (items g)).
Proof.
  unfold buildEntries. intros H.
  destruct (0 <? List.length (customCommands commands))%nat;
    destruct (0 <? List.length (fromSource "skill" commands))%nat;
    enumerate H; try discriminate;
    injection H as <-; distinct.
Qed.

(** X17.  Whatever the model, the thinking level and the registered
    commands, the palette that is built has no empty list, its top-level
    chord keys are pairwise distinct, and so are the keys inside each of
    its groups. *)
Theorem built_palette_well_formed :
  populated built
  /\ NoDup (map (@entryKey Effect) built)
  /\ forall g, In (GroupEntry g) built -> NoDup (map (@key Effect) (items g)).
Proof.
  split; [exact built_populated|].
  split; [exact built_root_keys|exact built_group_keys].
Qed.

Variable matchesKey : string -> KeyId -> bool.
Variable parseKey : string -> option string.

(** X18.  Every action of the built palette is run by its chord: a
    direct action by one press of its key from the root, an action of a
    group by the group's key followed by its own. *)
Theorem built_palette_chords :
  (forall a data,
      In (ActionEntry a) built ->
      presses matchesKey parseKey data (key a) ->
      feed matchesKey parseKey built (initialOverlay Effect) [data]
      = (initialOverlay Effect, Done (Some a)))
  /\ (forall g a first second,
         In (GroupEntry g) built ->
         In a (items g) ->
         presses matchesKey parseKey first (groupKey g) ->
         presses matchesKey parseKey second (key a) ->
         feed matchesKey parseKey built (initialOverlay Effect)
           [first; second]
         = ({| view := InGroup g; highlightedIndex := 0 |}, Done (Some a))).
Proof.
  split.
  - intros a data Hin (Hr & Hk). cbn [feed].
    rewrite (palette_direct _ _ _ _ _ data Hr), Hk.
    unfold selectKey, handleRootSelection, initialOverlay. cbn [view].
    pose proof (find_unique _ (@entryKey Effect) built (ActionEntry a)
                  built_root_keys Hin) as F.
    cbn [entryKey] in F. rewrite F, wrap_eta. reflexivity.
  - intros g a first second Hg Ha (Hr1 & Hk1) (Hr2 & Hk2). cbn [feed].
    rewrite (palette_direct _ _ _ _ _ first Hr1), Hk1.
    unfold selectKey at 1. unfold handleRootSelection, initialOverlay.
    cbn [view].
    pose proof (find_unique _ (@entryKey Effect) built (GroupEntry g)
                  built_root_keys Hg) as F.
    cbn [entryKey] in F. rewrite F.
    rewrite (palette_direct _ _ _ _ _ second Hr2), Hk2.
    unfold selectKey. cbn [view].
    now rewrite (find_unique _ (@key Effect) (items g) a
                   (built_group_keys g Hg) Ha).
Qed.

(** X19.  The Extensions entry is in the palette exactly when some
    command of source "extension" has a name outside the built-in list,
    and its picker offers those commands and no others, in registration
    order, each under its own name. *)
Theorem extensions_picker_offers_custom_only :
  ((exists a, In (ActionEntry a) built /\ key a = "e")
   <-> exists c, In c commands
                 /\ cmdSource c = "extension"
                 /\ ~ In (cmdName c) builtinCommandNames)
  /\ forall a offered,
       In (ActionEntry a) built ->
       action a = PickExtension offered ->
       map ModelSwitcher.value offered
       = map cmdName
           (filter (fun c => String.eqb (cmdSource c) "extension"
                             && negb (existsb (String.eqb (cmdName c))
                                        builtinCommandNames))
              commands).
Proof.
  assert (Hff : forall (A : Type) (p q : A -> bool) l,
             filter q (filter p l) = filter (fun x => p x && q x) l).
  { intros A p q l. induction l as [|x r IH]; [reflexivity|].
    cbn [filter]. destruct (p x); cbn [filter andb]; [|exact IH].
    destruct (q x); now rewrite IH. }
  assert (Hmem : forall c,
             In c (customCommands commands)
             <-> In c commands /\ cmdSource c = "extension"
                 /\ ~ In (cmdName c) builtinCommandNames).
  { intros c. unfold customCommands, fromSource.
    rewrite !filter_In, negb_true_iff, String.eqb_eq.
    split.
    - intros ((Hc & Hs) & Hn). repeat split; try assumption.
      intros Hin. apply Bool.not_true_iff_false in Hn. apply Hn.
      apply existsb_exists. exists (cmdName c). split; [exact Hin|].
      apply String.eqb_refl.
    - intros (Hc & Hs & Hn). repeat split; try assumption.
      apply Bool.not_true_iff_false. intros He.
      apply existsb_exists in He as (n & Hin & En).
      apply String.eqb_eq in En. subst n. now apply Hn. }
  split.
  - split.
    + intros (a & Hin & Hk). unfold buildEntries in Hin.
      destruct (customCommands commands) as [|c r] eqn:E.
      * exfalso.
        change (0 <? List.length (@nil Command))%nat with false in Hin.
        destruct (0 <? List.length (fromSource "skill" commands))%nat;
          enumerate Hin; try discriminate;
          injection Hin as <-; cbn in Hk; discriminate.
      * exists c. apply Hmem. now left.
    + intros (c & Hc). apply Hmem in Hc.
      unfold buildEntries.
      destruct (customCommands commands) as [|c' r] eqn:E;
        [contradiction|].
      change (0 <? List.length (c' :: r))%nat with true.
      eexists. split.
      * apply in_or_app. right. apply in_or_app. left. left. reflexivity.
      * reflexivity.
  - intros a offered Hin Ha. unfold buildEntries in Hin.
    assert (Ho : offered
                 = map (commandItem "extension") (customCommands commands)).
    { destruct (0 <? List.length (customCommands commands))%nat;
        destruct (0 <? List.length (fromSource "skill" commands))%nat;
        enumerate Hin; try discriminate;
        injection Hin as <-; cbn [action item] in Ha;
        try discriminate; now injection Ha as <-. }
    rewrite Ho, map_map. cbn [commandItem ModelSwitcher.value].
    unfold customCommands, fromSource. now rewrite Hff.
Qed.

End Built.

Lemma enter_is_the_highlighted_key_witness :
  handleInput Legacy.matchesKey Legacy.parseKey PaletteSamples.built
    {| view := Root Effect; highlightedIndex := 1 |} Legacy.ENTER
  = handleInput Legacy.matchesKey Legacy.parseKey PaletteSamples.built
      {| view := Root Effect; highlightedIndex := 1 |} "m".
Proof.
  apply (enter_is_the_highlighted_key Effect Legacy.matchesKey
           Legacy.parseKey PaletteSamples.built
           {| view := Root Effect; highlightedIndex := 1 |}
           Legacy.ENTER "m"
           {| rowKey := "m"; rowLabel := "Model";
              rowDescription := Some "anthropic/claude-x" |}).
  - cbn. lia.
  - reflexivity.
  - reflexivity.
  - split; reflexivity.
Defined.

Lemma finishes_with_first_under_key_witness :
  firstUnderKey PaletteSamples.built (initialOverlay Effect)
    PaletteSamples.modelItem.
Proof.
  exact (proj2 (finishes_with_first_under_key Effect Legacy.matchesKey
                  Legacy.parseKey PaletteSamples.built
                  (initialOverlay Effect) "m" (initialOverlay Effect)
                  PaletteSamples.modelItem eq_refl)).
Defined.

Lemma palette_stays_in_range_witness :
  inRange PaletteSamples.built
    (fst (feed Legacy.matchesKey Legacy.parseKey PaletteSamples.built
            (initialOverlay Effect)
            ["s"; Legacy.DOWN; Legacy.DOWN; Legacy.UP; Legacy.ESC;
             Legacy.UP]))
  /\ snd (feed Legacy.matchesKey Legacy.parseKey PaletteSamples.built
            (initialOverlay Effect)
            ["s"; Legacy.DOWN; Legacy.DOWN; Legacy.UP; Legacy.ESC;
             Legacy.UP])
     <> Throws.
Proof.
  apply (palette_stays_in_range Effect Legacy.matchesKey Legacy.parseKey
           PaletteSamples.built).
  apply built_populated.
Defined.

Lemma built_palette_well_formed_witness :
  NoDup (map (@key Effect)
           [ item "v" "LazyVim" "open lazyvim in current folder" LazyVim;
             item "c" "VS Code" "open vscode in current folder" VsCode ]).
Proof.
  apply (proj2 (proj2 (built_palette_well_formed
                         (Some Samples.claudeX) "high"
                         PaletteSamples.commands))
           {| groupKey := "o"; groupLabel := "Open";
              items :=
                [ item "v" "LazyVim" "open lazyvim in current folder"
                    LazyVim;
                  item "c" "VS Code" "open vscode in current folder"
                    VsCode ] |}).
  do 5 right. left. reflexivity.
Defined.

Lemma built_palette_chords_witness :
  exists g,
    feed Legacy.matchesKey Legacy.parseKey PaletteSamples.built
      (initialOverlay Effect) ["s"; "c"]
    = ({| view := InGroup g; highlightedIndex := 0 |},
       Done (Some PaletteSamples.compactItem)).
Proof.
  eexists.
  apply (proj2 (built_palette_chords (Some Samples.claudeX) "high"
                  PaletteSamples.commands Legacy.matchesKey
                  Legacy.parseKey)).
  - left. reflexivity.
  - do 5 right. left. reflexivity.
  - split; reflexivity.
  - split; reflexivity.
Defined.

Lemma extensions_picker_offers_custom_only_witness :
  map ModelSwitcher.value
    [commandItem "extension" PaletteSamples.deploy]
  = map cmdName
      (filter (fun c => String.eqb (cmdSource c) "extension"
                        && negb (existsb (String.eqb (cmdName c))
                                   builtinCommandNames))
         PaletteSamples.commands).
Proof.
  apply (proj2 (extensions_picker_offers_custom_only
                  (Some Samples.claudeX) "high" PaletteSamples.commands)
           (item "e" "Extensions" "1 command"
              (PickExtension
                 [commandItem "extension" PaletteSamples.deploy]))).
  - do 6 right. left. reflexivity.
  - reflexivity.
Defined.

End PaletteMore.

(* ------------------------------------------------------------------------- *)
(** ** More on the favourites *)
(* ------------------------------------------------------------------------- *)

Module FavouritesMore.

Import Js Tui Favourites ListFacts FavouritesProofs FavouritePicker.
Local Open Scope Z_scope.

(** *** What is loaded *)

Lemma wellFormed_asEntry e :
  wellFormedEntry e = true ->
  exists f, asEntry e = Some f /\ String.length (key f) = 1%nat.
Proof.
  destruct e as [| | | | |properties]; try discriminate.
  unfold wellFormedEntry, asEntry. intros H.
  apply andb_prop in H as [H Hm]. apply andb_prop in H as [H Hp].
  apply andb_prop in H as [H Hl]. apply andb_prop in H as [Hk Hn].
  destruct (ownProperty properties "key") as [[| | |k| |]|];
    try discriminate.
  destruct (ownProperty properties "label") as [[| | |l| |]|];
    try discriminate.
  destruct (ownProperty properties "provider") as [[| | |p| |]|];
    try discriminate.
  destruct (ownProperty properties "model") as [[| | |m| |]|];
    try discriminate.
  cbn [stringOf]. eexists. split; [reflexivity|].
  cbn [key]. cbn [stringLength] in Hn. now apply Nat.eqb_eq in Hn.
Qed.

Lemma filterValid_all_valid parsed valid :
  filterValid parsed = Value valid ->
  Forall (fun e => wellFormedEntry e = true) valid.
Proof.
  revert valid. induction parsed as [|e r IH]; intros valid.
  - intros [= <-]. constructor.
  - cbn [filterValid].
    destruct (isValidEntry e) as [keep|] eqn:E; [|discriminate].
    destruct (filterValid r) as [rest|]; [|discriminate].
    intros [= <-]. specialize (IH rest eq_refl).
    destruct keep; [|exact IH]. constructor; [|exact IH].
    destruct e; try discriminate;
      match goal with
      | H : isValidEntry ?x = _ |- _ =>
          rewrite (isValidEntry_not_null x eq_refl) in H;
          now injection H
      end.
Qed.

Lemma in_firstn (A : Type) (n : nat) (l : list A) (x : A) :
  In x (firstn n l) -> In x l.
Proof.
  revert l. induction n as [|n IH]; intros [|y r]; cbn [firstn In];
    try contradiction.
  intros [->|H]; [now left|right; now apply IH].
Qed.

Lemma loaded_all_valid (JSON_parse : string -> option Json) file :
  Forall (fun e => wellFormedEntry e = true)
    (loadFavourites JSON_parse file).
Proof.
  unfold loadFavourites. destruct file as [raw|]; [|constructor].
  destruct (JSON_parse raw) as [[| | | |parsed|]|]; try constructor.
  destruct (filterValid parsed) as [valid|] eqn:E; [|constructor].
  apply filterValid_all_valid in E.
  rewrite Forall_forall in *. intros e He. apply E.
  exact (in_firstn _ _ _ _ He).
Qed.

Lemma entries_all (loaded : list Json) :
  Forall (fun e => wellFormedEntry e = true) loaded ->
  map (@Some FavouriteModelEntry) (entries loaded) = map asEntry loaded.
Proof.
  induction 1 as [|e r He _ IH]; [reflexivity|].
  unfold entries in *. cbn [flat_map map].
  destruct (wellFormed_asEntry e He) as (f & -> & _).
  cbn [app map]. now rewrite IH.
Qed.

Lemma filterValid_members parsed valid e :
  filterValid parsed = Value valid -> In e valid -> In e parsed.
Proof.
  revert valid. induction parsed as [|x r IH]; intros valid.
  - intros [= <-] [].
  - cbn [filterValid]. destruct (isValidEntry x) as [keep|];
      [|discriminate].
    destruct (filterValid r) as [rest|]; [|discriminate].
    intros [= <-] He. destruct keep.
    + destruct He as [->|He]; [now left|right; now apply (IH rest)].
    + right. now apply (IH rest).
Qed.

Lemma loaded_from_file (JSON_parse : string -> option Json) file e :
  In e (loadFavourites JSON_parse file) ->
  In e (fileElements JSON_parse file).
Proof.
  unfold loadFavourites, fileElements.
  destruct file as [raw|]; [|contradiction].
  destruct (JSON_parse raw) as [[| | | |parsed|]|]; try contradiction.
  destruct (filterValid parsed) as [valid|] eqn:E; [|contradiction].
  intros He. apply in_firstn in He.
  exact (filterValid_members parsed valid e E He).
Qed.

(** X20.  Whatever a preset file with keys in ASCII holds and whatever
    [JSON.parse] makes of it, every element that is loaded is an object
    with the four string fields and a key of one character, so that the
    picker's view of the loaded array has an entry for each element, in
    the order of the file, and at most eight of them. *)
Theorem loaded_favourites_have_all_fields
        (JSON_parse : string -> option Json) (file : option string) :
  forallb asciiKey (fileElements JSON_parse file) = true ->
  (forall e, In e (loadFavourites JSON_parse file) ->
             exists f, asEntry e = Some f
                       /\ String.length (key f) = 1%nat
                       /\ isAscii (key f) = true)
  /\ map (@Some FavouriteModelEntry)
       (entries (loadFavourites JSON_parse file))
     = map asEntry (loadFavourites JSON_parse file)
  /\ (List.length (entries (loadFavourites JSON_parse file))
      <= MAX_FAVOURITES)%nat.
Proof.
  intros Hascii.
  pose proof (loaded_all_valid JSON_parse file) as Hall.
  pose proof (entries_all _ Hall) as Hmap.
  split; [|split].
  - intros e He.
    pose proof (loaded_from_file JSON_parse file e He) as Hin.
    rewrite forallb_forall in Hascii. specialize (Hascii e Hin).
    rewrite Forall_forall in Hall.
    destruct (wellFormed_asEntry e (Hall e He)) as (f & Ef & Hlen).
    exists f. repeat split; try assumption.
    destruct e as [| | | | |properties]; try discriminate.
    unfold asEntry in Ef. cbn [asciiKey] in Hascii.
    destruct (ownProperty properties "key") as [[| | |k| |]|];
      try discriminate.
    cbn [stringOf] in Ef.
    destruct (stringOf (ownProperty properties "label"));
      [|discriminate].
    destruct (stringOf (ownProperty properties "provider"));
      [|discriminate].
    destruct (stringOf (ownProperty properties "model")); [|discriminate].
    injection Ef as <-. exact Hascii.
  - exact Hmap.
  - apply (f_equal (@List.length _)) in Hmap.
    rewrite !length_map in Hmap. rewrite Hmap.
    destruct file as [raw|]; cbn [loadFavourites];
      [|cbn; unfold MAX_FAVOURITES; lia].
    destruct (JSON_parse raw) as [[| | | |parsed|]|];
      try (cbn [List.length]; unfold MAX_FAVOURITES; lia).
    destruct (filterValid parsed);
      [|cbn [List.length]; unfold MAX_FAVOURITES; lia].
    apply firstn_le_length.
Qed.

(** *** The picker as it runs *)

Section Picker.

Variable matchesKey : string -> KeyId -> bool.
Variable parseKey : string -> option string.
Variable favourites : list FavouriteModelEntry.

Abbreviation handle := (handleInput matchesKey parseKey favourites).
Abbreviation run := (feed matchesKey parseKey favourites).

Lemma at_nth (A : Type) (l : list A) (i : Z) :
  0 <= i -> at_ l i = nth_error l (Z.to_nat i).
Proof.
  intros H. unfold at_.
  destruct (i <? 0) eqn:E; [apply Z.ltb_lt in E; lia|reflexivity].
Qed.

Lemma picker_enter hi data :
  isEnterKey matchesKey data = true ->
  handle hi data =
    if (0 <=? hi) && (hi <? len favourites)
    then match at_ favourites hi with
         | Some f => (hi, Done (Some f))
         | None => (hi, Throws)
         end
    else (hi, Idle).
Proof.
  unfold isEnterKey, isCancelKey, handleInput. intros H.
  apply andb_prop in H as [H He]. apply andb_prop in H as [H Hd].
  apply andb_prop in H as [Hc Hu].
  apply negb_true_iff in Hc, Hu, Hd.
  apply orb_false_elim in Hc as [Hc Hb]. now rewrite Hc, Hb, Hu, Hd, He.
Qed.

Lemma picker_down hi data :
  isDownKey matchesKey data = true ->
  handle hi data = (Z.min (len favourites - 1) (hi + 1), RequestRender).
Proof.
  unfold isDownKey, isCancelKey, handleInput. intros H.
  apply andb_prop in H as [H Hd]. apply andb_prop in H as [Hc Hu].
  apply negb_true_iff in Hc, Hu.
  apply orb_false_elim in Hc as [Hc Hb]. now rewrite Hc, Hb, Hu, Hd.
Qed.

Lemma handle_in_range hi data :
  0 <= hi < len favourites ->
  0 <= fst (handle hi data) < len favourites
  /\ snd (handle hi data) <> Throws.
Proof.
  intros Hr. unfold handleInput.
  destruct (at_ favourites hi) as [f|] eqn:A.
  2:{ rewrite at_nth in A by lia. apply nth_error_None in A.
      unfold len in Hr. lia. }
  repeat match goal with
         | |- context [if ?b then _ else _] => destruct b eqn:?
         | |- context [match pressedKey ?p ?d with Some _ => _ | None => _ end] =>
             destruct (pressedKey p d)
         | |- context [match List.find ?p ?l with Some _ => _ | None => _ end] =>
             destruct (List.find p l)
         end;
    cbn [fst snd]; (split; [lia|discriminate]).
Qed.

Lemma run_in_range events hi :
  0 <= hi < len favourites ->
  0 <= fst (run hi events) < len favourites
  /\ snd (run hi events) <> Throws.
Proof.
  revert hi. induction events as [|data rest IH]; intros hi Hr.
  - cbn [feed fst snd]. split; [exact Hr|discriminate].
  - cbn [feed]. destruct (handle_in_range hi data Hr) as (Hr' & Ht).
    destruct (handle hi data) as [hi' sig]. cbn [fst snd] in *.
    destruct sig; cbn [fst snd]; try (split; [exact Hr'|discriminate]);
      try congruence; now apply IH.
Qed.

(** X21.  With at least one favourite, the highlight of the picker is
    on a row after every input event, and the input handler never
    throws. *)
Theorem picker_stays_in_range events :
  favourites <> [] ->
  0 <= fst (run 0 events) < len favourites
  /\ snd (run 0 events) <> Throws.
Proof.
  intros Hne. apply run_in_range.
  unfold len. destruct favourites; [congruence|cbn [List.length]; lia].
Qed.

Lemma run_downs downs hi events :
  Forall (fun d => isDownKey matchesKey d = true) downs ->
  0 <= hi ->
  (Z.to_nat hi + List.length downs < List.length favourites)%nat ->
  run hi (downs ++ events) = run (hi + Z.of_nat (List.length downs)) events.
Proof.
  intros Hd. revert hi. induction Hd as [|d r Hd _ IH]; intros hi H0 Hlt.
  - cbn [app List.length]. now rewrite Z.add_0_r.
  - cbn [app feed]. rewrite (picker_down hi d Hd).
    cbn [List.length] in *. unfold len.
    replace (Z.min (Z.of_nat (List.length favourites) - 1) (hi + 1))
      with (hi + 1) by lia.
    rewrite IH by lia. f_equal. lia.
Qed.

(** X22.  Every favourite can be picked with the arrows: as many down
    keys as rows stand above it, then enter, finish with that favourite,
    also when an earlier favourite has the same key. *)
Theorem arrows_reach_every_favourite i f downs enter :
  nth_error favourites i = Some f ->
  List.length downs = i ->
  Forall (fun d => isDownKey matchesKey d = true) downs ->
  isEnterKey matchesKey enter = true ->
  run 0 (downs ++ [enter]) = (Z.of_nat i, Done (Some f)).
Proof.
  intros Hn Hl Hd He.
  assert (Hi : (i < List.length favourites)%nat)
    by (apply nth_error_Some; congruence).
  rewrite (run_downs downs 0 [enter] Hd) by (cbn; lia).
  rewrite Hl, Z.add_0_l. cbn [feed].
  rewrite (picker_enter _ enter He), at_nth by lia.
  rewrite Nat2Z.id, Hn. unfold len.
  replace (0 <=? Z.of_nat i) with true by (symmetry; apply Z.leb_le; lia).
  replace (Z.of_nat i <? Z.of_nat (List.length favourites)) with true
    by (symmetry; apply Z.ltb_lt; lia).
  reflexivity.
Qed.

(** X23.  Whatever the input, a favourite that one call of the input
    handler finishes with is either the highlighted row, picked with
    enter, or the first favourite of the list whose key, in lower case,
    is the key that was pressed: of two favourites with the same key the
    later one is never picked by its key. *)
Theorem picked_is_highlighted_or_first_match hi data hi' f :
  handle hi data = (hi', Done (Some f)) ->
  hi' = hi
  /\ ((isEnterKey matchesKey data = true
       /\ 0 <= hi /\ nth_error favourites (Z.to_nat hi) = Some f)
      \/ (isReservedKey matchesKey data = false
          /\ exists pressed,
               pressedKey parseKey data = Some pressed
               /\ List.find (fun g => String.eqb (lowerKey g) pressed)
                    favourites = Some f)).
Proof.
  unfold handleInput, isEnterKey, isCancelKey, isReservedKey.
  destruct (matchesKey data (Named "escape") || matchesKey data (Ctrl "c"))
    eqn:Ec; [discriminate|].
  apply orb_false_elim in Ec as [Ee Ec]. rewrite ?Ee, ?Ec.
  destruct (matchesKey data (Named "backspace")) eqn:Eb; [discriminate|].
  destruct (matchesKey data (Named "up") || matchesKey data (Ctrl "p"))
    eqn:Eu; [discriminate|].
  apply orb_false_elim in Eu as [Eu Ep]. rewrite ?Eu, ?Ep.
  destruct (matchesKey data (Named "down") || matchesKey data (Ctrl "n"))
    eqn:Ed; [discriminate|].
  apply orb_false_elim in Ed as [Ed En]. rewrite ?Ed, ?En.
  cbn [orb negb andb].
  destruct (matchesKey data (Named "enter")) eqn:En'.
  - destruct ((0 <=? hi) && (hi <? len favourites)) eqn:R; [|discriminate].
    apply andb_prop in R as [R0 R1]. apply Z.leb_le in R0.
    rewrite at_nth by lia.
    destruct (nth_error favourites (Z.to_nat hi)) as [g|] eqn:N;
      [|discriminate].
    intros [= <- <-]. split; [reflexivity|]. left. repeat split; assumption.
  - destruct (pressedKey parseKey data) as [pressed|]; [|discriminate].
    destruct (truthy (Some pressed)); [|discriminate].
    destruct (List.find _ favourites) as [g|] eqn:F; [|discriminate].
    intros [= <- <-]. split; [reflexivity|]. right.
    split; [reflexivity|]. exists pressed. split; [reflexivity|exact F].
Qed.

Lemma at_member (A : Type) (l : list A) (i : Z) (x : A) :
  at_ l i = Some x -> In x l.
Proof.
  unfold at_. destruct (i <? 0); [discriminate|]. apply nth_error_In.
Qed.

Lemma handle_done_member hi data hi' f :
  handle hi data = (hi', Done (Some f)) -> In f favourites.
Proof.
  unfold handleInput.
  repeat match goal with
         | |- context [if ?b then _ else _] => destruct b
         | |- context [match at_ ?l ?i with Some _ => _ | None => _ end] =>
             destruct (at_ l i) eqn:?
         | |- context [match pressedKey ?p ?d with Some _ => _ | None => _ end] =>
             destruct (pressedKey p d)
         | |- context [match List.find ?p ?l with Some _ => _ | None => _ end] =>
             destruct (List.find p l) eqn:?
         end;
    try discriminate; intros [= <- <-].
  - eapply at_member; eassumption.
  - match goal with
    | H : List.find _ _ = Some _ |- _ => apply find_some in H; tauto
    end.
Qed.

Lemma run_done_member events hi hi' f :
  run hi events = (hi', Done (Some f)) -> In f favourites.
Proof.
  revert hi. induction events as [|data rest IH]; intros hi;
    [discriminate|].
  cbn [feed]. destruct (handle hi data) as [h sig] eqn:E.
  destruct sig as [| |r|]; try discriminate; try apply IH.
  intros [= <- ->]. eapply handle_done_member; eassumption.
Qed.

End Picker.

(** *** The switch that follows the picker *)

Section Flow.

Variable hasUI : bool.
Variable file : option string.
Variable JSON_parse : string -> option Json.
Variable find : string -> string -> option ModelSwitcher.Model.
Variable setModel : ModelSwitcher.Model -> bool.
Variable matchesKey : string -> KeyId -> bool.
Variable parseKey : string -> option string.
Variable numberIsZero : string -> bool.
Variable stringify : Json -> string.

Abbreviation flow :=
  (runFavouriteModels hasUI file JSON_parse find setModel matchesKey
     parseKey numberIsZero stringify).
Abbreviation applied :=
  (applyFavourite find setModel numberIsZero stringify).

Lemma includes_truthy v :
  includesLevel v = true ->
  truthyJson numberIsZero v = true
  /\ exists level, v = Some (JString level)
                   /\ In level ModelSwitcher.ALL_THINKING_LEVELS.
Proof.
  destruct v as [[| | |s| |]|]; try discriminate.
  cbn [includesLevel truthyJson]. intros H.
  apply existsb_exists in H as (l & Hin & E).
  apply String.eqb_eq in E. subst l. split.
  - destruct s; [|reflexivity].
    cbn in Hin. intuition discriminate.
  - now exists s.
Qed.

(** X24.  A call of [runFavouriteModels] has one of seven effect
    traces: nothing without a UI; one warning and no picker when no
    favourite is loaded; otherwise the picker, opened once on a list
    that is not empty, followed by nothing (cancelled or still open), by
    one error (the favourite is not in the registry), by [setModel] and
    one warning ([setModel] answered false), or by [setModel] answering
    true, at most one [setThinkingLevel] and one [info] notification.
    The model that is set is the registry's answer for the provider and
    model of a favourite of the list; a level is set only after
    [setModel] answered true, it is the favourite's and one of
    [ALL_THINKING_LEVELS]; and the input handler never throws. *)
Theorem favourites_flow_effects (events : list string) :
  Shape find setModel (fst (flow events))
  /\ snd (flow events) <> Crashed.
Proof.
  unfold runFavouriteModels.
  destruct hasUI; cbn [negb]; [|split; [constructor|discriminate]].
  set (favourites := entries (loadFavourites JSON_parse file)).
  destruct (List.length favourites =? 0)%nat eqn:L;
    [split; [constructor|discriminate]|].
  assert (Hne : favourites <> []).
  { intros E. rewrite E in L. discriminate. }
  assert (H0 : 0 <= 0 < len favourites).
  { unfold len. destruct favourites; [congruence|cbn [List.length]; lia]. }
  pose proof (run_in_range matchesKey parseKey favourites events 0 H0)
    as (_ & Ht).
  destruct (feed matchesKey parseKey favourites 0 events) as [hi sig] eqn:R.
  cbn [snd] in Ht.
  destruct sig as [| |[f|]|]; cbn [fst snd];
    try (split; [now constructor|discriminate]); [|congruence].
  split; [|discriminate].
  pose proof (run_done_member matchesKey parseKey favourites events 0 hi f R)
    as Hin.
  unfold applyFavourite.
  destruct (find (provider f) (model f)) as [m|] eqn:F;
    [|now apply NotInRegistry with (f := f)].
  destruct (setModel m) eqn:S; cbn [negb];
    [|now apply NoApiKey with (f := f)].
  destruct (includesLevel (thinking f)) eqn:I.
  - destruct (includes_truthy _ I) as (T & level & Hl & Hlev).
    rewrite T. cbn [andb app]. rewrite Hl. cbn [asLevel].
    now apply SwitchedWithLevel with (f := f).
  - rewrite andb_false_r. cbn [app].
    now apply Switched with (f := f).
Qed.

(** X25.  The level that is announced is the one that is configured,
    whether or not it is set: after [setModel] answered true, a
    favourite whose [thinking] is a non-empty string is announced with
    [(thinking: LEVEL)]; [setThinkingLevel] is called before that when
    the string is one of [ALL_THINKING_LEVELS], and not at all
    otherwise. *)
Theorem configured_level_is_announced f m level :
  find (provider f) (model f) = Some m ->
  setModel m = true ->
  thinking f = Some (JString level) ->
  level <> EmptyString ->
  applied f
  = ([SetModel m]
       ++ (if existsb (String.eqb level) ModelSwitcher.ALL_THINKING_LEVELS
           then [SetThinkingLevel level] else [])
       ++ [Notify ("Switched to " ++ label f ++ " (thinking: " ++ level
                   ++ ")") "info"])%list.
Proof.
  intros F S T Hne. unfold applyFavourite. rewrite F, S, T.
  cbn [negb truthyJson includesLevel asLevel display app].
  apply String.eqb_neq in Hne. rewrite Hne. cbn [negb andb].
  reflexivity.
Qed.

End Flow.

Lemma loaded_favourites_have_all_fields_witness :
  exists f, asEntry FavouriteSamples.jsonUltra = Some f
            /\ String.length (key f) = 1%nat
            /\ isAscii (key f) = true.
Proof.
  apply (proj1 (loaded_favourites_have_all_fields
                  FavouriteSamples.JSON_parse (Some "presets") eq_refl)).
  left. reflexivity.
Defined.

Lemma picker_stays_in_range_witness :
  0 <= fst (feed Legacy.matchesKey Legacy.parseKey
              FavouriteSamples.favourites 0
              [Legacy.DOWN; Legacy.CTRL_N; Legacy.DOWN; Legacy.DOWN;
               Legacy.UP; "q"])
    < len FavouriteSamples.favourites
  /\ snd (feed Legacy.matchesKey Legacy.parseKey
            FavouriteSamples.favourites 0
            [Legacy.DOWN; Legacy.CTRL_N; Legacy.DOWN; Legacy.DOWN;
             Legacy.UP; "q"])
     <> Throws.
Proof.
  apply (picker_stays_in_range Legacy.matchesKey Legacy.parseKey
           FavouriteSamples.favourites).
  discriminate.
Defined.

Lemma arrows_reach_every_favourite_witness :
  feed Legacy.matchesKey Legacy.parseKey FavouriteSamples.favourites 0
    ([Legacy.DOWN; Legacy.CTRL_N] ++ [Legacy.ENTER])
  = (2, Done (Some FavouriteSamples.high)).
Proof.
  apply (arrows_reach_every_favourite Legacy.matchesKey Legacy.parseKey
           FavouriteSamples.favourites 2 FavouriteSamples.high
           [Legacy.DOWN; Legacy.CTRL_N] Legacy.ENTER).
  - reflexivity.
  - reflexivity.
  - repeat constructor.
  - reflexivity.
Defined.

Lemma picked_is_highlighted_or_first_match_witness :
  2 = 2
  /\ ((isEnterKey Legacy.matchesKey "u" = true
       /\ 0 <= 2
       /\ nth_error FavouriteSamples.favourites (Z.to_nat 2)
          = Some FavouriteSamples.ultra)
      \/ (isReservedKey Legacy.matchesKey "u" = false
          /\ exists pressed,
               pressedKey Legacy.parseKey "u" = Some pressed
               /\ List.find (fun g => String.eqb (lowerKey g) pressed)
                    FavouriteSamples.favourites
                  = Some FavouriteSamples.ultra)).
Proof.
  apply (picked_is_highlighted_or_first_match Legacy.matchesKey
           Legacy.parseKey FavouriteSamples.favourites 2 "u" 2
           FavouriteSamples.ultra).
  reflexivity.
Defined.

Lemma configured_level_is_announced_witness :
  applyFavourite FavouriteSamples.find (fun _ => true) (fun _ => false)
    (fun _ => EmptyString) FavouriteSamples.ultra
  = [SetModel Samples.claudeX;
     Notify "Switched to Ultra (thinking: ultra)" "info"].
Proof.
  apply (configured_level_is_announced FavouriteSamples.find
           (fun _ => true) (fun _ => false) (fun _ => EmptyString)
           FavouriteSamples.ultra Samples.claudeX "ultra").
  - reflexivity.
  - reflexivity.
  - reflexivity.
  - discriminate.
Defined.

(** The whole call on a key press: the key [u] picks the first favourite
    whose key is [u] in lower case. *)
Example favourite_by_key_end_to_end :
  runFavouriteModels true (Some "presets") FavouriteSamples.JSON_parse
    FavouriteSamples.find (fun _ => true) Legacy.matchesKey Legacy.parseKey
    (fun _ => false) (fun _ => EmptyString) [Legacy.DOWN; "u"]
  = ([OpenPicker FavouriteSamples.favourites;
      SetModel Samples.claudeX;
      Notify "Switched to Ultra (thinking: ultra)" "info"], Returned).
Proof. reflexivity. Qed.

End FavouritesMore.
